(** * go-mclogs-bot: the mclo.gs client and the Discord message handler

    A shallow embedding of the Go sources:
    - package [mclogs], the API client with [PasteLog], [GetRawLog],
      [GetInsights], [AnalyseLog] and [CheckLimits] (module [Client], the
      types in module [Mclogs]);
    - [handleMessageCreate] in its fan-out form: one goroutine per
      attachment let through, a slice of embed fields under a mutex, a wait
      group, one embed in reply (module [Bot]);
    - [handleMessageCreate] in the sequential form of [main.go]: one embed
      per attachment, [log.Fatalf] on a failed paste (module [MainGo]);
    - [handleMessageCreate] in the sequential form that logs through
      [slog]: as [main.go], but a failed paste ends the call (module
      [MainSlog]);
    - [handleMessageCreate] in its first form, which answers with a plain
      message (module [MainFirst]).

    Go code that talks to the outside (HTTP, the Discord session, the
    clock) is written as a tree of commands, [Prog]; the outside itself is
    an [Outside], a state with what each call does to it.  The goroutines
    of a call are the threads of a machine, [Bot.Machine], that a schedule
    drives one command at a time.  Calls to the logger and the deferred
    [resp.Body.Close()] are left out: nothing flows back from them. *)

From stdpp Require Import base option list gmap strings pretty.
From Stdlib Require Import ZArith Lia Ascii Permutation.

Local Open Scope Z_scope.

(** ** Go values *)

(** A non-nil [error] is its message; a possibly-nil one is an [option]. *)
Definition error : Type := string.

(** [errors.New] never returns nil, whatever the text. *)
Definition errors_New (text : string) : option error := Some text.

(** The two-valued results of the library calls whose contract is
    "exactly one of the value and the error is set". *)
Inductive Result (A : Type) : Type :=
| Ok (a : A)
| Err (e : error).
Arguments Ok {A} a.
Arguments Err {A} e.

(** [len] of a byte slice or a string, as a Go [int]. *)
Definition len (s : string) : Z := Z.of_nat (String.length s).

(** [strings.HasPrefix(s, prefix)]. *)
Definition strings_HasPrefix (s pre : string) : bool := String.prefix pre s.

(** ** net/url: form encoding *)

Definition upperhex (n : N) : ascii :=
  match n with
  | 0 => "0" | 1 => "1" | 2 => "2" | 3 => "3" | 4 => "4" | 5 => "5"
  | 6 => "6" | 7 => "7" | 8 => "8" | 9 => "9" | 10 => "A" | 11 => "B"
  | 12 => "C" | 13 => "D" | 14 => "E" | _ => "F"
  end%N%char.

(** [shouldEscape(c, encodeQueryComponent)]: only the unreserved bytes
    (letters, digits, [-], [_], [.], [~]) are left as they are. *)
Definition shouldEscape (c : ascii) : bool :=
  let n := N_of_ascii c in
  negb (((48 <=? n) && (n <=? 57)) || ((65 <=? n) && (n <=? 90))
        || ((97 <=? n) && (n <=? 122))
        || (n =? 45) || (n =? 95) || (n =? 46) || (n =? 126))%N.

(** [url.QueryEscape]: a space becomes [+], an escaped byte [%XX]. *)
Fixpoint url_QueryEscape (s : string) : string :=
  match s with
  | EmptyString => EmptyString
  | String c s' =>
      if Ascii.eqb c " "%char then String "+" (url_QueryEscape s')
      else if shouldEscape c then
        let n := N_of_ascii c in
        String "%" (String (upperhex (N.shiftr n 4))
                      (String (upperhex (N.land n 15)) (url_QueryEscape s')))
      else String c (url_QueryEscape s')
  end.

(** [url.Values]: the keys of the form, each with its values. *)
Definition url_Values : Type := list (string * string).

Definition Values_Set (v : url_Values) (key value : string) : url_Values :=
  (key, value) :: List.filter (fun kv => negb (String.eqb (fst kv) key)) v.

(** [Values.Encode]: [key=value] pairs joined by [&] (sorted by key in Go;
    the client only ever sets the one key [content]). *)
Fixpoint Values_Encode (v : url_Values) : string :=
  match v with
  | [] => ""
  | [(k, x)] => url_QueryEscape k +:+ "=" +:+ url_QueryEscape x
  | (k, x) :: rest =>
      url_QueryEscape k +:+ "=" +:+ url_QueryEscape x +:+ "&" +:+ Values_Encode rest
  end.

(** ** net/http *)

Record Request : Type := mkRequest {
  Method : string;
  ReqURL : string;
  Header : gmap string string;
  ReqBody : string
}.

Definition Header_Set (req : Request) (key value : string) : Request :=
  {| Method := Method req; ReqURL := ReqURL req;
     Header := <[key := value]> (Header req); ReqBody := ReqBody req |}.

Definition http_StatusOK : Z := 200.

(** ** discordgo *)

Record MessageAttachment : Type := mkAttachment {
  URL : string;
  ContentType : string;
  Size : Z
}.

Record User : Type := mkUser {
  UserID : string;
  Username : string;
  AvatarURL : string -> string
}.

Record MessageCreate : Type := mkMessage {
  ID : string;
  ChannelID : string;
  Author : User;
  Attachments : list MessageAttachment
}.

Record MessageEmbedField : Type := mkField {
  Name : string;
  Value : string;
  Inline : bool
}.

Record MessageEmbedAuthor : Type := mkEmbedAuthor {
  AuthorName : string;
  AuthorURL : string;
  IconURL : string
}.

Record MessageEmbed : Type := mkEmbed {
  EmbedAuthor : MessageEmbedAuthor;
  Title : string;
  Description : string;
  Fields : list MessageEmbedField;
  Color : Z;
  Timestamp : string
}.

(** ** package mclogs: the response types *)

Module Mclogs.

(** [http.Client], of which only the timeout is set. *)
Record http_Client : Type := mkHTTPClient {
  Timeout : Z                     (* a [time.Duration], in nanoseconds *)
}.

Definition time_Second : Z := 1000000000.

(** Client provides access to the mclo.gs API. *)
Record Client : Type := mkClient {
  BaseURL : string;
  HTTPClient : http_Client
}.

(** NewClient creates a new mclo.gs API client. *)
Definition NewClient : Client :=
  {| BaseURL := "https://api.mclo.gs";
     HTTPClient := {| Timeout := 10 * time_Second |} |}.

Record PasteResponse : Type := mkPaste {
  Success : bool;
  ID : string;
  URL : string;
  Raw : string;
  Error : string
}.

Record LogLine : Type := mkLogLine { Number : Z; Content : string }.

Record LogEntry : Type := mkLogEntry {
  Level : Z;
  Time : option string;
  Prefix : string;
  Lines : list LogLine
}.

Record Solution : Type := mkSolution { SolutionMessage : string }.

Record Problem : Type := mkProblem {
  ProblemMessage : string;
  ProblemCounter : Z;
  ProblemEntry : LogEntry;
  Solutions : list Solution
}.

Record Information : Type := mkInformation {
  InfoMessage : string;
  InfoCounter : Z;
  Label : string;
  InfoValue : string;
  InfoEntry : LogEntry
}.

Record Analysis : Type := mkAnalysis {
  Problems : list Problem;
  Informations : list Information
}.

Record InsightsResponse : Type := mkInsights {
  InsID : string;
  InsName : string;
  InsType : string;
  Version : string;
  Title : string;
  InsAnalysis : Analysis;
  InsError : string
}.

Record Limits : Type := mkLimits {
  StorageTime : Z;
  MaxLength : Z;
  MaxLines : Z
}.

(** The anonymous [errResp] struct of the error paths. *)
Record ErrResp : Type := mkErrResp { ErrSuccess : bool; ErrError : string }.

End Mclogs.

(** ** The Go library as far as the sources use it

    What the standard library does with a response body (reading it to the
    end, decoding JSON into a struct) and with a URL ([http.NewRequest]
    parses it and may refuse it) is taken as given. *)

Record Response (B : Type) : Type := mkResponse {
  StatusCode : Z;
  RespContentType : string;       (* resp.Header.Get("Content-Type") *)
  RespBody : B
}.
Arguments mkResponse {B}.
Arguments StatusCode {B}.
Arguments RespContentType {B}.
Arguments RespBody {B}.

Class Runtime : Type := {
  Body : Type;
  io_ReadAll : Body -> Result string;
  json_PasteResponse : Body -> Result Mclogs.PasteResponse;
  json_ErrResp : Body -> Result Mclogs.ErrResp;
  json_InsightsResponse : Body -> Result Mclogs.InsightsResponse;
  json_Limits : Body -> Result Mclogs.Limits;
  (** the error of [http.NewRequest(method, url, _)], if any *)
  NewRequest_error : string -> string -> option error
}.

(** The outside: a state and what each call does to it. *)
Class Outside `{Runtime} : Type := {
  World : Type;
  http_Get : string -> World -> Result (Response Body) * World;
  HTTPClient_Do : Request -> World -> Result (Response Body) * World;
  Session_ChannelTyping : string -> World -> option error * World;
  Session_User : string -> World -> Result User * World;
  Session_ChannelMessageSendEmbed :
    string -> MessageEmbed -> World -> option error * World;
  time_Now : World -> string * World     (* formatted as RFC 3339 *)
}.

(** ** Commands

    A computation is a tree of calls to the outside, each with the
    continuation that receives its answer.  [Panic] is an unrecovered
    run-time panic, [Fatal] is [log.Fatalf] (the process exits with 1),
    [Append] is the critical section [mu.Lock(); fs = append(fs, f);
    mu.Unlock()]. *)

Inductive Prog `{Runtime} (R : Type) : Type :=
| Ret (r : R)
| Panic (msg : string)
| Fatal (msg : string)
| Get (url : string) (k : Result (Response Body) -> Prog R)
| Do (req : Request) (k : Result (Response Body) -> Prog R)
| Typing (channel : string) (k : option error -> Prog R)
| GetUser (id : string) (k : Result User -> Prog R)
| SendEmbed (channel : string) (embed : MessageEmbed) (k : option error -> Prog R)
| Now (k : string -> Prog R)
| Append (f : MessageEmbedField) (k : Prog R).
Arguments Ret {_ R} r.
Arguments Panic {_ R} msg.
Arguments Fatal {_ R} msg.
Arguments Get {_ R} url k.
Arguments Do {_ R} req k.
Arguments Typing {_ R} channel k.
Arguments GetUser {_ R} id k.
Arguments SendEmbed {_ R} channel embed k.
Arguments Now {_ R} k.
Arguments Append {_ R} f k.

Fixpoint bind `{Runtime} {A R : Type} (p : Prog A) (f : A -> Prog R) : Prog R :=
  match p with
  | Ret a => f a
  | Panic msg => Panic msg
  | Fatal msg => Fatal msg
  | Get url k => Get url (fun x => bind (k x) f)
  | Do req k => Do req (fun x => bind (k x) f)
  | Typing c k => Typing c (fun x => bind (k x) f)
  | GetUser id k => GetUser id (fun x => bind (k x) f)
  | SendEmbed c e k => SendEmbed c e (fun x => bind (k x) f)
  | Now k => Now (fun x => bind (k x) f)
  | Append fl k => Append fl (bind k f)
  end.

Notation "'let*' x ':=' p 'in' q" := (bind p (fun x => q))
  (at level 10, x name, p at level 100, q at level 200).
Notation "'let*' ' pat ':=' p 'in' q" :=
  (bind p (fun x => match x with pat => q end))
  (at level 10, pat pattern, p at level 100, q at level 200).

(** Reading a field through a pointer: nil panics. *)
Definition deref `{Runtime} {A R : Type} (p : option A) (k : A -> Prog R) : Prog R :=
  match p with
  | Some a => k a
  | None => Panic "invalid memory address or nil pointer dereference"
  end.

(** What was observed of a run: every call with its answer. *)
Inductive Event `{Runtime} : Type :=
| EvGet (url : string) (ans : Result (Response Body))
| EvDo (req : Request) (ans : Result (Response Body))
| EvTyping (channel : string) (ans : option error)
| EvUser (id : string) (ans : Result User)
| EvSend (channel : string) (embed : MessageEmbed) (ans : option error)
| EvNow (stamp : string)
| EvAppend (f : MessageEmbedField).

(** How a goroutine, or the process, ends. *)
Inductive Exit (R : Type) : Type :=
| Returned (r : R)
| Panicked (msg : string)
| Exited (msg : string).
Arguments Returned {R} r.
Arguments Panicked {R} msg.
Arguments Exited {R} msg.

Record Outcome `{Outside} (R : Type) : Type := mkOutcome {
  exit : Exit R;
  world : World;
  appended : list MessageEmbedField;
  events : list Event
}.
Arguments mkOutcome {_ _ R}.
Arguments exit {_ _ R}.
Arguments world {_ _ R}.
Arguments appended {_ _ R}.
Arguments events {_ _ R}.

(** One goroutine run on its own, from the world [w] and the slice [fs]. *)
Fixpoint exec `{Outside} {R : Type} (p : Prog R) (w : World)
    (fs : list MessageEmbedField) (tr : list Event) : Outcome R :=
  match p with
  | Ret r => mkOutcome (Returned r) w fs tr
  | Panic msg => mkOutcome (Panicked msg) w fs tr
  | Fatal msg => mkOutcome (Exited msg) w fs tr
  | Get url k =>
      let (a, w') := http_Get url w in exec (k a) w' fs (tr ++ [EvGet url a])
  | Do req k =>
      let (a, w') := HTTPClient_Do req w in exec (k a) w' fs (tr ++ [EvDo req a])
  | Typing c k =>
      let (a, w') := Session_ChannelTyping c w in
      exec (k a) w' fs (tr ++ [EvTyping c a])
  | GetUser id k =>
      let (a, w') := Session_User id w in exec (k a) w' fs (tr ++ [EvUser id a])
  | SendEmbed c e k =>
      let (a, w') := Session_ChannelMessageSendEmbed c e w in
      exec (k a) w' fs (tr ++ [EvSend c e a])
  | Now k =>
      let (a, w') := time_Now w in exec (k a) w' fs (tr ++ [EvNow a])
  | Append f k => exec k w (fs ++ [f]) (tr ++ [EvAppend f])
  end.

(** ** package mclogs: the methods of [*Client] *)

Module Client.
Import Mclogs.

Section Methods.
Context `{Runtime}.

(** [http.NewRequest]: the request as built, or the parse error. *)
Definition http_NewRequest (method url body : string) : Result Request :=
  match NewRequest_error method url with
  | Some e => Err e
  | None => Ok {| Method := method; ReqURL := url; Header := ∅; ReqBody := body |}
  end.

(** PasteLog uploads the given log content and returns the PasteResponse. *)
Definition PasteLog (c : Client) (content : string)
  : Prog (option PasteResponse * option error) :=
  let endpoint := BaseURL c +:+ "/1/log" in
  let data := Values_Set [] "content" content in
  match http_NewRequest "POST" endpoint (Values_Encode data) with
  | Err e => Ret (None, Some e)
  | Ok req =>
      let req := Header_Set req "Content-Type" "application/x-www-form-urlencoded" in
      Do req (fun ans =>
        match ans with
        | Err e => Ret (None, Some e)
        | Ok resp =>
            match json_PasteResponse (RespBody resp) with
            | Err e => Ret (None, Some e)
            | Ok pr =>
                if negb (Success pr) then Ret (None, errors_New (Error pr))
                else Ret (Some pr, None)
            end
        end)
  end.

(** GetRawLog retrieves the raw log content by its id. *)
Definition GetRawLog (c : Client) (id : string) : Prog (string * option error) :=
  let endpoint := BaseURL c +:+ "/1/raw/" +:+ id in
  match http_NewRequest "GET" endpoint "" with
  | Err e => Ret ("", Some e)
  | Ok req =>
      Do req (fun ans =>
        match ans with
        | Err e => Ret ("", Some e)
        | Ok resp =>
            if strings_HasPrefix (RespContentType resp) "text/plain" then
              match io_ReadAll (RespBody resp) with
              | Err e => Ret ("", Some e)
              | Ok b => Ret (b, None)
              end
            else
              match json_ErrResp (RespBody resp) with
              | Err e => Ret ("", Some e)
              | Ok errResp => Ret ("", errors_New (ErrError errResp))
              end
        end)
  end.

(** The part [GetInsights] and [AnalyseLog] share once the response is in. *)
Definition decodeInsights (resp : Response Body)
  : option InsightsResponse * option error :=
  if negb (Z.eqb (StatusCode resp) http_StatusOK) then
    match json_ErrResp (RespBody resp) with
    | Err e => (None, Some e)
    | Ok errResp => (None, errors_New (ErrError errResp))
    end
  else
    match json_InsightsResponse (RespBody resp) with
    | Err e => (None, Some e)
    | Ok insights =>
        if negb (String.eqb (InsError insights) "") then
          (None, errors_New (InsError insights))
        else (Some insights, None)
    end.

(** GetInsights retrieves parsed insights for the log with the given id. *)
Definition GetInsights (c : Client) (id : string)
  : Prog (option InsightsResponse * option error) :=
  let endpoint := BaseURL c +:+ "/1/insights/" +:+ id in
  match http_NewRequest "GET" endpoint "" with
  | Err e => Ret (None, Some e)
  | Ok req =>
      Do req (fun ans =>
        match ans with
        | Err e => Ret (None, Some e)
        | Ok resp => Ret (decodeInsights resp)
        end)
  end.

(** AnalyseLog analyses the log content without saving it. *)
Definition AnalyseLog (c : Client) (content : string)
  : Prog (option InsightsResponse * option error) :=
  let endpoint := BaseURL c +:+ "/1/analyse" in
  let data := Values_Set [] "content" content in
  match http_NewRequest "POST" endpoint (Values_Encode data) with
  | Err e => Ret (None, Some e)
  | Ok req =>
      let req := Header_Set req "Content-Type" "application/x-www-form-urlencoded" in
      Do req (fun ans =>
        match ans with
        | Err e => Ret (None, Some e)
        | Ok resp => Ret (decodeInsights resp)
        end)
  end.

(** CheckLimits retrieves the current storage limits for logs. *)
Definition CheckLimits (c : Client) : Prog (option Limits * option error) :=
  let endpoint := BaseURL c +:+ "/1/limits" in
  match http_NewRequest "GET" endpoint "" with
  | Err e => Ret (None, Some e)
  | Ok req =>
      Do req (fun ans =>
        match ans with
        | Err e => Ret (None, Some e)
        | Ok resp =>
            match json_Limits (RespBody resp) with
            | Err e => Ret (None, Some e)
            | Ok limits => Ret (Some limits, None)
            end
        end)
  end.

End Methods.
End Client.

(** ** package main *)

(** [var mclc = mclogs.NewClient()] *)
Definition mclc : Mclogs.Client := Mclogs.NewClient.

(** The ceiling on a downloaded body, [10*1024*1024]. *)
Definition maxBody : Z := 10 * 1024 * 1024.

(** *** The fan-out handler *)

Module Bot.

Section Handler.
Context `{Outside}.

(** The goroutine started for one attachment received from the channel. *)
Definition worker (at' : MessageAttachment) : Prog unit :=
  Get (URL at') (fun ans =>
    match ans with
    | Err _ => Ret tt
    | Ok resp =>
        match io_ReadAll (RespBody resp) with
        | Err _ => Ret tt
        | Ok body =>
            if maxBody <? len body then Ret tt
            else
              let* '(pr, err) := Client.PasteLog mclc body in
              match err with
              | Some _ => Ret tt
              | None =>
                  deref pr (fun pr =>
                    let* '(an, err) := Client.GetInsights mclc (Mclogs.ID pr) in
                    (* a non-nil err is logged, and the code goes on *)
                    deref an (fun an =>
                      Append {| Name := Mclogs.Title an;
                                Value := Mclogs.URL pr;
                                Inline := true |}
                             (Ret tt)))
              end
        end
    end).

(** What follows [wg.Wait()]: nothing for an empty slice, else one embed. *)
Definition assemble (m : MessageCreate) (fs : list MessageEmbedField) : Prog unit :=
  if Z.of_nat (length fs) =? 0 then Ret tt
  else
    Now (fun stamp =>
      let re := {| EmbedAuthor := {| AuthorName := "mclo.gs";
                                     AuthorURL := "https://mclo.gs/";
                                     IconURL := "" |};
                   Title := "Your logs were uploaded for easier reading";
                   Description := "-# [Why?](https://github.com/EmilyxFox/go-mclogs-bot/blob/main/why.md) [Source](https://github.com/emilyxfox/go-mclogs-bot)";
                   Fields := fs;
                   Color := 0x2d3943;
                   Timestamp := stamp |} in
      GetUser "@me" (fun ans =>
        let re :=
          match ans with
          | Err _ => re
          | Ok botUser =>
              {| EmbedAuthor := {| AuthorName := AuthorName (EmbedAuthor re);
                                   AuthorURL := AuthorURL (EmbedAuthor re);
                                   IconURL := AvatarURL botUser "32" |};
                 Title := Title re; Description := Description re;
                 Fields := Fields re; Color := Color re;
                 Timestamp := Timestamp re |}
          end in
        SendEmbed (ChannelID m) re (fun _ => Ret tt))).

(** The goroutines of one call: the one that feeds the channel, the ones
    started by the receiving loop, and the caller itself. *)
Inductive Thread : Type :=
| Producer
| Worker (i : nat)
| Main.

(** The state of one call of the handler.  [pending] is what the feeding
    loop has still to visit; [workers] are the goroutines started so far,
    each with the attachment it was given and what it has left to do;
    [status] is set once the call has returned or the process has died. *)
Record Machine : Type := mkMachine {
  msg : MessageCreate;
  pending : list MessageAttachment;
  typingStarted : bool;
  workers : list (MessageAttachment * Prog unit);
  fs : list MessageEmbedField;
  now : World;
  trace : list (Thread * Event);
  status : option (Exit unit)
}.

Definition finished (p : Prog unit) : bool :=
  match p with Ret _ => true | _ => false end.

(** One command of a goroutine: the answer of the outside, the new world,
    the event, and what is left to do. *)
Definition command (p : Prog unit) (w : World)
  : option (Prog unit * World * Event) :=
  match p with
  | Ret _ | Panic _ | Fatal _ => None
  | Get url k => let (a, w') := http_Get url w in Some (k a, w', EvGet url a)
  | Do req k => let (a, w') := HTTPClient_Do req w in Some (k a, w', EvDo req a)
  | Typing c k =>
      let (a, w') := Session_ChannelTyping c w in Some (k a, w', EvTyping c a)
  | GetUser id k => let (a, w') := Session_User id w in Some (k a, w', EvUser id a)
  | SendEmbed c e k =>
      let (a, w') := Session_ChannelMessageSendEmbed c e w in
      Some (k a, w', EvSend c e a)
  | Now k => let (a, w') := time_Now w in Some (k a, w', EvNow a)
  | Append f k => Some (k, w, EvAppend f)
  end.

Definition stepProducer (st : Machine) : Machine :=
  match pending st with
  | [] => st                                  (* close(ch) *)
  | at' :: rest =>
      if strings_HasPrefix (ContentType at') "text/plain" then
        if negb (typingStarted st) then
          let (a, w') := Session_ChannelTyping (ChannelID (msg st)) (now st) in
          mkMachine (msg st) (pending st) true (workers st) (fs st) w'
            (trace st ++ [(Producer, EvTyping (ChannelID (msg st)) a)]) (status st)
        else
          (* ch <- at, received by the loop, which starts the goroutine *)
          mkMachine (msg st) rest (typingStarted st)
            (workers st ++ [(at', worker at')]) (fs st) (now st) (trace st)
            (status st)
      else
        mkMachine (msg st) rest (typingStarted st) (workers st) (fs st) (now st)
          (trace st) (status st)
  end.

Definition stepWorker (i : nat) (st : Machine) : Machine :=
  match workers st !! i with
  | None => st
  | Some (at', p) =>
      match p with
      | Ret _ => st                           (* wg.Done() has run *)
      | Panic e =>
          mkMachine (msg st) (pending st) (typingStarted st) (workers st) (fs st)
            (now st) (trace st) (Some (Panicked e))
      | Fatal e =>
          mkMachine (msg st) (pending st) (typingStarted st) (workers st) (fs st)
            (now st) (trace st) (Some (Exited e))
      | _ =>
          match command p (now st) with
          | None => st
          | Some (p', w', ev) =>
              mkMachine (msg st) (pending st) (typingStarted st)
                (<[i := (at', p')]> (workers st))
                (match ev with EvAppend f => fs st ++ [f] | _ => fs st end)
                w' (trace st ++ [(Worker i, ev)]) (status st)
          end
      end
  end.

(** The caller: the receiving loop ends when the channel is closed, and
    [wg.Wait()] returns when every goroutine started has finished. *)
Definition stepMain (st : Machine) : Machine :=
  match pending st with
  | [] =>
      if forallb (fun ap => finished (snd ap)) (workers st) then
        let o := exec (assemble (msg st) (fs st)) (now st) (fs st) [] in
        mkMachine (msg st) [] (typingStarted st) (workers st) (appended o)
          (world o) (trace st ++ List.map (fun ev => (Main, ev)) (events o))
          (Some (exit o))
      else st
  | _ => st
  end.

Definition step (t : Thread) (st : Machine) : Machine :=
  match status st with
  | Some _ => st
  | None =>
      match t with
      | Producer => stepProducer st
      | Worker i => stepWorker i st
      | Main => stepMain st
      end
  end.

Definition run (sched : list Thread) (st : Machine) : Machine :=
  fold_left (fun s t => step t s) sched st.

(** The state on entry: the guard on the number of attachments returns at
    once; otherwise the feeding goroutine is started. *)
Definition enter (m : MessageCreate) (w : World) : Machine :=
  if (Z.of_nat (length (Attachments m)) <? 1)
     || (5 <? Z.of_nat (length (Attachments m)))
  then mkMachine m [] false [] [] w [] (Some (Returned tt))
  else mkMachine m (Attachments m) false [] [] w [] None.

(** [handleMessageCreate] under a schedule of its goroutines. *)
Definition handleMessageCreate (sched : list Thread) (m : MessageCreate)
    (w : World) : Machine :=
  run sched (enter m w).

End Handler.
End Bot.

(** *** The sequential handler of [main.go] *)

Module MainGo.

Section Handler.
Context `{Runtime}.

Definition newline : string := String (ascii_of_N 10) EmptyString.

(** The embed sent for one paste. *)
Definition embedFor (pr : Mclogs.PasteResponse) (stamp : string) : MessageEmbed :=
  {| EmbedAuthor := {| AuthorName := "mclo.gs";
                       AuthorURL := "https://mclo.gs/";
                       IconURL := "" |};
     Title := "";
     Description := "Your logs were uploaded for easier reading:" +:+ newline
                    +:+ Mclogs.URL pr;
     Fields := [];
     Color := 0x2d3943;
     Timestamp := stamp |}.

Definition withIcon (re : MessageEmbed) (icon : string) : MessageEmbed :=
  {| EmbedAuthor := {| AuthorName := AuthorName (EmbedAuthor re);
                       AuthorURL := AuthorURL (EmbedAuthor re);
                       IconURL := icon |};
     Title := Title re; Description := Description re; Fields := Fields re;
     Color := Color re; Timestamp := Timestamp re |}.

(** The [for _, a := range m.Attachments] loop, with the local variable
    [typingStarted] as an argument. *)
Fixpoint attachmentsLoop (m : MessageCreate) (typingStarted : bool)
    (l : list MessageAttachment) : Prog unit :=
  match l with
  | [] => Ret tt
  | a :: rest =>
      if negb (strings_HasPrefix (ContentType a) "text/plain") then
        attachmentsLoop m typingStarted rest
      else
        let* _ := (if negb typingStarted
                   then Typing (ChannelID m) (fun _ => Ret tt)
                   else Ret tt) in
        Get (URL a) (fun ans =>
          match ans with
          | Err _ => attachmentsLoop m true rest
          | Ok resp =>
              match io_ReadAll (RespBody resp) with
              | Err _ => attachmentsLoop m true rest
              | Ok body =>
                  if maxBody <? len body then attachmentsLoop m true rest
                  else
                    let* '(pr, err) := Client.PasteLog mclc body in
                    match err with
                    | Some e => Fatal ("Failed to paste log: " +:+ e)
                    | None =>
                        deref pr (fun pr =>
                          Now (fun stamp =>
                            GetUser "@me" (fun ans =>
                              let re :=
                                match ans with
                                | Err _ => embedFor pr stamp
                                | Ok botUser =>
                                    withIcon (embedFor pr stamp)
                                             (AvatarURL botUser "32")
                                end in
                              SendEmbed (ChannelID m) re (fun _ =>
                                attachmentsLoop m true rest))))
                    end
              end
          end)
  end.

Definition handleMessageCreate (m : MessageCreate) : Prog unit :=
  if (Z.of_nat (length (Attachments m)) <? 1)
     || (5 <? Z.of_nat (length (Attachments m)))
  then Ret tt
  else attachmentsLoop m false (Attachments m).

End Handler.
End MainGo.

(** *** The sequential handler that logs through [slog]

    The revision between [main.go] and the fan-out handler: the same loop
    and the same embed, but a failed paste is logged and ends the call. *)

Module MainSlog.

Section Handler.
Context `{Runtime}.

(** The [for _, a := range m.Attachments] loop, with the local variable
    [typingStarted] as an argument. *)
Fixpoint attachmentsLoop (m : MessageCreate) (typingStarted : bool)
    (l : list MessageAttachment) : Prog unit :=
  match l with
  | [] => Ret tt
  | a :: rest =>
      if negb (strings_HasPrefix (ContentType a) "text/plain") then
        attachmentsLoop m typingStarted rest
      else
        let* _ := (if negb typingStarted
                   then Typing (ChannelID m) (fun _ => Ret tt)
                   else Ret tt) in
        Get (URL a) (fun ans =>
          match ans with
          | Err _ => attachmentsLoop m true rest
          | Ok resp =>
              match io_ReadAll (RespBody resp) with
              | Err _ => attachmentsLoop m true rest
              | Ok body =>
                  if maxBody <? len body then attachmentsLoop m true rest
                  else
                    let* '(pr, err) := Client.PasteLog mclc body in
                    match err with
                    | Some _ => Ret tt                    (* return *)
                    | None =>
                        deref pr (fun pr =>
                          Now (fun stamp =>
                            GetUser "@me" (fun ans =>
                              let re :=
                                match ans with
                                | Err _ => MainGo.embedFor pr stamp
                                | Ok botUser =>
                                    MainGo.withIcon (MainGo.embedFor pr stamp)
                                                    (AvatarURL botUser "32")
                                end in
                              SendEmbed (ChannelID m) re (fun _ =>
                                attachmentsLoop m true rest))))
                    end
              end
          end)
  end.

Definition handleMessageCreate (m : MessageCreate) : Prog unit :=
  if (Z.of_nat (length (Attachments m)) <? 1)
     || (5 <? Z.of_nat (length (Attachments m)))
  then Ret tt
  else attachmentsLoop m false (Attachments m).

End Handler.
End MainSlog.

(** *** The first handler

    The earliest revision: no cap on the number of attachments, no typing
    signal, and a plain message in reply, sent with [s.ChannelMessageSend];
    a failed paste ends the process, as in [main.go].  Only this revision
    makes that call, so it is written by explicit state passing, with the
    call to [PasteLog] run by [exec]. *)

Module MainFirst.

(** A call as the later revisions make them, or [s.ChannelMessageSend]. *)
Inductive Call `{Runtime} : Type :=
| Made (ev : Event)
| Said (channel content : string) (ans : option error).

Section Handler.
Context `{Outside}.
Variable Session_ChannelMessageSend :
  string -> string -> World -> option error * World.

(** The [for _, a := range m.Attachments] loop. *)
Fixpoint attachmentsLoop (m : MessageCreate) (l : list MessageAttachment)
    (w : World) (tr : list Call) : Exit unit * World * list Call :=
  match l with
  | [] => (Returned tt, w, tr)
  | a :: rest =>
      if negb (strings_HasPrefix (ContentType a) "text/plain") then
        attachmentsLoop m rest w tr
      else
        let (ans, w) := http_Get (URL a) w in
        let tr := tr ++ [Made (EvGet (URL a) ans)] in
        match ans with
        | Err _ => attachmentsLoop m rest w tr
        | Ok resp =>
            match io_ReadAll (RespBody resp) with
            | Err _ => attachmentsLoop m rest w tr
            | Ok body =>
                if maxBody <? len body then attachmentsLoop m rest w tr
                else
                  let o := exec (Client.PasteLog mclc body) w [] [] in
                  let tr := tr ++ (Made <$> events o) in
                  match exit o with
                  | Returned (_, Some e) =>
                      (Exited ("Failed to paste log: " +:+ e), world o, tr)
                  | Returned (Some pr, None) =>
                      let rm := "Your logs were uploaded for easier reading: "
                                +:+ Mclogs.URL pr in
                      let (ans, w) :=
                        Session_ChannelMessageSend (ChannelID m) rm (world o) in
                      attachmentsLoop m rest w (tr ++ [Said (ChannelID m) rm ans])
                  | Returned (None, None) =>
                      (Panicked "invalid memory address or nil pointer dereference",
                       world o, tr)
                  | Panicked e => (Panicked e, world o, tr)
                  | Exited e => (Exited e, world o, tr)
                  end
            end
        end
  end.

Definition handleMessageCreate (m : MessageCreate) (w : World)
  : Exit unit * World * list Call :=
  if Z.of_nat (length (Attachments m)) <? 1 then (Returned tt, w, [])
  else attachmentsLoop m (Attachments m) w [].

End Handler.
End MainFirst.

(** ** Test doubles

    A runtime whose response bodies are already typed (a JSON document of
    one of the shapes the API sends, plain text, or a stream that breaks),
    a world of canned answers for the handler, and the storing paste
    service of the round-trip property. *)

Module Stub.
Import Mclogs.

Inductive StubBody : Type :=
| JSONPaste (pr : PasteResponse)
| JSONInsights (ir : InsightsResponse)
| JSONLimits (l : Limits)
| JSONError (success : bool) (error : string)
| Text (s : string)
| Broken (e : error).

(** Go's [stringContainsCTLByte], the one check of [url.Parse] kept. *)
Fixpoint stringContainsCTLByte (s : string) : bool :=
  match s with
  | EmptyString => false
  | String c s' =>
      (N_of_ascii c <? 32)%N || (N_of_ascii c =? 127)%N
      || stringContainsCTLByte s'
  end.

(** The text of a JSON body is not kept: read as bytes it is ["{}"]. *)
Definition stubRuntime : Runtime := {|
  Body := StubBody;
  io_ReadAll b :=
    match b with
    | Text s => Ok s
    | Broken e => Err e
    | _ => Ok "{}"
    end;
  json_PasteResponse b :=
    match b with
    | JSONPaste pr => Ok pr
    | JSONError s e => Ok (mkPaste s "" "" "" e)
    | Broken e => Err e
    | _ => Err "json: cannot unmarshal"
    end;
  json_ErrResp b :=
    match b with
    | JSONError s e => Ok (mkErrResp s e)
    | Broken e => Err e
    | _ => Err "json: cannot unmarshal"
    end;
  json_InsightsResponse b :=
    match b with
    | JSONInsights ir => Ok ir
    | JSONError _ e =>
        Ok (mkInsights "" "" "" "" "" (mkAnalysis [] []) e)
    | Broken e => Err e
    | _ => Err "json: cannot unmarshal"
    end;
  json_Limits b :=
    match b with
    | JSONLimits l => Ok l
    | Broken e => Err e
    | _ => Err "json: cannot unmarshal"
    end;
  NewRequest_error _ url :=
    if stringContainsCTLByte url
    then Some "net/url: invalid control character in URL"
    else None
|}.

(** *** Canned answers *)

Record Script : Type := mkScript {
  cdn : string -> Result (Response StubBody);    (* http.Get, by URL *)
  api : Request -> Result (Response StubBody)    (* the mclo.gs API *)
}.

Definition botUser : User :=
  {| UserID := "1"; Username := "mclogs-bot";
     AvatarURL := fun size => "https://cdn.discordapp.com/avatars/1/a.png?size=" +:+ size |}.

Definition scripted (sc : Script) : @Outside stubRuntime :=
  @Build_Outside stubRuntime unit
    (fun url w => (cdn sc url, w))                  (* http.Get *)
    (fun req w => (api sc req, w))                  (* HTTPClient.Do *)
    (fun _ w => (None, w))                          (* ChannelTyping *)
    (fun _ w => (Ok botUser, w))                    (* User *)
    (fun _ _ w => (None, w))                        (* ChannelMessageSendEmbed *)
    (fun w => ("2025-01-01T00:00:00Z", w)).         (* time.Now *)

(** *** The storing paste service *)

Definition unhex (c : ascii) : option N :=
  let n := N_of_ascii c in
  if ((48 <=? n) && (n <=? 57))%N then Some (n - 48)%N
  else if ((65 <=? n) && (n <=? 70))%N then Some (n - 55)%N
  else if ((97 <=? n) && (n <=? 102))%N then Some (n - 87)%N
  else None.

(** [url.QueryUnescape], as the server's form parser applies it. *)
Fixpoint url_QueryUnescape (s : string) : option string :=
  match s with
  | EmptyString => Some EmptyString
  | String c s' =>
      if Ascii.eqb c "%"%char then
        match s' with
        | String a (String b s'') =>
            match unhex a, unhex b with
            | Some x, Some y =>
                option_map (String (ascii_of_N (16 * x + y)))
                           (url_QueryUnescape s'')
            | _, _ => None
            end
        | _ => None
        end
      else if Ascii.eqb c "+"%char then
        option_map (String " "%char) (url_QueryUnescape s')
      else option_map (String c) (url_QueryUnescape s')
  end.

Fixpoint stripPrefix (pre s : string) : option string :=
  match pre with
  | EmptyString => Some s
  | String a pre' =>
      match s with
      | String b s' => if Ascii.eqb a b then stripPrefix pre' s' else None
      | EmptyString => None
      end
  end.

(** Modelled from the spec: the stub paste service of the round-trip
    property, "a stub service that stores submitted content and serves it
    back as plain text", answering [POST /1/log] (form field [content])
    with [{success, id, url, raw}] and [GET /1/raw/{id}] with plain text or
    a JSON error. *)
Record Service : Type := mkService {
  pastes : gmap string string;
  served : nat                      (* the number of ids given out *)
}.

Definition jsonResponse (code : Z) (b : StubBody) : Response StubBody :=
  {| StatusCode := code; RespContentType := "application/json"; RespBody := b |}.

(** Modelled from the spec: what the stub service answers to a request,
    and what it stores. *)
Definition serviceDo (base : string) (req : Request) (s : Service)
  : Result (Response StubBody) * Service :=
  if String.eqb (Method req) "POST"
     && String.eqb (ReqURL req) (base +:+ "/1/log") then
    match stripPrefix "content=" (ReqBody req) ≫= url_QueryUnescape with
    | Some content =>
        let id := pretty (served s) in
        (Ok (jsonResponse 200
               (JSONPaste {| Success := true; ID := id;
                             URL := "https://mclo.gs/" +:+ id;
                             Raw := base +:+ "/1/raw/" +:+ id;
                             Error := "" |})),
         {| pastes := <[id := content]> (pastes s); served := S (served s) |})
    | None =>
        (Ok (jsonResponse 400
               (JSONError false "Required POST argument 'content' not found.")), s)
    end
  else if String.eqb (Method req) "GET" then
    match stripPrefix (base +:+ "/1/raw/") (ReqURL req) ≫= (pastes s !!.) with
    | Some content =>
        (Ok {| StatusCode := 200;
               RespContentType := "text/plain; charset=utf-8";
               RespBody := Text content |}, s)
    | None => (Ok (jsonResponse 404 (JSONError false "Log not found.")), s)
    end
  else (Ok (jsonResponse 404 (JSONError false "Not found.")), s).

(** Modelled from the spec: the world in which the client talks to the
    stub service at [base]; nothing else is reachable. *)
Definition service (base : string) : @Outside stubRuntime :=
  @Build_Outside stubRuntime Service
    (fun _ w => (Err "no such host", w))            (* http.Get *)
    (fun req w => serviceDo base req w)             (* HTTPClient.Do *)
    (fun _ w => (None, w))                          (* ChannelTyping *)
    (fun _ w => (Ok botUser, w))                    (* User *)
    (fun _ _ w => (None, w))                        (* ChannelMessageSendEmbed *)
    (fun w => ("2025-01-01T00:00:00Z", w)).         (* time.Now *)

(** Submit, then fetch what the answer names. *)
Definition pasteThenFetch `{Runtime} (c : Client) (content : string)
  : Prog (string * option error) :=
  let* '(pr, err) := Client.PasteLog c content in
  match err with
  | Some e => Ret ("", Some e)
  | None => deref pr (fun pr => Client.GetRawLog c (ID pr))
  end.

End Stub.


(** *** A small world to run the handlers in *)

Module Demo.

Definition plainText (body : string) : Result (Response Stub.StubBody) :=
  Ok {| StatusCode := 200; RespContentType := "text/plain; charset=utf-8";
        RespBody := Stub.Text body |}.

Definition helloURL : string :=
  "https://cdn.discordapp.com/attachments/1/2/hello.txt".
Definition emptyURL : string :=
  "https://cdn.discordapp.com/attachments/1/2/empty.txt".
Definition bigURL : string :=
  "https://cdn.discordapp.com/attachments/1/2/big.txt".

Definition theInsights : Mclogs.InsightsResponse :=
  {| Mclogs.InsID := "abc"; Mclogs.InsName := "Vanilla";
     Mclogs.InsType := "Server Log"; Mclogs.Version := "1.21";
     Mclogs.Title := "Vanilla 1.21 Server Log";
     Mclogs.InsAnalysis := Mclogs.mkAnalysis [] []; Mclogs.InsError := "" |}.

Definition thePaste : Mclogs.PasteResponse :=
  {| Mclogs.Success := true; Mclogs.ID := "abc";
     Mclogs.URL := "https://mclo.gs/abc";
     Mclogs.Raw := "https://api.mclo.gs/1/raw/abc"; Mclogs.Error := "" |}.

(** The CDN serves three files, the third with the body [large]; the
    paste service refuses an empty content, as mclo.gs does, and stores
    anything else as [abc]; the insights of [abc] are there, or the
    request for them times out when [insightsUp] is off. *)
Definition script (insightsUp : bool) (large : string) : Stub.Script := {|
  Stub.cdn url :=
    if String.eqb url helloURL then plainText "hello world"
    else if String.eqb url emptyURL then plainText ""
    else if String.eqb url bigURL then plainText large
    else Err "404 Not Found";
  Stub.api req :=
    if String.eqb (Method req) "POST"
       && String.eqb (ReqURL req) "https://api.mclo.gs/1/log" then
      if String.eqb (ReqBody req) "content=" then
        Ok (Stub.jsonResponse 400
              (Stub.JSONError false "Required POST argument 'content' is empty."))
      else Ok (Stub.jsonResponse 200 (Stub.JSONPaste thePaste))
    else if String.eqb (ReqURL req) "https://api.mclo.gs/1/insights/abc" then
      if insightsUp then
        Ok (Stub.jsonResponse 200 (Stub.JSONInsights theInsights))
      else Err "context deadline exceeded (Client.Timeout exceeded while awaiting headers)"
    else Ok (Stub.jsonResponse 404 (Stub.JSONError false "Log not found."))
|}.

Definition author : User :=
  {| UserID := "42"; Username := "emily"; AvatarURL := fun _ => "" |}.

Definition hello : MessageAttachment :=
  {| URL := helloURL; ContentType := "text/plain; charset=utf-8"; Size := 11 |}.
Definition empty : MessageAttachment :=
  {| URL := emptyURL; ContentType := "text/plain; charset=utf-8"; Size := 0 |}.
Definition big : MessageAttachment :=
  {| URL := bigURL; ContentType := "text/plain; charset=utf-8";
     Size := 11 * 1024 * 1024 |}.

(** Declared at 11 MiB, while the download is the short [hello.txt]. *)
Definition overdeclared : MessageAttachment :=
  {| URL := helloURL; ContentType := "text/plain; charset=utf-8";
     Size := 11 * 1024 * 1024 |}.

Definition message (l : list MessageAttachment) : MessageCreate :=
  {| ID := "1001"; ChannelID := "general"; Author := author;
     Attachments := l |}.

(** A string of [n] bytes. *)
Fixpoint filler (n : nat) : string :=
  match n with
  | O => EmptyString
  | S n' => String "x"%char (filler n')
  end.

(** One goroutine, run to its end after the feeding loop has started it. *)
Definition oneWorker : list Bot.Thread :=
  [Bot.Producer; Bot.Producer; Bot.Worker 0; Bot.Worker 0; Bot.Worker 0;
   Bot.Worker 0; Bot.Main].

(** Two goroutines, the second finishing first. *)
Definition twoWorkers : list Bot.Thread :=
  [Bot.Producer; Bot.Producer; Bot.Producer; Bot.Worker 1; Bot.Worker 0;
   Bot.Worker 1; Bot.Worker 0; Bot.Worker 1; Bot.Worker 1; Bot.Main].

(** The fan-out handler on the attachments [l], under the schedule [sched],
    and the sequential handlers on them. *)
Abbreviation fanOut insightsUp large sched l :=
  (@Bot.handleMessageCreate Stub.stubRuntime
     (Stub.scripted (script insightsUp large)) sched (message l) tt).

Abbreviation sequential insightsUp large l :=
  (@exec Stub.stubRuntime (Stub.scripted (script insightsUp large)) unit
     (MainGo.handleMessageCreate (message l)) tt [] []).

Abbreviation sequentialSlog insightsUp large l :=
  (@exec Stub.stubRuntime (Stub.scripted (script insightsUp large)) unit
     (MainSlog.handleMessageCreate (message l)) tt [] []).

(** The answer of the paste service to an empty content. *)
Definition refusal : Result (Response Stub.StubBody) :=
  Ok (Stub.jsonResponse 400
        (Stub.JSONError false "Required POST argument 'content' is empty.")).

(** [s.ChannelMessageSend] that always succeeds. *)
Definition delivered : string -> string -> unit -> option error * unit :=
  fun _ _ w => (None, w).


End Demo.

(** * Properties *)

(** ** The words of the statements *)

(** The request [PasteLog] sends. *)
Definition pasteRequest (c : Mclogs.Client) (content : string) : Request :=
  {| Method := "POST"; ReqURL := Mclogs.BaseURL c +:+ "/1/log";
     Header := {[ "Content-Type" := "application/x-www-form-urlencoded" ]};
     ReqBody := "content=" +:+ url_QueryEscape content |}.

(** The request [GetInsights] sends. *)
Definition insightsRequest (c : Mclogs.Client) (id : string) : Request :=
  {| Method := "GET"; ReqURL := Mclogs.BaseURL c +:+ "/1/insights/" +:+ id;
     Header := ∅; ReqBody := "" |}.

Definition nilDereference : string :=
  "invalid memory address or nil pointer dereference".

Definition isPlain (a : MessageAttachment) : bool :=
  strings_HasPrefix (ContentType a) "text/plain".


Definition accepted (m : MessageCreate) : Prop :=
  (1 <= length (Attachments m) <= 5)%nat.

Definition fieldOf (pr : Mclogs.PasteResponse) (an : Mclogs.InsightsResponse)
  : MessageEmbedField :=
  {| Name := Mclogs.Title an; Value := Mclogs.URL pr; Inline := true |}.

Section Vocabulary.
Context `{Outside}.
Import Bot.

(** One command of a goroutine, seen from outside. *)
Inductive Answer : Prog unit -> Event -> Prog unit -> Prop :=
| A_Get url k a : Answer (Get url k) (EvGet url a) (k a)
| A_Do req k a : Answer (Do req k) (EvDo req a) (k a)
| A_Typing c k a : Answer (Typing c k) (EvTyping c a) (k a)
| A_User id k a : Answer (GetUser id k) (EvUser id a) (k a)
| A_Send c e k a : Answer (SendEmbed c e k) (EvSend c e a) (k a)
| A_Now k a : Answer (Now k) (EvNow a) (k a)
| A_Append f k : Answer (Append f k) (EvAppend f) k.

(** [Runs p h q]: from [p], the calls and answers [h] lead to [q]. *)
Inductive Runs : Prog unit -> list Event -> Prog unit -> Prop :=
| Runs_nil p : Runs p [] p
| Runs_cons p ev p' h q : Answer p ev p' -> Runs p' h q -> Runs p (ev :: h) q.

(** The events of goroutine [i], in order. *)
Definition history (i : nat) (tr : list (Thread * Event)) : list Event :=
  omap (fun te => match te.1 with
                  | Worker j => if decide (i = j) then Some te.2 else None
                  | _ => None
                  end) tr.

Definition appendedField (ev : Event) : option MessageEmbedField :=
  match ev with EvAppend f => Some f | _ => None end.

(** The fields appended under the mutex, in order. *)
Definition appendedFields (tr : list (Thread * Event)) : list MessageEmbedField :=
  omap (fun te => appendedField te.2) tr.


(** The embeds sent, each with its channel. *)
Definition sends (tr : list (Thread * Event)) : list (string * MessageEmbed) :=
  omap (fun te => match te.2 with
                  | EvSend c e _ => Some (c, e)
                  | _ => None
                  end) tr.

(** The answer of the paste service to a submission, when it accepted it. *)
Definition acceptedPaste (ev : Event) : option Mclogs.PasteResponse :=
  match ev with
  | EvDo req (Ok resp) =>
      if String.eqb (Method req) "POST" then
        match json_PasteResponse (RespBody resp) with
        | Ok pr => if Mclogs.Success pr then Some pr else None
        | Err _ => None
        end
      else None
  | _ => None
  end.

Definition acceptedPastes (tr : list (Thread * Event))
  : list Mclogs.PasteResponse :=
  omap (fun te => acceptedPaste te.2) tr.

(** The form bodies submitted to the paste service. *)
Definition submissions (tr : list (Thread * Event)) : list string :=
  omap (fun te => match te.2 with
                  | EvDo req _ =>
                      if String.eqb (Method req) "POST" then Some (ReqBody req)
                      else None
                  | _ => None
                  end) tr.

(** The URLs downloaded and the embeds sent in a sequential run. *)
Definition downloadsOf (evs : list Event) : list string :=
  omap (fun ev => match ev with EvGet url _ => Some url | _ => None end) evs.

Definition embedsOf (evs : list Event) : list MessageEmbed :=
  omap (fun ev => match ev with EvSend _ e _ => Some e | _ => None end) evs.

(** The download gave a body that could be read to the end. *)
Definition downloaded (a : Result (Response Body)) (body : string) : Prop :=
  exists resp, a = Ok resp /\ io_ReadAll (RespBody resp) = Ok body.

(** The paste service accepted the content. *)
Definition pasted (b : Result (Response Body)) (pr : Mclogs.PasteResponse) : Prop :=
  exists resp, b = Ok resp /\ json_PasteResponse (RespBody resp) = Ok pr
               /\ Mclogs.Success pr = true.

(** The insights came back. *)
Definition analysed (c : Result (Response Body)) (an : Mclogs.InsightsResponse)
  : Prop :=
  exists resp, c = Ok resp /\ Client.decodeInsights resp = (Some an, None).

(** Where a goroutine can be: its history so far and what it has left. *)
Inductive Stage (at' : MessageAttachment) : list Event -> Prog unit -> Prop :=
| S_start : Stage at' [] (worker at')
| S_dropped a :
    (forall body, downloaded a body -> maxBody < len body) ->
    Stage at' [EvGet (URL at') a] (Ret tt)
| S_norequest a body e :
    downloaded a body -> len body <= maxBody ->
    NewRequest_error "POST" (Mclogs.BaseURL mclc +:+ "/1/log") = Some e ->
    Stage at' [EvGet (URL at') a] (Ret tt)
| S_submitting a body k :
    downloaded a body -> len body <= maxBody ->
    Stage at' [EvGet (URL at') a] (Do (pasteRequest mclc body) k)
| S_refused a body b :
    downloaded a body -> len body <= maxBody ->
    (forall pr, ~ pasted b pr) ->
    Stage at' [EvGet (URL at') a; EvDo (pasteRequest mclc body) b] (Ret tt)
| S_noinsights a body b pr e :
    downloaded a body -> len body <= maxBody -> pasted b pr ->
    NewRequest_error "GET"
      (Mclogs.BaseURL mclc +:+ "/1/insights/" +:+ Mclogs.ID pr) = Some e ->
    Stage at' [EvGet (URL at') a; EvDo (pasteRequest mclc body) b]
          (Panic nilDereference)
| S_asking a body b pr k :
    downloaded a body -> len body <= maxBody -> pasted b pr ->
    Stage at' [EvGet (URL at') a; EvDo (pasteRequest mclc body) b]
          (Do (insightsRequest mclc (Mclogs.ID pr)) k)
| S_nil a body b pr c :
    downloaded a body -> len body <= maxBody -> pasted b pr ->
    (forall an, ~ analysed c an) ->
    Stage at' [EvGet (URL at') a; EvDo (pasteRequest mclc body) b;
               EvDo (insightsRequest mclc (Mclogs.ID pr)) c]
          (Panic nilDereference)
| S_appending a body b pr c an :
    downloaded a body -> len body <= maxBody -> pasted b pr -> analysed c an ->
    Stage at' [EvGet (URL at') a; EvDo (pasteRequest mclc body) b;
               EvDo (insightsRequest mclc (Mclogs.ID pr)) c]
          (Append (fieldOf pr an) (Ret tt))
| S_done a body b pr c an :
    downloaded a body -> len body <= maxBody -> pasted b pr -> analysed c an ->
    Stage at' [EvGet (URL at') a; EvDo (pasteRequest mclc body) b;
               EvDo (insightsRequest mclc (Mclogs.ID pr)) c;
               EvAppend (fieldOf pr an)]
          (Ret tt).

(** The events of the caller after [wg.Wait()], for the slice [fs]. *)
Definition replyOf (m : MessageCreate) (fs : list MessageEmbedField)
    (reply : list Event) : Prop :=
  (fs = [] /\ reply = [])
  \/ (fs <> [] /\ exists stamp u e a,
        reply = [EvNow stamp; EvUser "@me" u; EvSend (ChannelID m) e a]
        /\ Fields e = fs).

Definition notBy (t : Thread) (te : Thread * Event) : Prop := te.1 <> t.

(** What holds of every state of a call for a message that passed the
    guard on entry. *)
Record Inv (m : MessageCreate) (st : Machine) : Prop := {
  inv_msg : msg st = m;
  inv_filter :
    (workers st).*1 ++ List.filter isPlain (pending st)
    = List.filter isPlain (Attachments m);
  inv_quiet : typingStarted st = false -> trace st = [] /\ workers st = [];
  inv_typing :
    typingStarted st = true ->
    exists a rest,
      trace st = (Producer, EvTyping (ChannelID m) a) :: rest
      /\ Forall (notBy Producer) rest;
  inv_started :
    typingStarted st = true -> List.filter isPlain (Attachments m) <> [];
  inv_hist : forall i at' p,
    workers st !! i = Some (at', p) ->
    Runs (worker at') (history i (trace st)) p;
  inv_bound : forall i ev,
    (Worker i, ev) ∈ trace st -> (i < length (workers st))%nat;
  inv_fs : fs st = appendedFields (trace st);
  inv_status :
    match status st with
    | None => Forall (notBy Main) (trace st)
    | Some (Panicked e) =>
        Forall (notBy Main) (trace st)
        /\ exists i at', workers st !! i = Some (at', Panic e)
    | Some (Exited _) => False
    | Some (Returned _) =>
        pending st = []
        /\ Forall (fun ap => ap.2 = Ret tt) (workers st)
        /\ exists pre reply,
             trace st = pre ++ List.map (fun ev => (Main, ev)) reply
             /\ Forall (notBy Main) pre
             /\ fs st = appendedFields pre
             /\ replyOf m (fs st) reply
    end
}.

(** What a schedule leaves of the feeding loop and of the other goroutines
    when it only runs goroutine [i]. *)
Definition onlyWorker (i : nat) (st st' : Machine) : Prop :=
  pending st' = pending st
  /\ length (workers st') = length (workers st)
  /\ forall j, j <> i -> workers st' !! j = workers st !! j.

(** Goroutine [i], run on its own from [st], ends the call or finishes. *)
Definition finishes (i : nat) (at' : MessageAttachment) (st : Machine) : Prop :=
  exists n, let st' := run (replicate n (Worker i)) st in
    status st' <> None
    \/ (status st' = None /\ workers st' !! i = Some (at', Ret tt)
        /\ onlyWorker i st st').

End Vocabulary.

(** ** The requests of the other methods of the client *)

(** The request [GetRawLog] sends. *)
Definition rawRequest (c : Mclogs.Client) (id : string) : Request :=
  {| Method := "GET"; ReqURL := Mclogs.BaseURL c +:+ "/1/raw/" +:+ id;
     Header := ∅; ReqBody := "" |}.

(** The request [AnalyseLog] sends. *)
Definition analyseRequest (c : Mclogs.Client) (content : string) : Request :=
  {| Method := "POST"; ReqURL := Mclogs.BaseURL c +:+ "/1/analyse";
     Header := {[ "Content-Type" := "application/x-www-form-urlencoded" ]};
     ReqBody := "content=" +:+ url_QueryEscape content |}.

(** The request [CheckLimits] sends. *)
Definition limitsRequest (c : Mclogs.Client) : Request :=
  {| Method := "GET"; ReqURL := Mclogs.BaseURL c +:+ "/1/limits";
     Header := ∅; ReqBody := "" |}.

(** The bytes [url.QueryEscape] writes: unreserved ones, [+] and [%XX]. *)
Definition formSafe (c : ascii) : bool :=
  negb (shouldEscape c) || Ascii.eqb c "+" || Ascii.eqb c "%".

Fixpoint allFormSafe (s : string) : bool :=
  match s with
  | EmptyString => true
  | String c s' => formSafe c && allFormSafe s'
  end.

(** ** The runs of the sequential handlers *)

(** The embed that the sequential handlers send for a paste. *)
Definition replyEmbed (pr : Mclogs.PasteResponse) (stamp : string)
    (u : Result User) : MessageEmbed :=
  match u with
  | Err _ => MainGo.embedFor pr stamp
  | Ok botUser =>
      MainGo.withIcon (MainGo.embedFor pr stamp) (AvatarURL botUser "32")
  end.

Section SequentialWords.
Context `{Outside}.

(** The error that [PasteLog] returns for an answer of the service. *)
Definition pasteFailure (b : Result (Response Body)) : option error :=
  match b with
  | Err e => Some e
  | Ok resp =>
      match json_PasteResponse (RespBody resp) with
      | Err e => Some e
      | Ok pr => if Mclogs.Success pr then None else Some (Mclogs.Error pr)
      end
  end.

(** The body read from a download, and the form body of a submission. *)
Definition bodyOf (ev : Event) : option string :=
  match ev with
  | EvGet _ (Ok resp) =>
      match io_ReadAll (RespBody resp) with
      | Ok body => Some body
      | Err _ => None
      end
  | _ => None
  end.

Definition submitted (ev : Event) : option string :=
  match ev with
  | EvDo req _ =>
      if String.eqb (Method req) "POST" then Some (ReqBody req) else None
  | _ => None
  end.

Definition typingsOf (evs : list Event) : list string :=
  omap (fun ev => match ev with EvTyping c _ => Some c | _ => None end) evs.

Definition sendsOf (evs : list Event) : list (string * MessageEmbed) :=
  omap (fun ev => match ev with EvSend c e _ => Some (c, e) | _ => None end) evs.

(** One turn of the loop for a plain-text attachment: what it leaves in
    the trace, and the error of the paste when it failed. *)
Inductive Visit (m : MessageCreate) (a : MessageAttachment)
  : list Event -> option error -> Prop :=
| V_dropped g :
    (forall body, downloaded g body -> maxBody < len body) ->
    Visit m a [EvGet (URL a) g] None
| V_norequest g body e :
    downloaded g body -> len body <= maxBody ->
    NewRequest_error "POST" (Mclogs.BaseURL mclc +:+ "/1/log") = Some e ->
    Visit m a [EvGet (URL a) g] (Some e)
| V_refused g body b e :
    downloaded g body -> len body <= maxBody ->
    pasteFailure b = Some e ->
    Visit m a [EvGet (URL a) g; EvDo (pasteRequest mclc body) b] (Some e)
| V_replied g body b pr stamp u s :
    downloaded g body -> len body <= maxBody -> pasted b pr ->
    Visit m a [EvGet (URL a) g; EvDo (pasteRequest mclc body) b;
               EvNow stamp; EvUser "@me" u;
               EvSend (ChannelID m) (replyEmbed pr stamp u) s] None.

(** The turns of the loop over the attachments, up to a failed paste. *)
Inductive Visits (m : MessageCreate)
  : list MessageAttachment -> list Event -> option error -> Prop :=
| Vs_nil : Visits m [] [] None
| Vs_skip a rest h r :
    isPlain a = false -> Visits m rest h r -> Visits m (a :: rest) h r
| Vs_next a rest v h r :
    isPlain a = true -> Visit m a v None -> Visits m rest h r ->
    Visits m (a :: rest) (v ++ h) r
| Vs_stop a rest v e :
    isPlain a = true -> Visit m a v (Some e) -> Visits m (a :: rest) v (Some e).

(** How [main.go] ends for the result of the loop. *)
Definition mainGoExit (r : option error) : Exit unit :=
  match r with
  | None => Returned tt
  | Some e => Exited ("Failed to paste log: " +:+ e)
  end.

End SequentialWords.

(** The text of the embed that links a paste. *)
Definition linkText (pr : Mclogs.PasteResponse) : string :=
  "Your logs were uploaded for easier reading:" +:+ MainGo.newline
  +:+ Mclogs.URL pr.

(** What the embed of a paste looks like, on which channel it goes. *)
Definition repliesTo (m : MessageCreate) (ce : string * MessageEmbed)
    (pr : Mclogs.PasteResponse) : Prop :=
  ce.1 = ChannelID m
  /\ Description ce.2 = linkText pr
  /\ Title ce.2 = "" /\ Fields ce.2 = [] /\ Color ce.2 = 0x2d3943
  /\ AuthorName (EmbedAuthor ce.2) = "mclo.gs"
  /\ AuthorURL (EmbedAuthor ce.2) = "https://mclo.gs/".

(** ** More on the runs of the fan-out handler *)

Section FanOutWords.
Context `{Outside}.
Import Bot.


(** The URLs downloaded, in the order of the trace. *)
Definition downloadOf (ev : Event) : option string :=
  match ev with EvGet url _ => Some url | _ => None end.

Definition downloads (tr : list (Thread * Event)) : list string :=
  omap (fun te => downloadOf te.2) tr.





End FanOutWords.

(** ** The runs of the first handler *)

Section FirstWords.
Context `{Runtime}.

(** The calls of a run that the later revisions make too, and the
    messages it sent. *)
Definition madeBy (c : MainFirst.Call) : option Event :=
  match c with MainFirst.Made ev => Some ev | _ => None end.

Definition saidBy (c : MainFirst.Call) : option (string * string) :=
  match c with
  | MainFirst.Said channel content _ => Some (channel, content)
  | _ => None
  end.

(** A download or a request to the API. *)
Definition getOrDo (ev : Event) : Prop :=
  (exists url a, ev = EvGet url a) \/ (exists req b, ev = EvDo req b).

(** The message that answers a paste. *)
Definition firstText (pr : Mclogs.PasteResponse) : string :=
  "Your logs were uploaded for easier reading: " +:+ Mclogs.URL pr.

End FirstWords.

(** ** Proofs *)

Ltac proj :=
  cbn [Bot.msg Bot.pending Bot.typingStarted Bot.workers Bot.fs Bot.now
       Bot.trace Bot.status].

Ltac not_in_list H :=
  repeat (apply elem_of_cons in H as [H|H]; [discriminate|]);
  by apply elem_of_nil in H.

(** *** Running a command tree *)

Section ExecFacts.
Context `{Outside}.

Lemma exec_bind {A R} (p : Prog A) (f : A -> Prog R) w fs tr :
  exec (bind p f) w fs tr =
  let o := exec p w fs tr in
  match exit o with
  | Returned a => exec (f a) (world o) (appended o) (events o)
  | Panicked e => mkOutcome (Panicked e) (world o) (appended o) (events o)
  | Exited e => mkOutcome (Exited e) (world o) (appended o) (events o)
  end.
Proof.
  revert w fs tr.
  induction p as [a|e|e|url k IH|req k IH|ch k IH|id k IH|ch em k IH|k IH|fl k IH];
    intros w fs tr; cbn; try reflexivity.
  - destruct (http_Get url w); apply IH.
  - destruct (HTTPClient_Do req w); apply IH.
  - destruct (Session_ChannelTyping ch w); apply IH.
  - destruct (Session_User id w); apply IH.
  - destruct (Session_ChannelMessageSendEmbed ch em w); apply IH.
  - destruct (time_Now w); apply IH.
  - apply IH.
Qed.
End ExecFacts.

(** *** The client *)

Section ClientFacts.
Context `{Outside}.
Import Mclogs.

Lemma PasteLog_request c content req :
  Client.http_NewRequest "POST" (BaseURL c +:+ "/1/log")
    (Values_Encode (Values_Set [] "content" content)) = Ok req ->
  Header_Set req "Content-Type" "application/x-www-form-urlencoded"
  = pasteRequest c content.
Proof.
  unfold Client.http_NewRequest.
  destruct (NewRequest_error _ _); [discriminate|].
  intros [= <-]. unfold Header_Set, pasteRequest; cbn.
  by rewrite insert_empty.
Qed.

Lemma exec_PasteLog c content w fs tr :
  exec (Client.PasteLog c content) w fs tr =
  match NewRequest_error "POST" (BaseURL c +:+ "/1/log") with
  | Some e => mkOutcome (Returned (None, Some e)) w fs tr
  | None =>
      let (ans, w') := HTTPClient_Do (pasteRequest c content) w in
      mkOutcome
        (Returned
           match ans with
           | Err e => (None, Some e)
           | Ok resp =>
               match json_PasteResponse (RespBody resp) with
               | Err e => (None, Some e)
               | Ok pr => if Success pr then (Some pr, None)
                          else (None, Some (Error pr))
               end
           end)
        w' fs (tr ++ [EvDo (pasteRequest c content) ans])
  end.
Proof.
  unfold Client.PasteLog.
  destruct (Client.http_NewRequest _ _ _) as [req|e] eqn:Hreq.
  - rewrite (PasteLog_request _ _ _ Hreq).
    unfold Client.http_NewRequest in Hreq.
    destruct (NewRequest_error _ _); [discriminate|]. cbn.
    destruct (HTTPClient_Do _ w) as [[resp|e] w']; cbn; [|reflexivity].
    destruct (json_PasteResponse _) as [pr|e]; cbn; [|reflexivity].
    by destruct (Success pr).
  - unfold Client.http_NewRequest in Hreq.
    destruct (NewRequest_error _ _); [|discriminate]. by injection Hreq as ->.
Qed.

Lemma exec_GetInsights c id w fs tr :
  exec (Client.GetInsights c id) w fs tr =
  match NewRequest_error "GET" (BaseURL c +:+ "/1/insights/" +:+ id) with
  | Some e => mkOutcome (Returned (None, Some e)) w fs tr
  | None =>
      let (ans, w') := HTTPClient_Do (insightsRequest c id) w in
      mkOutcome
        (Returned
           match ans with
           | Err e => (None, Some e)
           | Ok resp => Client.decodeInsights resp
           end)
        w' fs (tr ++ [EvDo (insightsRequest c id) ans])
  end.
Proof.
  unfold Client.GetInsights, Client.http_NewRequest, insightsRequest.
  destruct (NewRequest_error _ _); [reflexivity|]. cbn.
  by destruct (HTTPClient_Do _ w) as [[resp|e] w'].
Qed.

(** A decoded insights answer is either an error with no value, or a value
    whose own error text is empty. *)
Lemma decodeInsights_cases resp :
  (exists e, Client.decodeInsights resp = (None, Some e))
  \/ (exists i, Client.decodeInsights resp = (Some i, None) /\ InsError i = "").
Proof.
  unfold Client.decodeInsights.
  destruct (negb _).
  - left. destruct (json_ErrResp _); eauto.
  - destruct (json_InsightsResponse _) as [i|e]; [|eauto].
    destruct (String.eqb (InsError i) "") eqn:E; cbn; [|eauto].
    right. exists i. split; [done|]. by apply String.eqb_eq.
Qed.

(** C10: a call of [PasteLog] or [GetInsights] always returns, and when the
    error it returns is nil the pointer is not, and points to a response
    that does not itself report a failure: [Success] is true for a paste,
    [Error] is empty for insights.  Conversely a non-nil error comes with a
    nil pointer. *)
Theorem C10_success_result_invariant (c : Client) (content id : string)
    (w : World) (fs : list MessageEmbedField) (tr : list Event) :
  (exists pr err,
      exit (exec (Client.PasteLog c content) w fs tr) = Returned (pr, err)
      /\ (err = None -> exists p, pr = Some p /\ Success p = true)
      /\ (err <> None -> pr = None))
  /\ (exists an err,
      exit (exec (Client.GetInsights c id) w fs tr) = Returned (an, err)
      /\ (err = None -> exists i, an = Some i /\ InsError i = "")
      /\ (err <> None -> an = None)).
Proof.
  split.
  - rewrite exec_PasteLog.
    destruct (NewRequest_error _ _) as [e|]; cbn.
    { exists None, (Some e). by repeat split. }
    destruct (HTTPClient_Do _ w) as [[resp|e] w']; cbn.
    2:{ exists None, (Some e). by repeat split. }
    destruct (json_PasteResponse _) as [pr|e].
    2:{ exists None, (Some e). by repeat split. }
    destruct (Success pr) eqn:Hs.
    + exists (Some pr), None. repeat split; [eauto|done].
    + exists None, (Some (Error pr)). by repeat split.
  - rewrite exec_GetInsights.
    destruct (NewRequest_error _ _) as [e|]; cbn.
    { exists None, (Some e). by repeat split. }
    destruct (HTTPClient_Do _ w) as [[resp|e] w']; cbn.
    2:{ exists None, (Some e). by repeat split. }
    destruct (decodeInsights_cases resp) as [[e ->]|(i & -> & Hi)].
    + exists None, (Some e). by repeat split.
    + exists (Some i), None. repeat split; [eauto|done].
Qed.

(** C8: with an endpoint that [http.NewRequest] accepts, [PasteLog] makes
    exactly one request, a POST of the form-encoded content to [/1/log],
    and returns an error exactly when the transport fails, the body does
    not decode, or the decoded response has [success = false]; in that last
    case the error is the text the service sent, and otherwise the result
    is the decoded response. *)
Theorem C8_PasteLog_contract (c : Client) (content : string) (w : World) :
  NewRequest_error "POST" (BaseURL c +:+ "/1/log") = None ->
  let req := pasteRequest c content in
  let ans := fst (HTTPClient_Do req w) in
  let o := exec (Client.PasteLog c content) w [] [] in
  events o = [EvDo req ans]
  /\ Header req !! "Content-Type" = Some "application/x-www-form-urlencoded"
  /\ ReqBody req = Values_Encode [("content", content)]
  /\ exists pr err, exit o = Returned (pr, err)
     /\ (err <> None <->
           (exists e, ans = Err e)
           \/ (exists resp e, ans = Ok resp
                 /\ json_PasteResponse (RespBody resp) = Err e)
           \/ (exists resp d, ans = Ok resp
                 /\ json_PasteResponse (RespBody resp) = Ok d
                 /\ Success d = false))
     /\ (forall resp d, ans = Ok resp ->
           json_PasteResponse (RespBody resp) = Ok d ->
           if Success d then pr = Some d /\ err = None
           else pr = None /\ err = Some (Error d)).
Proof.
  intros Hurl req ans o. subst o. rewrite exec_PasteLog, Hurl.
  fold req. subst ans.
  destruct (HTTPClient_Do req w) as [ans w']; cbn.
  split; [done|]. split; [done|]. split; [done|].
  destruct ans as [resp|e].
  2:{ exists None, (Some e). split; [done|]. split; [|done].
      split; [eauto|done]. }
  destruct (json_PasteResponse (RespBody resp)) as [d|e] eqn:Hd.
  2:{ exists None, (Some e). split; [done|]. split.
      - split; [|done]. intros _. right; left. eauto.
      - intros ?? [= <-]. by rewrite Hd. }
  destruct (Success d) eqn:Hs.
  - exists (Some d), None. split; [done|]. split.
    + split; [done|]. intros [[? [=]]|[(?&?&[= <-]&?)|(?&?&[= <-]&?&?)]];
        congruence.
    + intros ?? [= <-]. rewrite Hd. intros [= <-]. by rewrite Hs.
  - exists None, (Some (Error d)). split; [done|]. split.
    + split; [|done]. intros _. right; right. eauto.
    + intros ?? [= <-]. rewrite Hd. intros [= <-]. by rewrite Hs.
Qed.

End ClientFacts.

(** *** The storing stub *)

Section StubFacts.
Import Stub Mclogs.

Lemma unescape_escape_char c s :
  url_QueryUnescape (url_QueryEscape (String c s))
  = option_map (String c) (url_QueryUnescape (url_QueryEscape s)).
Proof.
  destruct c as [[] [] [] [] [] [] [] []]; reflexivity.
Qed.

Lemma unescape_escape s : url_QueryUnescape (url_QueryEscape s) = Some s.
Proof.
  induction s as [|c s IH]; [reflexivity|].
  by rewrite unescape_escape_char, IH.
Qed.

Lemma stripPrefix_app pre s : stripPrefix pre (pre +:+ s) = Some s.
Proof.
  induction pre as [|a pre IH]; [reflexivity|].
  change (String a pre +:+ s) with (String a (pre +:+ s)).
  cbn [stripPrefix]. by rewrite Ascii.eqb_refl.
Qed.

Lemma CTL_app a b :
  stringContainsCTLByte (a +:+ b)
  = stringContainsCTLByte a || stringContainsCTLByte b.
Proof.
  induction a as [|c a IH]; [reflexivity|].
  change (String c a +:+ b) with (String c (a +:+ b)).
  cbn [stringContainsCTLByte]. rewrite IH. by rewrite !orb_assoc.
Qed.

Lemma CTL_pretty_N_char (x : N) :
  let c := pretty_N_char x in
  ((N_of_ascii c <? 32)%N || (N_of_ascii c =? 127)%N) = false.
Proof. unfold pretty_N_char. by repeat case_match. Qed.

Lemma CTL_pretty_N_go (x : N) : forall s,
  stringContainsCTLByte s = false ->
  stringContainsCTLByte (pretty_N_go x s) = false.
Proof.
  induction (N.lt_wf_0 x) as [x _ IH]. intros s Hs.
  destruct (decide (0 < x)%N) as [Hx|Hx].
  - rewrite pretty_N_go_step by done. apply IH.
    + by apply N.div_lt.
    + cbn [stringContainsCTLByte]. rewrite Hs, orb_false_r.
      apply CTL_pretty_N_char.
  - assert (x = 0%N) as -> by lia. by rewrite pretty_N_go_0.
Qed.

Lemma CTL_pretty (n : nat) : stringContainsCTLByte (pretty n) = false.
Proof.
  unfold pretty, pretty_nat, pretty, pretty_N.
  case_decide; [reflexivity|]. by apply CTL_pretty_N_go.
Qed.


Lemma stub_NewRequest_ok (method base path : string) :
  stringContainsCTLByte base = false ->
  stringContainsCTLByte path = false ->
  @NewRequest_error stubRuntime method (base +:+ path) = None.
Proof. intros Hb Hp. cbn. by rewrite CTL_app, Hb, Hp. Qed.

Lemma serviceDo_paste (c : Client) (content : string) (s : Service) :
  serviceDo (BaseURL c) (pasteRequest c content) s =
  let id := pretty (served s) in
  (Ok (jsonResponse 200
         (JSONPaste {| Success := true; ID := id;
                       URL := "https://mclo.gs/" +:+ id;
                       Raw := BaseURL c +:+ "/1/raw/" +:+ id;
                       Error := "" |})),
   {| pastes := <[id := content]> (pastes s); served := S (served s) |}).
Proof.
  unfold serviceDo, pasteRequest. cbn [Method ReqURL ReqBody].
  rewrite !String.eqb_refl. cbn [andb].
  rewrite stripPrefix_app. cbn [mbind option_bind].
  by rewrite unescape_escape.
Qed.

Lemma serviceDo_raw (base id content : string) (s : Service) :
  pastes s !! id = Some content ->
  serviceDo base (mkRequest "GET" (base +:+ "/1/raw/" +:+ id) ∅ "") s =
  (Ok {| StatusCode := 200; RespContentType := "text/plain; charset=utf-8";
         RespBody := Text content |}, s).
Proof.
  intros Hid. unfold serviceDo. cbn [Method ReqURL ReqBody].
  change (String.eqb "GET" "POST") with false.
  change (String.eqb "GET" "GET") with true. cbn [andb].
  replace (base +:+ "/1/raw/" +:+ id) with ((base +:+ "/1/raw/") +:+ id).
  2:{ clear. induction base as [|a b IH]; [done|].
      change (String a b +:+ ?x) with (String a (b +:+ x)).
      by rewrite <- IH. }
  rewrite stripPrefix_app. cbn [mbind option_bind]. by rewrite Hid.
Qed.

(** C9: against the storing stub service, submitting a content with
    [PasteLog] and fetching the paste it names with [GetRawLog] returns the
    content unchanged, byte for byte, and no error; for every content,
    every state of the service, and every client whose base URL the
    request constructor accepts. *)
Theorem C9_round_trip (c : Client) (content : string) (s : Service) :
  stringContainsCTLByte (BaseURL c) = false ->
  exit (@exec stubRuntime (service (BaseURL c)) _
          (pasteThenFetch c content) s [] [])
  = Returned (content, None).
Proof.
  intros Hc. unfold pasteThenFetch.
  rewrite exec_bind, exec_PasteLog.
  rewrite stub_NewRequest_ok by done.
  change (@HTTPClient_Do _ (service (BaseURL c))) with (serviceDo (BaseURL c)).
  rewrite serviceDo_paste.
  cbn [exit world appended events jsonResponse RespBody json_PasteResponse
       stubRuntime Success deref ID].
  unfold Client.GetRawLog, Client.http_NewRequest.
  rewrite stub_NewRequest_ok; [|done| ].
  2:{ change ("/1/raw/" +:+ ?x) with ("/1/raw/" +:+ x). rewrite CTL_app.
      by rewrite CTL_pretty. }
  cbn [exec].
  change (@HTTPClient_Do _ (service (BaseURL c))) with (serviceDo (BaseURL c)).
  rewrite serviceDo_raw with (content := content).
  2:{ cbn [pastes]. by rewrite lookup_insert_eq. }
  reflexivity.
Qed.

End StubFacts.

(** *** The fan-out handler *)

Section BotFacts.
Context `{Outside}.
Import Bot.

Lemma Runs_snoc p h q ev q' :
  Runs p h q -> Answer q ev q' -> Runs p (h ++ [ev]) q'.
Proof.
  induction 1 as [p|p ev0 p' h q Ha Hr IH]; intros Hq; cbn.
  - eapply Runs_cons; [done|constructor].
  - eapply Runs_cons; [done|by apply IH].
Qed.

Lemma command_Answer p w p' w' ev :
  command p w = Some (p', w', ev) -> Answer p ev p'.
Proof.
  destruct p; cbn; try discriminate.
  - destruct (http_Get url w). intros [= <- <- <-]. constructor.
  - destruct (HTTPClient_Do req w). intros [= <- <- <-]. constructor.
  - destruct (Session_ChannelTyping channel w). intros [= <- <- <-]. constructor.
  - destruct (Session_User id w). intros [= <- <- <-]. constructor.
  - destruct (Session_ChannelMessageSendEmbed channel embed w).
    intros [= <- <- <-]. constructor.
  - destruct (time_Now w). intros [= <- <- <-]. constructor.
  - intros [= <- <- <-]. constructor.
Qed.

Lemma enter_accepted m w :
  accepted m -> enter m w = mkMachine m (Attachments m) false [] [] w [] None.
Proof.
  unfold accepted, enter. intros Hm.
  destruct (Z.ltb_spec (Z.of_nat (length (Attachments m))) 1); [lia|].
  destruct (Z.ltb_spec 5 (Z.of_nat (length (Attachments m)))); [lia|]. done.
Qed.

Lemma enter_rejected m w :
  ~ accepted m -> enter m w = mkMachine m [] false [] [] w [] (Some (Returned tt)).
Proof.
  unfold accepted, enter. intros Hm.
  destruct (Z.ltb_spec (Z.of_nat (length (Attachments m))) 1); [done|].
  destruct (Z.ltb_spec 5 (Z.of_nat (length (Attachments m)))); [done|]. lia.
Qed.

Lemma step_stopped t st e : status st = Some e -> step t st = st.
Proof. unfold step. by intros ->. Qed.

Lemma run_stopped sched st e : status st = Some e -> run sched st = st.
Proof.
  induction sched as [|t sched IH]; [done|]. intros Hs. cbn.
  rewrite (step_stopped _ _ _ Hs). by apply IH.
Qed.

Lemma run_invariant (P : Machine -> Prop) :
  (forall t st, P st -> P (step t st)) ->
  forall sched st, P st -> P (run sched st).
Proof.
  intros Hstep sched. induction sched as [|t sched IH]; [done|].
  intros st Hst. cbn. apply IH, Hstep, Hst.
Qed.

(** *** What a goroutine can have done *)

Lemma Runs_Ret r h p : Runs (Ret r) h p -> h = [] /\ p = Ret r.
Proof. inversion 1 as [|???? q Ha]; subst; [done|inversion Ha]. Qed.

Lemma Runs_Panic e h p : Runs (Panic e) h p -> h = [] /\ p = Panic e.
Proof. inversion 1 as [|???? q Ha]; subst; [done|inversion Ha]. Qed.

Lemma Runs_Get url k h p :
  Runs (Get url k) h p ->
  (h = [] /\ p = Get url k)
  \/ exists a h', h = EvGet url a :: h' /\ Runs (k a) h' p.
Proof.
  inversion 1 as [|???? q Ha Hr]; subst; [by left|].
  inversion Ha; subst. right. eauto.
Qed.

Lemma Runs_Do req k h p :
  Runs (Do req k) h p ->
  (h = [] /\ p = Do req k)
  \/ exists a h', h = EvDo req a :: h' /\ Runs (k a) h' p.
Proof.
  inversion 1 as [|???? q Ha Hr]; subst; [by left|].
  inversion Ha; subst. right. eauto.
Qed.

Lemma Runs_Append f k h p :
  Runs (Append f k) h p ->
  (h = [] /\ p = Append f k)
  \/ exists h', h = EvAppend f :: h' /\ Runs k h' p.
Proof.
  inversion 1 as [|???? q Ha Hr]; subst; [by left|].
  inversion Ha; subst. right. eauto.
Qed.

Lemma worker_stage at' h p : Runs (worker at') h p -> Stage at' h p.
Proof.
  unfold worker. intros Hr.
  apply Runs_Get in Hr as [[-> ->]|(a & h' & -> & Hr)]; [apply S_start|].
  destruct a as [resp|e].
  2:{ apply Runs_Ret in Hr as [-> ->]. apply S_dropped.
      by intros body (? & [=] & _). }
  destruct (io_ReadAll (RespBody resp)) as [body|e] eqn:Hbody.
  2:{ apply Runs_Ret in Hr as [-> ->]. apply S_dropped.
      intros body (? & [= <-] & ?). congruence. }
  assert (downloaded (Ok resp) body) as Hdl by (by exists resp).
  destruct (Z.ltb_spec maxBody (len body)) as [Hbig|Hsize].
  { apply Runs_Ret in Hr as [-> ->]. apply S_dropped.
    intros body' (? & [= <-] & ?). congruence. }
  unfold Client.PasteLog in Hr.
  destruct (Client.http_NewRequest _ _ _) as [req|e] eqn:Hreq.
  2:{ cbn in Hr. apply Runs_Ret in Hr as [-> ->].
      unfold Client.http_NewRequest in Hreq.
      destruct (NewRequest_error _ _) eqn:Hn; [|done].
      by eapply S_norequest. }
  rewrite (PasteLog_request _ _ _ Hreq) in Hr. cbn [bind] in Hr.
  apply Runs_Do in Hr as [[-> ->]|(b & h2 & -> & Hr)]; [by eapply S_submitting|].
  destruct b as [presp|e].
  2:{ cbn in Hr. apply Runs_Ret in Hr as [-> ->]. eapply S_refused; [done..|].
      by intros pr (? & [=] & _). }
  destruct (json_PasteResponse (RespBody presp)) as [pr|e] eqn:Hpr.
  2:{ cbn in Hr. apply Runs_Ret in Hr as [-> ->]. eapply S_refused; [done..|].
      intros pr (? & [= <-] & ? & _). congruence. }
  destruct (Mclogs.Success pr) eqn:Hs.
  2:{ cbn in Hr. apply Runs_Ret in Hr as [-> ->]. eapply S_refused; [done..|].
      intros pr' (? & [= <-] & ? & ?). congruence. }
  assert (pasted (Ok presp) pr) as Hp by (by exists presp).
  cbn [negb bind deref] in Hr.
  unfold Client.GetInsights, Client.http_NewRequest in Hr.
  destruct (NewRequest_error "GET" _) as [e|] eqn:Hn.
  { cbn in Hr. apply Runs_Panic in Hr as [-> ->]. by eapply S_noinsights. }
  cbn [bind] in Hr. fold (insightsRequest mclc (Mclogs.ID pr)) in Hr.
  apply Runs_Do in Hr as [[-> ->]|(c & h3 & -> & Hr)]; [by eapply S_asking|].
  destruct c as [iresp|e].
  2:{ cbn in Hr. apply Runs_Panic in Hr as [-> ->]. eapply S_nil; [done..|].
      by intros an (? & [=] & _). }
  cbn [bind] in Hr.
  destruct (decodeInsights_cases iresp) as [[e He]|(an & He & _)];
    rewrite He in Hr; cbn [deref] in Hr.
  { apply Runs_Panic in Hr as [-> ->]. eapply S_nil; [done..|].
    intros an (? & [= <-] & ?). congruence. }
  assert (analysed (Ok iresp) an) as Han by (by exists iresp).
  fold (fieldOf pr an) in Hr.
  apply Runs_Append in Hr as [[-> ->]|(h4 & -> & Hr)]; [by eapply S_appending|].
  apply Runs_Ret in Hr as [-> ->]. by eapply S_done.
Qed.

(** *** The invariant of a call *)

Lemma history_app i tr1 tr2 :
  history i (tr1 ++ tr2) = history i tr1 ++ history i tr2.
Proof. apply omap_app. Qed.

Lemma history_own i ev : history i [(Worker i, ev)] = [ev].
Proof. unfold history; cbn. by rewrite decide_True. Qed.

Lemma history_other i j ev : i <> j -> history i [(Worker j, ev)] = [].
Proof. intros Hij. unfold history; cbn. by rewrite decide_False. Qed.

Lemma history_nil_above i tr :
  (forall j ev, (Worker j, ev) ∈ tr -> (j < i)%nat) -> history i tr = [].
Proof.
  induction tr as [|[t ev] tr IH]; [done|]. intros Hb. cbn.
  destruct t as [|j|]; cbn.
  - apply IH. intros ???. eapply Hb. by right.
  - rewrite decide_False.
    + apply IH. intros ???. eapply Hb. by right.
    + intros ->. assert (j < j)%nat; [|lia]. apply (Hb j ev). by left.
  - apply IH. intros ???. eapply Hb. by right.
Qed.

Lemma exec_assemble m fs0 w fs1 :
  let o := exec (assemble m fs0) w fs1 [] in
  exit o = Returned tt /\ appended o = fs1 /\ replyOf m fs0 (events o).
Proof.
  unfold assemble. destruct fs0 as [|f fs0].
  { cbn. repeat split. by left. }
  cbn -[Z.of_nat].
  destruct (Z.eqb_spec (Z.of_nat (S (length fs0))) 0) as [?|_]; [lia|].
  cbn [exec]. destruct (time_Now w) as [stamp w1].
  cbn [exec]. destruct (Session_User "@me" w1) as [u w2].
  cbn [exec].
  destruct (Session_ChannelMessageSendEmbed _ _ w2) as [a w3] eqn:Hsend.
  cbn. repeat split. right. split; [done|].
  eexists stamp, u, _, a. split; [reflexivity|]. by destruct u.
Qed.

Lemma Inv_enter m w : accepted m -> Inv m (enter m w).
Proof.
  intros Hm. rewrite enter_accepted by done.
  split; cbn; try done.
  intros ?? Hin. by apply elem_of_nil in Hin.
Qed.

Lemma appendedFields_app tr1 tr2 :
  appendedFields (tr1 ++ tr2) = appendedFields tr1 ++ appendedFields tr2.
Proof. apply omap_app. Qed.

Lemma history_main i evs :
  history i (List.map (fun ev => (Main, ev)) evs) = [].
Proof. by induction evs. Qed.

Lemma appendedFields_reply m fs0 reply :
  replyOf m fs0 reply ->
  appendedFields (List.map (fun ev => (Main, ev)) reply) = [].
Proof. by intros [[_ ->]|(_ & ? & ? & ? & ? & -> & _)]. Qed.

Lemma finished_Ret p : finished p = true -> p = Ret tt.
Proof. destruct p as [[]| | | | | | | | |]; by cbn. Qed.

Lemma stepWorker_command i st at' p p' w' ev :
  workers st !! i = Some (at', p) ->
  command p (now st) = Some (p', w', ev) ->
  stepWorker i st =
  mkMachine (msg st) (pending st) (typingStarted st)
    (<[i := (at', p')]> (workers st))
    (match ev with EvAppend f => fs st ++ [f] | _ => fs st end)
    w' (trace st ++ [(Worker i, ev)]) (status st).
Proof.
  intros Hi Hc. unfold stepWorker. rewrite Hi.
  destruct p; try discriminate; by rewrite Hc.
Qed.

Lemma command_None p w :
  command p w = None ->
  (exists r, p = Ret r) \/ (exists e, p = Panic e) \/ (exists e, p = Fatal e).
Proof.
  destruct p; cbn; eauto.
  - by destruct (http_Get url w).
  - by destruct (HTTPClient_Do req w).
  - by destruct (Session_ChannelTyping channel w).
  - by destruct (Session_User id w).
  - by destruct (Session_ChannelMessageSendEmbed channel embed w).
  - by destruct (time_Now w).
  - done.
Qed.

Lemma Stage_not_Fatal at' h e : ~ Stage at' h (Fatal e).
Proof. inversion 1. Qed.

Lemma Inv_stepProducer m st :
  Inv m st -> status st = None -> Inv m (stepProducer st).
Proof.
  intros [Hmsg Hfil Hq Hty Hsta Hh Hb Hfs Hst] Hrun. unfold stepProducer.
  rewrite Hrun in Hst.
  destruct (pending st) as [|at' rest] eqn:Hp.
  { split; try done. by rewrite Hp. by rewrite Hrun. }
  change (strings_HasPrefix (ContentType at') "text/plain") with (isPlain at').
  destruct (isPlain at') eqn:Hplain.
  - destruct (typingStarted st) eqn:Htyp; cbn [negb].
    + (* the attachment goes to a new goroutine *)
      destruct (Hty eq_refl) as (a & tr & Htr & Hprod).
      cbn [List.filter] in Hfil. rewrite Hplain in Hfil.
      split; proj; try done.
      * by rewrite fmap_app, <- app_assoc.
      * intros i a0 p Hi. apply lookup_app_Some in Hi as [Hi|[Hlen Hi]].
        { by apply Hh. }
        apply list_lookup_singleton_Some in Hi as [Hi0 [= <- <-]].
        rewrite history_nil_above; [constructor|].
        intros j ev Hj. apply Hb in Hj. lia.
      * intros i ev Hi. apply Hb in Hi. rewrite length_app. lia.
      * by rewrite Hrun.
    + (* the typing indicator, first *)
      destruct (Hq eq_refl) as [Htr Hws].
      destruct (Session_ChannelTyping _ _) as [a w'].
      split; proj; try done.
      * intros _. rewrite Htr, Hmsg. by exists a, [].
      * intros _. cbn [List.filter] in Hfil.
        rewrite Hplain in Hfil. rewrite <- Hfil. by destruct ((workers st).*1).
      * rewrite Hws. intros i ?? Hi. by rewrite lookup_nil in Hi.
      * rewrite Htr. intros i ev Hi. apply list_elem_of_singleton in Hi. done.
      * by rewrite Hfs, Htr.
      * rewrite Hrun, Htr. by repeat constructor.
  - cbn [List.filter] in Hfil. rewrite Hplain in Hfil.
    split; proj; try done. by rewrite Hrun.
Qed.

Lemma Inv_stepWorker m i st :
  Inv m st -> status st = None -> Inv m (stepWorker i st).
Proof.
  intros HI Hrun.
  destruct (workers st !! i) as [[at' p]|] eqn:Hi.
  2:{ unfold stepWorker. by rewrite Hi. }
  destruct (command p (now st)) as [[[p' w'] ev]|] eqn:Hc.
  - rewrite (stepWorker_command _ _ _ _ _ _ _ Hi Hc).
    destruct HI as [Hmsg Hfil Hq Hty Hsta Hh Hb Hfs Hst]. rewrite Hrun in Hst.
    assert (i < length (workers st))%nat as Hlt by (by eapply lookup_lt_Some).
    split; proj; try done.
    + rewrite list_fmap_insert. cbn [fst].
      rewrite list_insert_id; [done|]. by rewrite list_lookup_fmap, Hi.
    + intros Hf. destruct (Hq Hf) as [_ Hws]. by rewrite Hws in Hi.
    + intros Hf. destruct (Hty Hf) as (a & rest & -> & Hrest).
      exists a, (rest ++ [(Worker i, ev)]). split; [done|].
      apply Forall_app. split; [done|]. by repeat constructor.
    + intros j a0 q Hj. rewrite history_app.
      destruct (decide (i = j)) as [<-|Hne].
      * rewrite list_lookup_insert_eq in Hj by done. injection Hj as <- <-.
        rewrite history_own. eapply Runs_snoc; [by apply Hh|].
        by eapply command_Answer.
      * rewrite list_lookup_insert_ne in Hj by done.
        rewrite history_other, app_nil_r by done. by apply Hh.
    + intros j ev' Hj. rewrite length_insert.
      apply elem_of_app in Hj as [Hj|Hj]; [by eapply Hb|].
      apply list_elem_of_singleton in Hj. by injection Hj as -> _.
    + rewrite appendedFields_app, Hfs. by destruct ev; rewrite ?app_nil_r.
    + rewrite Hrun. apply Forall_app. split; [done|]. by repeat constructor.
  - unfold stepWorker. rewrite Hi.
    destruct HI as [Hmsg Hfil Hq Hty Hsta Hh Hb Hfs Hst]. rewrite Hrun in Hst.
    apply command_None in Hc as [[r ->]|[[e ->]|[e ->]]].
    + split; try done. by rewrite Hrun.
    + split; proj; try done. eauto.
    + apply Hh, worker_stage in Hi. by apply Stage_not_Fatal in Hi.
Qed.

Lemma Inv_stepMain m st :
  Inv m st -> status st = None -> Inv m (stepMain st).
Proof.
  intros HI Hrun. unfold stepMain.
  destruct (pending st) as [|at' rest] eqn:Hp; [|done].
  destruct (forallb _ _) eqn:Hfin; [|done].
  destruct HI as [Hmsg Hfil Hq Hty Hsta Hh Hb Hfs Hst]. rewrite Hrun in Hst.
  destruct (exec_assemble (msg st) (fs st) (now st) (fs st)) as (He & Ha & Hr).
  rewrite Hmsg in Hr.
  split; proj; try done.
  - by rewrite Hp in Hfil.
  - intros Hf. destruct (Hq Hf) as [Htr Hws]. split; [|done].
    rewrite Htr in Hfs. rewrite Htr.
    destruct Hr as [[_ Hr]|[Hne _]]; [|done].
    rewrite Hmsg. by rewrite Hr.
  - intros Hf. destruct (Hty Hf) as (a & tr & -> & Hprod).
    eexists a, _. split; [by rewrite <- app_comm_cons|].
    apply Forall_app. split; [done|].
    apply Forall_forall. intros te Hte.
    apply list_elem_of_In, in_map_iff in Hte as (ev & <- & _). done.
  - intros i a0 p Hi. rewrite history_app, history_main, app_nil_r.
    by apply Hh.
  - intros i ev Hi. apply elem_of_app in Hi as [Hi|Hi]; [by eapply Hb|].
    apply list_elem_of_In, in_map_iff in Hi as (ev' & [=] & _).
  - rewrite Ha, appendedFields_app, Hmsg, (appendedFields_reply _ _ _ Hr).
    by rewrite app_nil_r.
  - rewrite He. split; [done|]. split.
    + apply Forall_forall. intros [a0 p] Hin.
      rewrite forallb_forall in Hfin. apply finished_Ret.
      apply (Hfin (a0, p)). by apply list_elem_of_In.
    + rewrite Ha, Hmsg. by eexists (trace st), _.
Qed.

Lemma Inv_step m t st : Inv m st -> Inv m (step t st).
Proof.
  intros HI. unfold step. destruct (status st) eqn:Hs; [done|].
  destruct t; [by apply Inv_stepProducer|by apply Inv_stepWorker
              |by apply Inv_stepMain].
Qed.

Lemma Inv_handle sched m w :
  accepted m -> Inv m (handleMessageCreate sched m w).
Proof.
  intros Hm. unfold handleMessageCreate.
  apply run_invariant; [apply Inv_step|by apply Inv_enter].
Qed.

(** *** Reading the trace *)

Lemma history_elem i ev tr : ev ∈ history i tr <-> (Worker i, ev) ∈ tr.
Proof.
  unfold history. rewrite list_elem_of_omap. split.
  - intros ([t ev'] & Hin & Hev). cbn in Hev.
    destruct t as [|j|]; try done. case_decide; [|done].
    by simplify_eq.
  - intros Hin. exists (Worker i, ev). split; [done|].
    cbn. by rewrite decide_True.
Qed.

(** A rejected message does nothing; an accepted one keeps the invariant. *)
Lemma handle_cases sched m w :
  let st := handleMessageCreate sched m w in
  (~ accepted m /\ st = mkMachine m [] false [] [] w [] (Some (Returned tt)))
  \/ (accepted m /\ Inv m st).
Proof.
  destruct (decide (accepted m)) as [Hm|Hm].
  - right. split; [done|]. by apply Inv_handle.
  - left. split; [done|]. unfold handleMessageCreate.
    rewrite enter_rejected by done. by erewrite run_stopped.
Qed.

Lemma Inv_stage m st i ev :
  Inv m st -> (Worker i, ev) ∈ trace st ->
  exists at' p, workers st !! i = Some (at', p)
                /\ Stage at' (history i (trace st)) p
                /\ ev ∈ history i (trace st).
Proof.
  intros HI Hin. pose proof (inv_bound _ _ HI _ _ Hin) as Hlt.
  apply lookup_lt_is_Some in Hlt as [[at' p] Hi].
  exists at', p. split; [done|]. split.
  - by apply worker_stage, (inv_hist _ _ HI).
  - by apply history_elem.
Qed.

(** Who can have made which call. *)
Lemma Inv_event m st t ev :
  Inv m st -> (t, ev) ∈ trace st ->
  match t with
  | Producer => exists a, ev = EvTyping (ChannelID m) a
  | Worker _ =>
      (exists url a, ev = EvGet url a) \/ (exists req b, ev = EvDo req b)
      \/ (exists f, ev = EvAppend f)
  | Main =>
      status st = Some (Returned tt)
      /\ ((exists s, ev = EvNow s) \/ (exists u, ev = EvUser "@me" u)
          \/ (exists e a, ev = EvSend (ChannelID m) e a /\ Fields e = fs st))
  end.
Proof.
  intros HI Hin. destruct t as [|i|].
  - destruct (typingStarted st) eqn:Hty.
    + destruct (inv_typing _ _ HI Hty) as (a & rest & Htr & Hrest).
      rewrite Htr in Hin. apply elem_of_cons in Hin as [[= ->]|Hin]; [eauto|].
      rewrite Forall_forall in Hrest. by apply Hrest in Hin.
    + destruct (inv_quiet _ _ HI Hty) as [Htr _]. rewrite Htr in Hin.
      by apply elem_of_nil in Hin.
  - destruct (Inv_stage _ _ _ _ HI Hin) as (at' & p & _ & Hs & Hev).
    remember (history i (trace st)) as h eqn:Hh. clear Hh.
    destruct Hs;
      repeat (apply elem_of_cons in Hev as [->|Hev]); eauto 6;
      by apply elem_of_nil in Hev.
  - pose proof (inv_status _ _ HI) as Hst.
    destruct (status st) as [[[]|e|e]|] eqn:Hstat.
    + destruct Hst as (_ & _ & pre & reply & Htr & Hpre & _ & Hr).
      split; [done|]. rewrite Htr in Hin.
      apply elem_of_app in Hin as [Hin|Hin].
      { rewrite Forall_forall in Hpre. by apply Hpre in Hin. }
      apply list_elem_of_In, in_map_iff in Hin as (ev' & [= ->] & Hin).
      destruct Hr as [[_ ->]|(_ & s & u & e & a & -> & Hf)]; [done|].
      apply list_elem_of_In in Hin.
      repeat (apply elem_of_cons in Hin as [->|Hin]); eauto 8.
      by apply elem_of_nil in Hin.
    + destruct Hst as [Hst _]. rewrite Forall_forall in Hst.
      by apply Hst in Hin.
    + done.
    + rewrite Forall_forall in Hst. by apply Hst in Hin.
Qed.

(** *** The attachment filter *)



(** Every history of a goroutine starts with the download of its own
    attachment. *)
Lemma Stage_first at' h p ev :
  Stage at' h p -> ev ∈ h ->
  exists a rest, h = EvGet (URL at') a :: rest
    /\ forall url b, EvGet url b ∉ rest.
Proof.
  intros Hs Hev. destruct Hs; try (by apply elem_of_nil in Hev);
    eexists _, _; (split; [reflexivity|]); intros url0 b0 Hin;
    repeat (apply elem_of_cons in Hin as [[=]|Hin]);
    by apply elem_of_nil in Hin.
Qed.

Lemma Stage_finished at' h :
  Stage at' h (Ret tt) -> exists a rest, h = EvGet (URL at') a :: rest.
Proof. inversion 1; subst; eauto. Qed.


(** *** The typing indicator *)

Lemma omap_none {A B} (f : A -> option B) (l : list A) :
  (forall x, x ∈ l -> f x = None) -> omap f l = [].
Proof.
  induction l as [|x l IH]; [done|]. intros Hf. cbn.
  rewrite (Hf x) by left. apply IH. intros y Hy. apply Hf. by right.
Qed.




(** *** The size ceiling *)

Lemma downloaded_fun a body1 body2 :
  downloaded a body1 -> downloaded a body2 -> body1 = body2.
Proof. intros (r1 & -> & H1) (r2 & [= <-] & H2). congruence. Qed.

(** What the history of a goroutine says once the body it downloaded is
    known: too large, and the download is all there is; within the ceiling
    (and with an endpoint that parses), the submission of that very body
    is the next call, made or about to be made. *)
Lemma Stage_ceiling at' h p url resp body :
  Stage at' h p -> EvGet url (Ok resp) ∈ h ->
  io_ReadAll (RespBody resp) = Ok body ->
  (maxBody < len body -> h = [EvGet url (Ok resp)] /\ p = Ret tt)
  /\ (len body <= maxBody ->
      NewRequest_error "POST" (Mclogs.BaseURL mclc +:+ "/1/log") = None ->
      (exists k, h = [EvGet url (Ok resp)] /\ p = Do (pasteRequest mclc body) k)
      \/ (exists b rest,
            h = EvGet url (Ok resp) :: EvDo (pasteRequest mclc body) b :: rest)).
Proof.
  intros Hs Hev Hbody.
  assert (downloaded (Ok resp) body) as Hdl by (by exists resp).
  destruct (Stage_first _ _ _ _ Hs Hev) as (a & rest & Hh & Hrest).
  rewrite Hh in Hev. apply elem_of_cons in Hev as [Heq|Hev].
  2:{ by apply Hrest in Hev. }
  injection Heq as -> <-. clear Hrest.
  destruct Hs; simplify_eq;
    try match goal with
        | Hd : downloaded _ ?b |- _ =>
            pose proof (downloaded_fun _ _ _ Hdl Hd) as <-
        end;
    (split; [intros Hbig|intros Hsmall Hurl]); try lia; try congruence;
    eauto.
  match goal with Hall : forall b, downloaded _ b -> _ |- _ =>
    specialize (Hall _ Hdl) end. lia.
Qed.

(** C4: a body that was downloaded and read in full and is larger than
    10 MiB is never submitted and never yields a field: its goroutine makes
    no request to the paste service and appends nothing.  A body of
    10 MiB or less passes the check: the request that submits exactly this
    body is the next call of its goroutine, and has been made once the
    handler has returned. *)
Theorem C4_size_ceiling (sched : list Thread) (m : MessageCreate) (w : World)
    (i : nat) (url : string) (resp : Response Body) (body : string) :
  let st := handleMessageCreate sched m w in
  (Worker i, EvGet url (Ok resp)) ∈ trace st ->
  io_ReadAll (RespBody resp) = Ok body ->
  maxBody = 10485760
  /\ (maxBody < len body ->
        (forall req b, (Worker i, EvDo req b) ∉ trace st)
        /\ (forall f, (Worker i, EvAppend f) ∉ trace st))
  /\ (len body <= maxBody ->
      NewRequest_error "POST" (Mclogs.BaseURL mclc +:+ "/1/log") = None ->
        ((exists at' k,
            workers st !! i = Some (at', Do (pasteRequest mclc body) k))
         \/ (exists b, (Worker i, EvDo (pasteRequest mclc body) b) ∈ trace st))
        /\ (status st = Some (Returned tt) ->
            exists b, (Worker i, EvDo (pasteRequest mclc body) b) ∈ trace st)).
Proof.
  intros st Hin Hbody. split; [reflexivity|].
  destruct (handle_cases sched m w) as [[Hm Hst]|[Hm HI]].
  { fold st in Hst. rewrite Hst in Hin. by apply elem_of_nil in Hin. }
  fold st in HI.
  destruct (Inv_stage _ _ _ _ HI Hin) as (at' & p & Hi & Hs & Hev).
  destruct (Stage_ceiling _ _ _ _ _ _ Hs Hev Hbody) as [Hbig Hsmall].
  split.
  - intros Hlt. destruct (Hbig Hlt) as [Hh _].
    split; intros ? ; intros; rewrite <- history_elem, Hh;
      by intros [=]%list_elem_of_singleton.
  - intros Hle Hurl.
    destruct (Hsmall Hle Hurl) as [(k & Hh & ->)|(b & rest & Hh)].
    + split; [left; eauto|]. intros Hret.
      pose proof (inv_status _ _ HI) as Hstat. rewrite Hret in Hstat.
      destruct Hstat as (_ & Hfin & _). rewrite Forall_forall in Hfin.
      specialize (Hfin _ (list_elem_of_lookup_2 _ _ _ Hi)). done.
    + assert ((Worker i, EvDo (pasteRequest mclc body) b) ∈ trace st).
      { apply history_elem. rewrite Hh. right. by left. }
      split; [right|]; eauto.
Qed.

(** C5, as the code has it: what counts is the size of the body that was
    downloaded, not the size the attachment declares.  A goroutine whose
    download was read in full at 11 MiB makes no request to the paste
    service and appends no field, whatever [Size] says. *)
Theorem C5_eleven_MiB_body (sched : list Thread) (m : MessageCreate) (w : World)
    (i : nat) (at' : MessageAttachment)
    (resp : Response Body) (body : string) :
  let st := handleMessageCreate sched m w in
  (workers st).*1 !! i = Some at' ->
  (Worker i, EvGet (URL at') (Ok resp)) ∈ trace st ->
  io_ReadAll (RespBody resp) = Ok body ->
  len body = 11 * 1024 * 1024 ->
  workers st !! i = Some (at', Ret tt)
  /\ (forall req b, (Worker i, EvDo req b) ∉ trace st)
  /\ (forall f, (Worker i, EvAppend f) ∉ trace st).
Proof.
  intros st Hi Hin Hbody Hlen.
  destruct (handle_cases sched m w) as [[Hm Hst]|[Hm HI]].
  { fold st in Hst. rewrite Hst in Hin. by apply elem_of_nil in Hin. }
  fold st in HI.
  rewrite list_lookup_fmap in Hi.
  destruct (workers st !! i) as [[a0 p]|] eqn:Hwi; [|done].
  injection Hi as ->.
  pose proof (worker_stage _ _ _ (inv_hist _ _ HI _ _ _ Hwi)) as Hs.
  apply history_elem in Hin.
  destruct (Stage_ceiling _ _ _ _ _ _ Hs Hin Hbody) as [Hbig _].
  destruct Hbig as [Hh ->]; [unfold maxBody; lia|].
  split; [done|].
  split; intros ? ; intros; rewrite <- history_elem, Hh;
    by intros [=]%list_elem_of_singleton.
Qed.

(** *** The reply *)

(** A trace, read goroutine by goroutine, has the same contributions. *)
Lemma concat_insert {A} (G : nat -> list A) (x : A) (i : nat) (js : list nat) :
  NoDup js -> i ∈ js ->
  concat ((fun j => if decide (i = j) then x :: G j else G j) <$> js)
  ≡ₚ x :: concat (G <$> js).
Proof.
  induction js as [|j js IH]; intros Hnd Hin; [by apply elem_of_nil in Hin|].
  apply NoDup_cons in Hnd as [Hj Hnd]. cbn [fmap list_fmap concat].
  destruct (decide (i = j)) as [<-|Hne].
  - cbv iota.
    assert (((fun j => if decide (i = j) then x :: G j else G j) <$> js)
            = (G <$> js)) as ->; [|done].
    apply list_fmap_ext. intros k j Hjs. rewrite decide_False; [done|].
    intros <-. by apply list_elem_of_lookup_2 in Hjs.
  - apply elem_of_cons in Hin as [?|Hin]; [done|].
    rewrite IH by done. by rewrite Permutation_middle.
Qed.

Lemma history_cons j i ev tr :
  history j ((Worker i, ev) :: tr)
  = if decide (j = i) then ev :: history j tr else history j tr.
Proof. unfold history. cbn. by destruct (decide (j = i)). Qed.

Lemma omap_by_worker {A} (g : Event -> option A) (n : nat)
    (tr : list (Thread * Event)) :
  (forall i ev, (Worker i, ev) ∈ tr -> (i < n)%nat) ->
  (forall t ev, (t, ev) ∈ tr -> (forall i, t <> Worker i) -> g ev = None) ->
  omap (fun te => g te.2) tr
  ≡ₚ concat ((fun i => omap g (history i tr)) <$> seq 0 n).
Proof.
  induction tr as [|[t ev] tr IH]; intros Hb Hg.
  { cbn. induction (seq 0 n) as [|j js IHjs]; [done|by cbn]. }
  assert (omap (fun te => g te.2) tr
          ≡ₚ concat ((fun i => omap g (history i tr)) <$> seq 0 n)) as IH'.
  { apply IH.
    - intros i e Hin. apply (Hb i e). by right.
    - intros t' e Hin. apply Hg. by right. }
  destruct t as [|i|].
  - cbn [omap list_omap snd]. rewrite (Hg Producer ev); [|by left|done].
    exact IH'.
  - assert (i < n)%nat as Hi by (apply (Hb i ev); by left).
    cbn [omap list_omap snd]. destruct (g ev) as [y|] eqn:Hy.
    + assert (((fun j => omap g (history j ((Worker i, ev) :: tr))) <$> seq 0 n)
              = ((fun j => if decide (i = j) then y :: omap g (history j tr)
                           else omap g (history j tr)) <$> seq 0 n)) as ->.
      { apply list_fmap_ext. intros _ j _. rewrite history_cons.
        destruct (decide (j = i)) as [->|Hne].
        - rewrite decide_True by done. cbn. by rewrite Hy.
        - by rewrite decide_False by done. }
      rewrite concat_insert; [by rewrite IH'|apply NoDup_seq|].
      apply elem_of_seq. lia.
    + assert (((fun j => omap g (history j ((Worker i, ev) :: tr))) <$> seq 0 n)
              = ((fun j => omap g (history j tr)) <$> seq 0 n)) as ->; [|done].
      apply list_fmap_ext. intros _ j _. rewrite history_cons.
      destruct (decide (j = i)) as [->|Hne]; [|done]. cbn. by rewrite Hy.
  - cbn [omap list_omap snd]. rewrite (Hg Main ev); [|by left|done].
    exact IH'.
Qed.





(** *** Failures stay with their goroutine *)

(** A step of one goroutine leaves the others as they are. *)
Lemma stepWorker_frame i j st :
  i <> j -> workers (stepWorker i st) !! j = workers st !! j.
Proof.
  intros Hne. unfold stepWorker.
  destruct (workers st !! i) as [[at' p]|] eqn:Hi; [|done].
  destruct p; try done; cbn [command];
    repeat match goal with
           | |- context [let (_, _) := ?x in _] => destruct x
           end; proj; by rewrite list_lookup_insert_ne.
Qed.






(** *** Every call ends *)

Lemma run_app s1 s2 st : run (s1 ++ s2) st = run s2 (run s1 st).
Proof. apply fold_left_app. Qed.

Lemma worker_step_runs i st at' p p' w' ev :
  status st = None -> workers st !! i = Some (at', p) ->
  command p (now st) = Some (p', w', ev) ->
  let st1 := step (Worker i) st in
  status st1 = None /\ workers st1 !! i = Some (at', p') /\ onlyWorker i st st1.
Proof.
  intros Hrun Hi Hc. unfold step. rewrite Hrun.
  rewrite (stepWorker_command _ _ _ _ _ _ _ Hi Hc). proj.
  assert (i < length (workers st))%nat by (by eapply lookup_lt_Some).
  split; [done|]. split; [by rewrite list_lookup_insert_eq|].
  unfold onlyWorker; proj.
  split; [done|]. split; [by rewrite length_insert|].
  intros j Hj. by rewrite list_lookup_insert_ne.
Qed.

Lemma run_cons t s st : run (t :: s) st = run s (step t st).
Proof. reflexivity. Qed.

Lemma finishes_step i st at' p p' w' ev :
  status st = None -> workers st !! i = Some (at', p) ->
  command p (now st) = Some (p', w', ev) ->
  (forall st1, status st1 = None -> workers st1 !! i = Some (at', p') ->
               finishes i at' st1) ->
  finishes i at' st.
Proof.
  intros Hrun Hi Hc IH.
  destruct (worker_step_runs i st at' p p' w' ev Hrun Hi Hc)
    as (Hrun1 & Hi1 & Hp1 & Hl1 & Ho1).
  destruct (IH _ Hrun1 Hi1) as [n Hn]. exists (S n).
  cbn [replicate]. rewrite run_cons.
  destruct Hn as [Hn|(Hs & Hw2 & Hp2 & Hl2 & Ho2)]; [by left|right].
  split; [done|]. split; [done|]. split; [congruence|].
  split; [congruence|]. intros j Hj. by rewrite Ho2, Ho1.
Qed.

Lemma worker_finishes p : forall st i at',
  status st = None -> workers st !! i = Some (at', p) -> finishes i at' st.
Proof.
  induction p as [[]|e|e|url k IH|req k IH|ch k IH|id k IH|ch em k IH|k IH|fl k IH];
    intros st i at' Hrun Hi.
  - exists 0%nat. right. by repeat split.
  - exists 1%nat. left. cbn. unfold step, stepWorker. by rewrite Hrun, Hi.
  - exists 1%nat. left. cbn. unfold step, stepWorker. by rewrite Hrun, Hi.
  - destruct (http_Get url (now st)) as [a w'] eqn:Hw.
    eapply finishes_step; [done|done|by cbn; rewrite Hw|]. intros. by eapply IH.
  - destruct (HTTPClient_Do req (now st)) as [a w'] eqn:Hw.
    eapply finishes_step; [done|done|by cbn; rewrite Hw|]. intros. by eapply IH.
  - destruct (Session_ChannelTyping ch (now st)) as [a w'] eqn:Hw.
    eapply finishes_step; [done|done|by cbn; rewrite Hw|]. intros. by eapply IH.
  - destruct (Session_User id (now st)) as [a w'] eqn:Hw.
    eapply finishes_step; [done|done|by cbn; rewrite Hw|]. intros. by eapply IH.
  - destruct (Session_ChannelMessageSendEmbed ch em (now st)) as [a w'] eqn:Hw.
    eapply finishes_step; [done|done|by cbn; rewrite Hw|]. intros. by eapply IH.
  - destruct (time_Now (now st)) as [a w'] eqn:Hw.
    eapply finishes_step; [done|done|by cbn; rewrite Hw|]. intros. by eapply IH.
  - eapply finishes_step; [done|done|done|]. intros. by eapply IH.
Qed.

(** All the goroutines started so far can be run to their end. *)
Lemma workers_finish st :
  status st = None ->
  exists sched, let st' := run sched st in
    status st' <> None
    \/ (status st' = None /\ pending st' = pending st
        /\ Forall (fun ap => ap.2 = Ret tt) (workers st')).
Proof.
  intros Hrun.
  assert (forall k, exists sched, let st' := run sched st in
            status st' <> None
            \/ (status st' = None /\ pending st' = pending st
                /\ length (workers st') = length (workers st)
                /\ forall j at' p, (j < k)%nat ->
                     workers st' !! j = Some (at', p) -> p = Ret tt)) as Hk.
  { induction k as [|k [sched IH]].
    { exists []. right. repeat split; [done|]. intros; lia. }
    destruct IH as [IH|(Hs & Hp & Hl & Hdone)]; [exists sched; by left|].
    destruct (workers (run sched st) !! k) as [[at' p]|] eqn:Hwk.
    - destruct (worker_finishes p _ _ _ Hs Hwk) as [n Hn].
      exists (sched ++ replicate n (Worker k)). rewrite run_app.
      destruct Hn as [Hn|(Hs2 & Hw2 & Hp2 & Hl2 & Ho2)]; [by left|right].
      split; [done|]. split; [congruence|]. split; [congruence|].
      intros j a0 q Hj Hq.
      destruct (decide (j = k)) as [->|Hne]; [congruence|].
      rewrite Ho2 in Hq by done. eapply Hdone; [|done]. lia.
    - exists sched. right. split; [done|]. split; [done|]. split; [done|].
      intros j a0 q Hj Hq. destruct (decide (j = k)) as [->|Hne]; [congruence|].
      eapply Hdone; [|done]. lia. }
  destruct (Hk (length (workers st))) as [sched Hs]. exists sched.
  destruct Hs as [Hs|(Hs & Hp & Hl & Hdone)]; [by left|right].
  split; [done|]. split; [done|]. apply Forall_forall. intros [a0 q] Hin.
  apply list_elem_of_lookup in Hin as [j Hj]. cbn.
  eapply Hdone; [|done]. rewrite <- Hl. by eapply lookup_lt_Some.
Qed.

(** The feeding loop can be run to the end of the attachments. *)
Lemma producer_finishes l : forall st,
  status st = None -> pending st = l ->
  exists sched, let st' := run sched st in
    status st' = None /\ pending st' = [].
Proof.
  induction l as [|at' rest IH]; intros st Hrun Hp.
  { by exists []. }
  assert (forall st1, status st1 = None -> pending st1 = at' :: rest ->
            typingStarted st1 = true \/ isPlain at' = false ->
            let st2 := step Producer st1 in
            status st2 = None /\ pending st2 = rest) as Hgo.
  { intros st1 Hr1 Hp1 Hcase. unfold step, stepProducer. rewrite Hr1, Hp1.
    change (strings_HasPrefix (ContentType at') "text/plain") with (isPlain at').
    destruct (isPlain at'); [|done].
    destruct Hcase as [->|?]; done. }
  destruct (isPlain at') eqn:Hplain; [destruct (typingStarted st) eqn:Hty|].
  - destruct (Hgo st Hrun Hp) as [Hr2 Hp2]; [by left|].
    destruct (IH _ Hr2 Hp2) as [sched Hs]. by exists (Producer :: sched).
  - (* the typing indicator, then the attachment *)
    assert (let st1 := step Producer st in
            status st1 = None /\ pending st1 = at' :: rest
            /\ typingStarted st1 = true) as (Hr1 & Hp1 & Hty1).
    { unfold step, stepProducer. rewrite Hrun, Hp.
      change (strings_HasPrefix (ContentType at') "text/plain")
        with (isPlain at').
      rewrite Hplain, Hty. cbn [negb].
      by destruct (Session_ChannelTyping _ _). }
    destruct (Hgo _ Hr1 Hp1) as [Hr2 Hp2]; [by left|].
    destruct (IH _ Hr2 Hp2) as [sched Hs].
    by exists (Producer :: Producer :: sched).
  - destruct (Hgo st Hrun Hp) as [Hr2 Hp2]; [by right|].
    destruct (IH _ Hr2 Hp2) as [sched Hs]. by exists (Producer :: sched).
Qed.

(** Under some schedule every call ends: it returns, or the process dies. *)
Lemma handler_ends m w :
  exists sched, status (handleMessageCreate sched m w) <> None.
Proof.
  unfold handleMessageCreate.
  destruct (decide (accepted m)) as [Hm|Hm].
  2:{ exists []. by rewrite enter_rejected. }
  destruct (producer_finishes (Attachments m) (enter m w)) as (s1 & Hr1 & Hp1);
    [by rewrite enter_accepted..|].
  destruct (workers_finish _ Hr1) as (s2 & Hs2).
  destruct Hs2 as [Hs2|(Hr2 & Hp2 & Hfin)].
  { exists (s1 ++ s2). by rewrite run_app. }
  exists (s1 ++ s2 ++ [Main]). rewrite !run_app. cbn [run fold_left].
  unfold step. rewrite Hr2. unfold stepMain. rewrite Hp2, Hp1.
  rewrite (proj2 (forallb_forall _ _)); [done|].
  intros [a0 q] Hin. rewrite Forall_forall in Hfin.
  apply list_elem_of_In in Hin. apply Hfin in Hin. cbn in Hin. by subst q.
Qed.



End BotFacts.

(** *** The handler of [main.go] *)

Section MainGoFacts.
Context `{Outside}.

(** In [main.go] a submission that is not accepted ends the process, for
    every message whose first attachment is plain text, is downloaded and
    is within the ceiling: nothing after it is looked at. *)
Lemma main_go_failed_paste_is_fatal (m : MessageCreate) (a : MessageAttachment)
    (rest : list MessageAttachment) (w w0 w1 w2 : World)
    (t : option error) (g b : Result (Response Body)) (body : string) :
  Attachments m = a :: rest -> (length rest < 5)%nat ->
  isPlain a = true ->
  Session_ChannelTyping (ChannelID m) w = (t, w0) ->
  http_Get (URL a) w0 = (g, w1) ->
  downloaded g body -> len body <= maxBody ->
  NewRequest_error "POST" (Mclogs.BaseURL mclc +:+ "/1/log") = None ->
  HTTPClient_Do (pasteRequest mclc body) w1 = (b, w2) ->
  (forall pr, ~ pasted b pr) ->
  let o := exec (MainGo.handleMessageCreate m) w [] [] in
  (exists e, exit o = Exited ("Failed to paste log: " +:+ e))
  /\ events o = [EvTyping (ChannelID m) t; EvGet (URL a) g;
                 EvDo (pasteRequest mclc body) b]
  /\ world o = w2.
Proof.
  intros Hm Hlen Hplain Hty Hget (resp & -> & Hbody) Hsize Hurl Hdo Hno.
  unfold MainGo.handleMessageCreate. rewrite Hm. cbn [length].
  destruct (Z.ltb_spec (Z.of_nat (S (length rest))) 1) as [?|_]; [lia|].
  destruct (Z.ltb_spec 5 (Z.of_nat (S (length rest)))) as [?|_]; [lia|].
  cbn [orb MainGo.attachmentsLoop].
  change (strings_HasPrefix (ContentType a) "text/plain") with (isPlain a).
  rewrite Hplain. cbn [negb bind exec]. rewrite Hty. cbn [bind exec].
  rewrite Hget. rewrite Hbody.
  destruct (Z.ltb_spec maxBody (len body)) as [?|_]; [lia|].
  rewrite exec_bind, exec_PasteLog, Hurl, Hdo. cbn [exit world appended events].
  destruct b as [presp|e].
  2:{ cbn. eauto. }
  destruct (json_PasteResponse (RespBody presp)) as [pr|e] eqn:Hpr.
  2:{ cbn. eauto. }
  destruct (Mclogs.Success pr) eqn:Hs.
  { destruct (Hno pr). by exists presp. }
  cbn. eauto.
Qed.

End MainGoFacts.

(** *** The other methods of the client *)

Section ClientMore.
Context `{Outside}.
Import Mclogs.

Lemma exec_GetRawLog c id w fs tr :
  exec (Client.GetRawLog c id) w fs tr =
  match NewRequest_error "GET" (BaseURL c +:+ "/1/raw/" +:+ id) with
  | Some e => mkOutcome (Returned ("", Some e)) w fs tr
  | None =>
      let (ans, w') := HTTPClient_Do (rawRequest c id) w in
      mkOutcome
        (Returned
           match ans with
           | Err e => ("", Some e)
           | Ok resp =>
               if strings_HasPrefix (RespContentType resp) "text/plain" then
                 match io_ReadAll (RespBody resp) with
                 | Err e => ("", Some e)
                 | Ok b => (b, None)
                 end
               else
                 match json_ErrResp (RespBody resp) with
                 | Err e => ("", Some e)
                 | Ok d => ("", Some (ErrError d))
                 end
           end)
        w' fs (tr ++ [EvDo (rawRequest c id) ans])
  end.
Proof.
  unfold Client.GetRawLog, Client.http_NewRequest.
  destruct (NewRequest_error _ _); [done|]. cbn [exec].
  change (mkRequest "GET" (BaseURL c +:+ "/1/raw/" +:+ id) ∅ "")
    with (rawRequest c id).
  destruct (HTTPClient_Do _ w) as [[resp|e] w']; [|done].
  destruct (strings_HasPrefix _ _).
  - by destruct (io_ReadAll _).
  - by destruct (json_ErrResp _).
Qed.

(** X1: [GetRawLog] sends one GET for [/1/raw/{id}], or nothing when the
    URL is refused.  It returns the body as text exactly when the answer
    says [text/plain] and can be read to the end, whatever the status
    code; any other answer is an error, with the text of the JSON envelope
    when there is one, and the string returned with an error is empty. *)
Theorem GetRawLog_contract (c : Client) (id : string) (w : World) :
  let o := exec (Client.GetRawLog c id) w [] [] in
  match NewRequest_error "GET" (BaseURL c +:+ "/1/raw/" +:+ id) with
  | Some e => events o = [] /\ exit o = Returned ("", Some e)
  | None =>
      let req := rawRequest c id in
      let ans := (HTTPClient_Do req w).1 in
      events o = [EvDo req ans]
      /\ exists text err, exit o = Returned (text, err)
         /\ (err <> None -> text = "")
         /\ (err = None <->
               exists resp, ans = Ok resp
                 /\ strings_HasPrefix (RespContentType resp) "text/plain" = true
                 /\ io_ReadAll (RespBody resp) = Ok text)
         /\ (forall e, ans = Err e -> err = Some e)
         /\ (forall resp, ans = Ok resp ->
               strings_HasPrefix (RespContentType resp) "text/plain" = false ->
               match json_ErrResp (RespBody resp) with
               | Ok d => err = Some (ErrError d)
               | Err e => err = Some e
               end)
  end.
Proof.
  intros o. subst o. rewrite exec_GetRawLog.
  destruct (NewRequest_error _ _) as [e|]; [done|].
  intros req ans. subst req ans.
  destruct (HTTPClient_Do _ w) as [ans w']. cbn [fst exit events app].
  split; [done|].
  destruct ans as [resp|e].
  - destruct (strings_HasPrefix _ _) eqn:Hct.
    + destruct (io_ReadAll _) as [b|e] eqn:Hread.
      * exists b, None. repeat split; try done.
        -- intros _. by exists resp.
        -- intros resp' [= <-]. congruence.
      * exists "", (Some e). repeat split; try done.
        -- intros (resp' & [= <-] & _ & Hr). congruence.
        -- intros resp' [= <-]. congruence.
    + destruct (json_ErrResp _) as [d|e] eqn:Hd.
      * exists "", (Some (ErrError d)). repeat split; try done.
        -- intros (resp' & [= <-] & Hp & _). congruence.
        -- intros resp' [= <-] _. by rewrite Hd.
      * exists "", (Some e). repeat split; try done.
        -- intros (resp' & [= <-] & Hp & _). congruence.
        -- intros resp' [= <-] _. by rewrite Hd.
  - exists "", (Some e). repeat split; try done.
    + by intros (resp' & [=] & _).
    + by intros e' [= <-].
Qed.


(** X2: [GetInsights] sends one GET for [/1/insights/{id}], or nothing when
    the URL is refused.  It succeeds exactly when the answer has status 200
    and decodes to insights with an empty error; a transport or decoding
    error is passed on, a status other than 200 gives the error text of the
    JSON envelope, and insights that carry an error text give that text. *)
Theorem GetInsights_contract (c : Client) (id : string) (w : World) :
  let o := exec (Client.GetInsights c id) w [] [] in
  match NewRequest_error "GET" (BaseURL c +:+ "/1/insights/" +:+ id) with
  | Some e => events o = [] /\ exit o = Returned (None, Some e)
  | None =>
      let req := insightsRequest c id in
      let ans := (HTTPClient_Do req w).1 in
      events o = [EvDo req ans]
      /\ exists an err, exit o = Returned (an, err)
         /\ (err = None <->
               exists resp ins, ans = Ok resp
                 /\ StatusCode resp = http_StatusOK
                 /\ json_InsightsResponse (RespBody resp) = Ok ins
                 /\ InsError ins = "" /\ an = Some ins)
         /\ (forall e, ans = Err e -> err = Some e)
         /\ (forall resp, ans = Ok resp -> StatusCode resp <> http_StatusOK ->
               match json_ErrResp (RespBody resp) with
               | Ok d => err = Some (ErrError d)
               | Err e => err = Some e
               end)
         /\ (forall resp, ans = Ok resp -> StatusCode resp = http_StatusOK ->
               match json_InsightsResponse (RespBody resp) with
               | Ok ins => InsError ins <> "" -> err = Some (InsError ins)
               | Err e => err = Some e
               end)
  end.
Proof.
  intros o. subst o. rewrite exec_GetInsights.
  destruct (NewRequest_error _ _) as [e|]; [done|].
  intros req ans. subst req ans.
  destruct (HTTPClient_Do _ w) as [ans w']. cbn [fst exit events app].
  split; [done|].
  destruct ans as [resp|e].
  - unfold Client.decodeInsights.
    destruct (Z.eqb_spec (StatusCode resp) http_StatusOK) as [Hs|Hs]; cbn [negb].
    + destruct (json_InsightsResponse _) as [ins|e] eqn:Hd.
      * destruct (String.eqb_spec (InsError ins) "") as [He|He]; cbn [negb].
        -- exists (Some ins), None. repeat split; try done.
           ++ intros _. by exists resp, ins.
           ++ by intros resp' [= <-].
           ++ intros resp' [= <-] _. by rewrite Hd.
        -- exists None, (Some (InsError ins)). repeat split; try done.
           ++ by intros (resp' & ins' & [= <-] & _ & Hd' & _ & ?).
           ++ by intros resp' [= <-].
           ++ intros resp' [= <-] _. by rewrite Hd.
      * exists None, (Some e). repeat split; try done.
        -- by intros (resp' & ins' & [= <-] & _ & Hd' & _ & ?).
        -- by intros resp' [= <-].
        -- intros resp' [= <-] _. by rewrite Hd.
    + destruct (json_ErrResp _) as [d|e] eqn:Hd.
      * exists None, (Some (ErrError d)). repeat split; try done.
        -- by intros (resp' & ins' & [= <-] & _ & Hd' & _ & ?).
        -- intros resp' [= <-] _. by rewrite Hd.
        -- by intros resp' [= <-].
      * exists None, (Some e). repeat split; try done.
        -- by intros (resp' & ins' & [= <-] & _ & Hd' & _ & ?).
        -- intros resp' [= <-] _. by rewrite Hd.
        -- by intros resp' [= <-].
  - exists None, (Some e). repeat split; try done.
    + by intros (resp' & ins' & [=] & _).
    + by intros e' [= <-].
Qed.

Lemma exec_AnalyseLog c content w fs tr :
  exec (Client.AnalyseLog c content) w fs tr =
  match NewRequest_error "POST" (BaseURL c +:+ "/1/analyse") with
  | Some e => mkOutcome (Returned (None, Some e)) w fs tr
  | None =>
      let (ans, w') := HTTPClient_Do (analyseRequest c content) w in
      mkOutcome
        (Returned
           match ans with
           | Err e => (None, Some e)
           | Ok resp => Client.decodeInsights resp
           end)
        w' fs (tr ++ [EvDo (analyseRequest c content) ans])
  end.
Proof.
  unfold Client.AnalyseLog, Client.http_NewRequest.
  destruct (NewRequest_error _ _); [done|]. cbn [exec].
  change (Header_Set _ _ _) with (analyseRequest c content).
  by destruct (HTTPClient_Do _ w) as [[resp|e] w'].
Qed.

(** X3: [AnalyseLog] sends one POST to [/1/analyse], or nothing when the
    URL is refused, with the form body and the content type that [PasteLog]
    sends for the same content; and it reads the answer as [GetInsights]
    does: given the same answer, the two return the same. *)
Theorem AnalyseLog_contract (c : Client) (content id : string) (w w' : World) :
  let o := exec (Client.AnalyseLog c content) w [] [] in
  match NewRequest_error "POST" (BaseURL c +:+ "/1/analyse") with
  | Some e => events o = [] /\ exit o = Returned (None, Some e)
  | None =>
      let req := analyseRequest c content in
      let ans := (HTTPClient_Do req w).1 in
      events o = [EvDo req ans]
      /\ Method req = "POST" /\ ReqURL req = BaseURL c +:+ "/1/analyse"
      /\ ReqBody req = Values_Encode [("content", content)]
      /\ ReqBody req = ReqBody (pasteRequest c content)
      /\ Header req = Header (pasteRequest c content)
      /\ (NewRequest_error "GET" (BaseURL c +:+ "/1/insights/" +:+ id) = None ->
          (HTTPClient_Do (insightsRequest c id) w').1 = ans ->
          exit o = exit (exec (Client.GetInsights c id) w' [] []))
  end.
Proof.
  intros o. subst o. rewrite exec_AnalyseLog.
  destruct (NewRequest_error _ _) as [e|]; [done|].
  intros req ans. subst req ans.
  destruct (HTTPClient_Do _ w) as [ans w1] eqn:Hdo. cbn [fst exit events app].
  repeat split.
  intros Hnew Hans. rewrite exec_GetInsights, Hnew.
  destruct (HTTPClient_Do _ w') as [ans' w1']. cbn in Hans. by subst ans'.
Qed.

Lemma exec_CheckLimits c w fs tr :
  exec (Client.CheckLimits c) w fs tr =
  match NewRequest_error "GET" (BaseURL c +:+ "/1/limits") with
  | Some e => mkOutcome (Returned (None, Some e)) w fs tr
  | None =>
      let (ans, w') := HTTPClient_Do (limitsRequest c) w in
      mkOutcome
        (Returned
           match ans with
           | Err e => (None, Some e)
           | Ok resp =>
               match json_Limits (RespBody resp) with
               | Err e => (None, Some e)
               | Ok l => (Some l, None)
               end
           end)
        w' fs (tr ++ [EvDo (limitsRequest c) ans])
  end.
Proof.
  unfold Client.CheckLimits, Client.http_NewRequest.
  destruct (NewRequest_error _ _); [done|]. cbn [exec].
  change (mkRequest "GET" (BaseURL c +:+ "/1/limits") ∅ "")
    with (limitsRequest c).
  destruct (HTTPClient_Do _ w) as [[resp|e] w']; [|done].
  by destruct (json_Limits _).
Qed.

(** X4: [CheckLimits] sends one GET for [/1/limits], or nothing when the URL
    is refused, and returns what the body decodes to.  It looks neither at
    the status code nor at the content type: two answers with the same body
    give the same result.  The limits are nil exactly when there is an
    error. *)
Theorem CheckLimits_contract (c : Client) (w w' : World) :
  let o := exec (Client.CheckLimits c) w [] [] in
  match NewRequest_error "GET" (BaseURL c +:+ "/1/limits") with
  | Some e => events o = [] /\ exit o = Returned (None, Some e)
  | None =>
      let req := limitsRequest c in
      let ans := (HTTPClient_Do req w).1 in
      events o = [EvDo req ans]
      /\ (exists l err, exit o = Returned (l, err)
            /\ (l = None <-> err <> None)
            /\ (forall e, ans = Err e -> err = Some e)
            /\ (forall resp, ans = Ok resp ->
                  match json_Limits (RespBody resp) with
                  | Ok d => l = Some d /\ err = None
                  | Err e => l = None /\ err = Some e
                  end))
      /\ (forall resp resp',
            ans = Ok resp -> (HTTPClient_Do req w').1 = Ok resp' ->
            RespBody resp = RespBody resp' ->
            exit o = exit (exec (Client.CheckLimits c) w' [] []))
  end.
Proof.
  intros o. subst o. rewrite !exec_CheckLimits.
  destruct (NewRequest_error _ _) as [e|]; [done|].
  intros req ans. subst req ans.
  destruct (HTTPClient_Do _ w) as [ans w1]. cbn [fst exit events app].
  split; [done|]. split.
  - destruct ans as [resp|e].
    + destruct (json_Limits _) as [d|e] eqn:Hd.
      * exists (Some d), None. repeat split; try done.
        intros resp' [= <-]. by rewrite Hd.
      * exists None, (Some e). repeat split; try done.
        intros resp' [= <-]. by rewrite Hd.
    + exists None, (Some e). repeat split; try done. by intros e' [= <-].
  - intros resp resp' -> Hans' Hbody.
    destruct (HTTPClient_Do _ w') as [ans' w1']. cbn in Hans'. subst ans'.
    cbn [exit]. by rewrite Hbody.
Qed.

End ClientMore.

Section FormFacts.
Import Stub.

Lemma upperhex_safe n : formSafe (upperhex n) = true.
Proof.
  destruct n as [|p]; [reflexivity|].
  do 5 (try (destruct p as [p|p|]; try reflexivity)).
Qed.


Lemma escape_safe s : allFormSafe (url_QueryEscape s) = true.
Proof.
  induction s as [|c s IH]; [done|]. cbn [url_QueryEscape].
  destruct (Ascii.eqb c " ").
  - cbn [allFormSafe]. by rewrite IH.
  - destruct (shouldEscape c) eqn:He; cbn [allFormSafe].
    + by rewrite !upperhex_safe, IH.
    + unfold formSafe at 1. by rewrite He, IH.
Qed.

Lemma form_body content :
  Values_Encode (Values_Set [] "content" content)
  = "content=" +:+ url_QueryEscape content.
Proof. reflexivity. Qed.

(** X5: the form body that [PasteLog] and [AnalyseLog] build for a content
    is [content=] followed by bytes that are unreserved, [+] or [%] (so no
    [&], no [=], no space and no control byte: one field, whatever the
    content holds); unescaping gives the content back, and two contents
    with the same body are the same. *)
Theorem form_body_is_one_field (content : string) :
  let body := Values_Encode (Values_Set [] "content" content) in
  (exists esc, body = "content=" +:+ esc
               /\ allFormSafe esc = true
               /\ url_QueryUnescape esc = Some content)
  /\ (forall c, formSafe c = true ->
        c <> "&"%char /\ c <> "="%char /\ c <> " "%char
        /\ (32 <= N_of_ascii c < 127)%N)
  /\ (forall content',
        Values_Encode (Values_Set [] "content" content') = body ->
        content' = content).
Proof.
  intros body. subst body. rewrite form_body. repeat split.
  - exists (url_QueryEscape content). split; [done|].
    split; [apply escape_safe | apply unescape_escape].
  - intros ->. done.
  - intros ->. done.
  - intros ->. done.
  - revert H. unfold formSafe, shouldEscape.
    destruct c as [[] [] [] [] [] [] [] []]; cbn; done.
  - revert H. unfold formSafe, shouldEscape.
    destruct c as [[] [] [] [] [] [] [] []]; cbn; done.
  - intros content' Heq. rewrite form_body in Heq.
    assert (Some (url_QueryEscape content') = Some (url_QueryEscape content))
      as [= Hesc].
    { by rewrite <- !(stripPrefix_app "content="), Heq. }
    assert (Some content' = Some content) as [= ->]; [|done].
    by rewrite <- !unescape_escape, Hesc.
Qed.

End FormFacts.

(** *** The sequential handlers *)

Section SequentialFacts.
Context `{Outside}.

Lemma pasteFailure_pasted b :
  match pasteFailure b with
  | None => exists pr, pasted b pr
  | Some _ => forall pr, ~ pasted b pr
  end.
Proof.
  unfold pasteFailure, pasted. destruct b as [resp|e].
  - destruct (json_PasteResponse _) as [pr|e] eqn:Hd.
    + destruct (Mclogs.Success pr) eqn:Hs.
      * exists pr, resp. done.
      * intros pr' (resp' & [= <-] & Hd' & Hs'). congruence.
    + intros pr' (resp' & [= <-] & Hd' & Hs'). congruence.
  - intros pr' (resp' & [=] & _).
Qed.

Lemma exec_PasteLog_result body w fs tr :
  NewRequest_error "POST" (Mclogs.BaseURL mclc +:+ "/1/log") = None ->
  let (b, w') := HTTPClient_Do (pasteRequest mclc body) w in
  exists res,
    exec (Client.PasteLog mclc body) w fs tr
    = mkOutcome (Returned res) w' fs (tr ++ [EvDo (pasteRequest mclc body) b])
    /\ match pasteFailure b with
       | Some e => res = (None, Some e)
       | None => exists pr, res = (Some pr, None) /\ pasted b pr
       end.
Proof.
  intros Hnew. rewrite exec_PasteLog, Hnew.
  destruct (HTTPClient_Do _ w) as [b w']. eexists. split; [done|].
  unfold pasteFailure, pasted. destruct b as [resp|e]; [|done].
  destruct (json_PasteResponse _) as [pr|e] eqn:Hd; [|done].
  destruct (Mclogs.Success pr) eqn:Hs; [|done].
  exists pr. split; [done|]. by exists resp.
Qed.

(** The two sequential loops, once the typing indicator is on. *)
Lemma sequential_loops m l : forall w fs tr,
  let o := exec (MainGo.attachmentsLoop m true l) w fs tr in
  let o' := exec (MainSlog.attachmentsLoop m true l) w fs tr in
  exists h r,
    events o = tr ++ h /\ Visits m l h r
    /\ appended o = fs /\ exit o = mainGoExit r
    /\ events o' = events o /\ world o' = world o /\ appended o' = fs
    /\ exit o' = Returned tt.
Proof.
  induction l as [|a rest IH]; intros w fs tr.
  { exists [], None. cbn. rewrite app_nil_r. repeat split. constructor. }
  cbn [MainGo.attachmentsLoop MainSlog.attachmentsLoop].
  change (strings_HasPrefix (ContentType a) "text/plain") with (isPlain a).
  destruct (isPlain a) eqn:Hplain; cbn [negb].
  2:{ destruct (IH w fs tr) as (h & r & ? & ? & ?). exists h, r.
      split; [done|]. split; [by constructor|done]. }
  cbn [bind exec].
  destruct (http_Get (URL a) w) as [g w1] eqn:Hget.
  assert (forall tr1, tr1 = tr ++ [EvGet (URL a) g] ->
          (forall body, downloaded g body -> maxBody < len body) ->
          let o := exec (MainGo.attachmentsLoop m true rest) w1 fs tr1 in
          let o' := exec (MainSlog.attachmentsLoop m true rest) w1 fs tr1 in
          exists h r,
            events o = tr ++ h /\ Visits m (a :: rest) h r
            /\ appended o = fs /\ exit o = mainGoExit r
            /\ events o' = events o /\ world o' = world o /\ appended o' = fs
            /\ exit o' = Returned tt) as Hdrop.
  { intros tr1 -> Hbig.
    destruct (IH w1 fs (tr ++ [EvGet (URL a) g])) as (h & r & He & Hv & Hrest).
    exists ([EvGet (URL a) g] ++ h), r. split; [by rewrite He, <- app_assoc|].
    split; [|done]. apply Vs_next; [done| |done]. by constructor. }
  destruct g as [resp|e].
  2:{ apply Hdrop; [done|]. by intros body (resp & [=] & _). }
  destruct (io_ReadAll (RespBody resp)) as [body|e] eqn:Hread.
  2:{ apply Hdrop; [done|]. intros body (resp' & [= <-] & Hr). congruence. }
  destruct (Z.ltb_spec maxBody (len body)) as [Hbig|Hsize].
  { apply Hdrop; [done|]. intros body' (resp' & [= <-] & Hr). congruence. }
  assert (downloaded (Ok resp) body) as Hdl by (by exists resp).
  rewrite !exec_bind.
  destruct (NewRequest_error "POST" (Mclogs.BaseURL mclc +:+ "/1/log"))
    as [e|] eqn:Hnew.
  { rewrite exec_PasteLog, Hnew. cbn.
    exists [EvGet (URL a) (Ok resp)], (Some e). repeat split.
    apply Vs_stop; [done|]. by apply V_norequest with body. }
  pose proof (exec_PasteLog_result body w1 fs (tr ++ [EvGet (URL a) (Ok resp)])
                Hnew) as Hp.
  destruct (HTTPClient_Do (pasteRequest mclc body) w1) as [b w2].
  destruct Hp as (res & -> & Hres). cbn [exit world appended events].
  destruct (pasteFailure b) as [e|] eqn:Hfail.
  { subst res. cbn.
    exists [EvGet (URL a) (Ok resp); EvDo (pasteRequest mclc body) b], (Some e).
    rewrite <- app_assoc. repeat split.
    apply Vs_stop; [done|]. by apply V_refused. }
  destruct Hres as (pr & -> & Hpasted). cbn [deref exec].
  destruct (time_Now w2) as [stamp w3].
  destruct (Session_User "@me" w3) as [u w4].
  change (match u with
          | Ok botUser =>
              MainGo.withIcon (MainGo.embedFor pr stamp) (AvatarURL botUser "32")
          | Err _ => MainGo.embedFor pr stamp
          end) with (replyEmbed pr stamp u).
  destruct (Session_ChannelMessageSendEmbed (ChannelID m) (replyEmbed pr stamp u) w4)
    as [s w5].
  set (v := [EvGet (URL a) (Ok resp); EvDo (pasteRequest mclc body) b;
             EvNow stamp; EvUser "@me" u;
             EvSend (ChannelID m) (replyEmbed pr stamp u) s]).
  replace (((((tr ++ [EvGet (URL a) (Ok resp)])
              ++ [EvDo (pasteRequest mclc body) b]) ++ [EvNow stamp])
            ++ [EvUser "@me" u]) ++ [EvSend (ChannelID m) (replyEmbed pr stamp u) s])
    with (tr ++ v) by (by rewrite <- !app_assoc).
  destruct (IH w5 fs (tr ++ v)) as (h & r & He & Hv & Hrest).
  exists (v ++ h), r. split; [by rewrite He, <- app_assoc|].
  split; [|done]. apply Vs_next; [done| |done]. by apply V_replied.
Qed.


Lemma loop_quiet m l : forall w fs tr,
  List.filter isPlain l = [] ->
  exec (MainGo.attachmentsLoop m false l) w fs tr = mkOutcome (Returned tt) w fs tr
  /\ exec (MainSlog.attachmentsLoop m false l) w fs tr
     = mkOutcome (Returned tt) w fs tr.
Proof.
  induction l as [|a rest IH]; intros w fs tr Hnone; [done|].
  cbn [List.filter] in Hnone.
  cbn [MainGo.attachmentsLoop MainSlog.attachmentsLoop].
  change (strings_HasPrefix (ContentType a) "text/plain") with (isPlain a).
  destruct (isPlain a); [done|]. by apply IH.
Qed.

Lemma loop_start m l : forall w fs tr,
  List.filter isPlain l <> [] ->
  let (t, w') := Session_ChannelTyping (ChannelID m) w in
  exec (MainGo.attachmentsLoop m false l) w fs tr
  = exec (MainGo.attachmentsLoop m true l) w' fs (tr ++ [EvTyping (ChannelID m) t])
  /\ exec (MainSlog.attachmentsLoop m false l) w fs tr
     = exec (MainSlog.attachmentsLoop m true l) w' fs
         (tr ++ [EvTyping (ChannelID m) t]).
Proof.
  induction l as [|a rest IH]; intros w fs tr Hsome; [done|].
  cbn [List.filter] in Hsome.
  cbn [MainGo.attachmentsLoop MainSlog.attachmentsLoop].
  change (strings_HasPrefix (ContentType a) "text/plain") with (isPlain a).
  destruct (isPlain a); cbn [negb]; [|by apply IH].
  cbn [bind exec]. by destruct (Session_ChannelTyping (ChannelID m) w).
Qed.

Lemma guard_accepted m :
  (Z.of_nat (length (Attachments m)) <? 1) || (5 <? Z.of_nat (length (Attachments m)))
  = false <-> accepted m.
Proof.
  unfold accepted. rewrite orb_false_iff, !Z.ltb_ge. lia.
Qed.

(** What a call of either sequential handler leaves: nothing when the
    guard or the filter lets nothing through, otherwise the typing signal
    and then the turns of the loop. *)
Lemma sequential_handlers m w :
  let o := exec (MainGo.handleMessageCreate m) w [] [] in
  let o' := exec (MainSlog.handleMessageCreate m) w [] [] in
  (events o' = events o /\ world o' = world o /\ exit o' = Returned tt
   /\ appended o = [] /\ appended o' = [])
  /\ (((~ accepted m \/ List.filter isPlain (Attachments m) = [])
       /\ events o = [] /\ exit o = Returned tt /\ world o = w)
      \/ (accepted m /\ List.filter isPlain (Attachments m) <> []
          /\ exists t h r,
               events o = EvTyping (ChannelID m) t :: h
               /\ Visits m (Attachments m) h r /\ exit o = mainGoExit r)).
Proof.
  intros o o'. subst o o'.
  unfold MainGo.handleMessageCreate, MainSlog.handleMessageCreate.
  destruct (_ || _) eqn:Hguard.
  { cbn. split; [done|]. left. split; [|done]. left.
    rewrite <- guard_accepted. congruence. }
  apply guard_accepted in Hguard.
  destruct (List.filter isPlain (Attachments m)) as [|a0 l0] eqn:Hf.
  { destruct (loop_quiet m (Attachments m) w [] [] Hf) as [-> ->]. cbn.
    split; [done|]. left. split; [by right|done]. }
  assert (List.filter isPlain (Attachments m) <> []) as Hne by (by rewrite Hf).
  pose proof (loop_start m (Attachments m) w [] [] Hne) as Hstart.
  destruct (Session_ChannelTyping (ChannelID m) w) as [t w0].
  destruct Hstart as [-> ->].
  destruct (sequential_loops m (Attachments m) w0 [] ([] ++ [EvTyping (ChannelID m) t]))
    as (h & r & He & Hv & Ha & Hx & He' & Hw' & Ha' & Hx').
  split; [done|]. right. split; [done|]. split; [congruence|].
  by exists t, h, r.
Qed.

(** *** What the turns of the loop hold *)

Lemma pasted_no_failure b pr : pasted b pr -> pasteFailure b = None.
Proof.
  intros Hp. pose proof (pasteFailure_pasted b) as Hc.
  destruct (pasteFailure b); [|done]. by destruct (Hc pr).
Qed.

Lemma Visit_nonempty m a v r : Visit m a v r -> v <> [].
Proof. by destruct 1. Qed.

Lemma Visits_failed m l h r req b e :
  Visits m l h r -> EvDo req b ∈ h -> pasteFailure b = Some e ->
  r = Some e /\ last h = Some (EvDo req b).
Proof.
  intros Hv Hin Hfail. induction Hv as [|a rest h r Hp Hv IH|a rest v h r Hp Hv1 Hv IH|a rest v e0 Hp Hv1].
  - by apply elem_of_nil in Hin.
  - by apply IH.
  - apply elem_of_app in Hin as [Hin|Hin].
    + exfalso. inversion Hv1; subst.
      * not_in_list Hin.
      * apply elem_of_cons in Hin as [Hin|Hin]; [discriminate|].
        apply elem_of_cons in Hin as [[= -> ->]|Hin].
        -- match goal with Hpd : pasted _ _ |- _ =>
             apply pasted_no_failure in Hpd; congruence end.
        -- not_in_list Hin.
    + destruct (IH Hin) as [-> Hl]. split; [done|].
      destruct h as [|x h]; [done|]. by rewrite last_app, Hl.
  - inversion Hv1; subst.
    + not_in_list Hin.
    + apply elem_of_cons in Hin as [Hin|Hin]; [discriminate|].
      apply elem_of_cons in Hin as [[= -> ->]|Hin].
      * split; [congruence|done].
      * by apply elem_of_nil in Hin.
Qed.


Lemma Visit_download m a v r : Visit m a v r -> downloadsOf v = [URL a].
Proof. by destruct 1. Qed.

Lemma Visit_typings m a v r : Visit m a v r -> typingsOf v = [].
Proof. by destruct 1. Qed.

Lemma downloadsOf_app h1 h2 :
  downloadsOf (h1 ++ h2) = downloadsOf h1 ++ downloadsOf h2.
Proof. apply omap_app. Qed.

Lemma Visits_downloads m l h r :
  Visits m l h r ->
  downloadsOf h `prefix_of` URL <$> List.filter isPlain l
  /\ (r = None -> downloadsOf h = URL <$> List.filter isPlain l).
Proof.
  induction 1 as [|a rest h r Hp Hv IH|a rest v h r Hp Hv1 Hv IH|a rest v e0 Hp Hv1];
    cbn [List.filter]; rewrite ?Hp.
  - done.
  - done.
  - rewrite downloadsOf_app, (Visit_download _ _ _ _ Hv1). cbn.
    destruct IH as [IH1 IH2]. split.
    + by apply prefix_cons.
    + intros Hr. by rewrite IH2.
  - rewrite (Visit_download _ _ _ _ Hv1). cbn. split; [|done].
    apply prefix_cons, prefix_nil.
Qed.

Lemma Visits_typings m l h r : Visits m l h r -> typingsOf h = [].
Proof.
  induction 1 as [|a rest h r Hp Hv IH|a rest v h r Hp Hv1 Hv IH|a rest v e0 Hp Hv1].
  - done.
  - done.
  - change (typingsOf (v ++ h)) with
      (omap (fun ev => match ev with EvTyping c _ => Some c | _ => None end)
            (v ++ h)).
    rewrite omap_app. fold (typingsOf v) (typingsOf h).
    by rewrite (Visit_typings _ _ _ _ Hv1), IH.
  - by apply Visit_typings in Hv1.
Qed.

(** X6: the sequential handler of [main.go] and its [slog] revision make
    the same calls, with the same answers, and leave the same world, for
    every message.  The [slog] revision always returns; [main.go] returns or
    exits the process with [Failed to paste log:] and the error; neither
    panics. *)
Theorem sequential_variants_agree (m : MessageCreate) (w : World) :
  let o := exec (MainGo.handleMessageCreate m) w [] [] in
  let o' := exec (MainSlog.handleMessageCreate m) w [] [] in
  events o' = events o /\ world o' = world o
  /\ exit o' = Returned tt
  /\ (exit o = Returned tt
      \/ exists e, exit o = Exited ("Failed to paste log: " +:+ e)).
Proof.
  intros o o'.
  destruct (sequential_handlers m w) as [(He & Hw & Hx & _) Hc].
  repeat split; try done.
  destruct Hc as [(_ & _ & Hr & _)|(_ & _ & t & h & r & _ & _ & Hr)].
  - by left.
  - fold o in Hr. rewrite Hr. destruct r as [e|]; [right; by exists e|by left].
Qed.

(** X7: in both sequential handlers a paste that fails is the last thing
    the call does: no later attachment is downloaded and nothing more is
    sent.  [main.go] then exits the process with the error of the paste;
    the [slog] revision returns. *)
Theorem failed_paste_is_the_last_event (m : MessageCreate) (w : World)
    (req : Request) (b : Result (Response Body)) (e : error) :
  let o := exec (MainGo.handleMessageCreate m) w [] [] in
  let o' := exec (MainSlog.handleMessageCreate m) w [] [] in
  EvDo req b ∈ events o -> pasteFailure b = Some e ->
  last (events o) = Some (EvDo req b)
  /\ exit o = Exited ("Failed to paste log: " +:+ e)
  /\ last (events o') = Some (EvDo req b)
  /\ exit o' = Returned tt.
Proof.
  intros o o' Hin Hfail.
  destruct (sequential_handlers m w) as [(He & Hw & Hx & _) Hc].
  fold o in Hc. fold o o' in He. fold o' in Hx. rewrite He.
  destruct Hc as [(_ & Hnil & _)|(_ & _ & t & h & r & Hev & Hv & Hr)].
  { rewrite Hnil in Hin. by apply elem_of_nil in Hin. }
  rewrite Hev in Hin. apply elem_of_cons in Hin as [Hin|Hin]; [discriminate|].
  destruct (Visits_failed _ _ _ _ _ _ _ Hv Hin Hfail) as [-> Hlast].
  rewrite Hev. destruct h as [|x h]; [done|].
  rewrite last_cons, Hlast. done.
Qed.

(** X8: the sequential handlers do nothing at all for a message with no
    attachment, with more than five, or with none that is plain text;
    otherwise the first call is the typing signal on the channel of the
    message, and it is the only one. *)
Theorem sequential_typing (m : MessageCreate) (w : World) :
  let o := exec (MainGo.handleMessageCreate m) w [] [] in
  let o' := exec (MainSlog.handleMessageCreate m) w [] [] in
  events o' = events o
  /\ (events o = [] <->
        length (Attachments m) = 0%nat \/ (5 < length (Attachments m))%nat
        \/ List.filter isPlain (Attachments m) = [])
  /\ (events o = []
      \/ exists t h, events o = EvTyping (ChannelID m) t :: h
                     /\ typingsOf h = [])
  /\ (typingsOf (events o) = [] \/ typingsOf (events o) = [ChannelID m]).
Proof.
  intros o o'.
  destruct (sequential_handlers m w) as [(He & _) Hc].
  fold o in Hc. split; [done|].
  destruct Hc as [(Hno & Hnil & _)|(Hacc & Hne & t & h & r & Hev & Hv & _)].
  - rewrite Hnil. repeat split; try done; [|by left|by left].
    intros _. unfold accepted in Hno.
    destruct Hno as [Hno|Hno]; [|by right; right]. lia.
  - apply Visits_typings in Hv. rewrite Hev. split; [|split].
    + split; [done|]. unfold accepted in Hacc. intros [?|[?|?]]; [lia|lia|done].
    + right. by exists t, h.
    + right. cbn. fold (typingsOf h). by rewrite Hv.
Qed.


(** X9: the sequential handlers download the plain-text attachments in the
    order of the message and nothing else: the downloads are a prefix of
    the URLs of the attachments whose content type starts with
    [text/plain], and all of them once [main.go] returns from a message
    that passed the guard. *)
Theorem sequential_downloads (m : MessageCreate) (w : World) :
  let o := exec (MainGo.handleMessageCreate m) w [] [] in
  let o' := exec (MainSlog.handleMessageCreate m) w [] [] in
  downloadsOf (events o') = downloadsOf (events o)
  /\ downloadsOf (events o) `prefix_of` URL <$> List.filter isPlain (Attachments m)
  /\ ((1 <= length (Attachments m) <= 5)%nat -> exit o = Returned tt ->
      downloadsOf (events o) = URL <$> List.filter isPlain (Attachments m)).
Proof.
  intros o o'.
  destruct (sequential_handlers m w) as [(He & _) Hc].
  fold o in Hc. fold o o' in He. split; [by rewrite He|].
  destruct Hc as [(Hno & Hnil & _)|(Hacc & Hne & t & h & r & Hev & Hv & Hx)].
  - rewrite Hnil. split; [apply prefix_nil|]. intros Hacc _.
    destruct Hno as [Hno|Hno]; [done|]. by rewrite Hno.
  - rewrite Hev. change (downloadsOf (EvTyping (ChannelID m) t :: h))
      with (downloadsOf h).
    destruct (Visits_downloads _ _ _ _ Hv) as [Hpre Hall]. split; [done|].
    intros _ Hret. apply Hall. rewrite Hret in Hx. by destruct r.
Qed.

Lemma replyEmbed_repliesTo m pr stamp u :
  repliesTo m (ChannelID m, replyEmbed pr stamp u) pr.
Proof. by destruct u. Qed.

Lemma acceptedPaste_pasted body b pr :
  pasted b pr -> acceptedPaste (EvDo (pasteRequest mclc body) b) = Some pr.
Proof. intros (resp & -> & Hd & Hs). cbn. by rewrite Hd, Hs. Qed.

Lemma acceptedPaste_failed body b e :
  pasteFailure b = Some e -> acceptedPaste (EvDo (pasteRequest mclc body) b) = None.
Proof.
  unfold pasteFailure. destruct b as [resp|?]; [|done]. cbn.
  destruct (json_PasteResponse _) as [pr|?]; [|done]. by destruct (Mclogs.Success pr).
Qed.

Lemma Visit_replies m a v r :
  Visit m a v r -> Forall2 (repliesTo m) (sendsOf v) (omap acceptedPaste v).
Proof.
  destruct 1 as [g|g body e|g body b e ? ? Hf|g body b pr stamp u s ? ? Hp].
  - cbn. constructor.
  - cbn. constructor.
  - pose proof (acceptedPaste_failed body _ _ Hf) as Hn.
    cbn [omap list_omap sendsOf]. rewrite Hn. cbn. constructor.
  - pose proof (acceptedPaste_pasted body _ _ Hp) as Hs.
    cbn [omap list_omap sendsOf]. rewrite Hs. cbn.
    constructor; [apply replyEmbed_repliesTo|constructor].
Qed.

Lemma sendsOf_app h1 h2 : sendsOf (h1 ++ h2) = sendsOf h1 ++ sendsOf h2.
Proof. apply omap_app. Qed.

Lemma Visits_replies m l h r :
  Visits m l h r -> Forall2 (repliesTo m) (sendsOf h) (omap acceptedPaste h).
Proof.
  induction 1 as [|a rest h r Hp Hv IH|a rest v h r Hp Hv1 Hv IH|a rest v e0 Hp Hv1].
  - constructor.
  - done.
  - rewrite sendsOf_app, omap_app. apply Forall2_app; [|done].
    by apply Visit_replies in Hv1.
  - by apply Visit_replies in Hv1.
Qed.

(** X10: the sequential handlers send one embed for each paste that the
    service accepted, in that order, on the channel of the message: its
    description is the fixed sentence followed by the link of that paste,
    with the colour and the author of mclo.gs, no title and no fields. *)
Theorem sequential_replies (m : MessageCreate) (w : World) :
  let o := exec (MainGo.handleMessageCreate m) w [] [] in
  let o' := exec (MainSlog.handleMessageCreate m) w [] [] in
  events o' = events o
  /\ Forall2 (repliesTo m) (sendsOf (events o)) (omap acceptedPaste (events o)).
Proof.
  intros o o'.
  destruct (sequential_handlers m w) as [(He & _) Hc].
  fold o in Hc. split; [done|].
  destruct Hc as [(Hno & Hnil & _)|(Hacc & Hne & t & h & r & Hev & Hv & Hx)].
  - rewrite Hnil. constructor.
  - rewrite Hev. change (sendsOf (EvTyping (ChannelID m) t :: h)) with (sendsOf h).
    change (omap acceptedPaste (EvTyping (ChannelID m) t :: h))
      with (omap acceptedPaste h).
    by apply Visits_replies with (Attachments m) r.
Qed.

Lemma Visit_submitted m a v r :
  NewRequest_error "POST" (Mclogs.BaseURL mclc +:+ "/1/log") = None ->
  Visit m a v r ->
  omap submitted v
  = (fun body => "content=" +:+ url_QueryEscape body)
    <$> List.filter (fun body => len body <=? maxBody) (omap bodyOf v).
Proof.
  intros Hnew.
  assert (forall g body, downloaded g body -> bodyOf (EvGet (URL a) g) = Some body)
    as Hbody.
  { intros g body (resp & -> & Hr). cbn. by rewrite Hr. }
  destruct 1 as [g Hbig|g body e ? ? He|g body b e Hd Hs Hf|g body b pr stamp u s Hd Hs Hp].
  - cbn [omap list_omap submitted].
    destruct (bodyOf (EvGet (URL a) g)) as [body|] eqn:Hb; [|done].
    cbn. assert (downloaded g body) as Hd.
    { destruct g as [resp|]; [|done]. cbn in Hb. exists resp. split; [done|].
      by destruct (io_ReadAll _) as [?|?]; [injection Hb as ->|]. }
    apply Hbig in Hd. destruct (Z.leb_spec (len body) maxBody); [lia|done].
  - congruence.
  - cbn [omap list_omap submitted]. rewrite (Hbody _ _ Hd). cbn.
    destruct (Z.leb_spec (len body) maxBody); [done|lia].
  - cbn [omap list_omap submitted]. rewrite (Hbody _ _ Hd). cbn.
    destruct (Z.leb_spec (len body) maxBody); [done|lia].
Qed.

Lemma Visits_submitted m l h r :
  NewRequest_error "POST" (Mclogs.BaseURL mclc +:+ "/1/log") = None ->
  Visits m l h r ->
  omap submitted h
  = (fun body => "content=" +:+ url_QueryEscape body)
    <$> List.filter (fun body => len body <=? maxBody) (omap bodyOf h).
Proof.
  intros Hnew.
  induction 1 as [|a rest h r Hp Hv IH|a rest v h r Hp Hv1 Hv IH|a rest v e0 Hp Hv1].
  - done.
  - done.
  - rewrite !omap_app, List.filter_app, fmap_app, IH.
    by rewrite (Visit_submitted _ _ _ _ Hnew Hv1).
  - by apply Visit_submitted in Hv1.
Qed.

(** X11: in the sequential handlers the bodies submitted to the paste
    service are, in order, the bodies that were downloaded, could be read to
    the end and hold at most 10 MiB, each form-encoded under [content]; a
    larger body is never submitted and a smaller one always is. *)
Theorem sequential_submissions (m : MessageCreate) (w : World) :
  NewRequest_error "POST" (Mclogs.BaseURL mclc +:+ "/1/log") = None ->
  let o := exec (MainGo.handleMessageCreate m) w [] [] in
  let o' := exec (MainSlog.handleMessageCreate m) w [] [] in
  events o' = events o
  /\ omap submitted (events o)
     = (fun body => "content=" +:+ url_QueryEscape body)
       <$> List.filter (fun body => len body <=? 10 * 1024 * 1024)
                       (omap bodyOf (events o)).
Proof.
  intros Hnew o o'.
  destruct (sequential_handlers m w) as [(He & _) Hc].
  fold o in Hc. split; [done|].
  destruct Hc as [(Hno & Hnil & _)|(Hacc & Hne & t & h & r & Hev & Hv & Hx)].
  - by rewrite Hnil.
  - rewrite Hev.
    change (omap submitted (EvTyping (ChannelID m) t :: h)) with (omap submitted h).
    change (omap bodyOf (EvTyping (ChannelID m) t :: h)) with (omap bodyOf h).
    by apply Visits_submitted with m (Attachments m) r.
Qed.

End SequentialFacts.

(** *** The first handler *)

Section FirstFacts.
Context `{Outside}.
Variable send : string -> string -> World -> option error * World.

Lemma first_loop m l : forall w tr,
  let r := MainFirst.attachmentsLoop send m l w tr in
  exists h,
    r.2 = tr ++ h
    /\ Forall getOrDo (omap madeBy h)
    /\ downloadsOf (omap madeBy h) `prefix_of` URL <$> List.filter isPlain l
    /\ (r.1.1 = Returned tt ->
        downloadsOf (omap madeBy h) = URL <$> List.filter isPlain l)
    /\ omap saidBy h
       = (fun pr => (ChannelID m, firstText pr))
         <$> omap acceptedPaste (omap madeBy h)
    /\ (r.1.1 = Returned tt
        \/ exists e, r.1.1 = Exited ("Failed to paste log: " +:+ e)).
Proof.
  induction l as [|a rest IH]; intros w tr.
  { exists []. cbn. rewrite app_nil_r. repeat split; try done. by left. }
  cbn [MainFirst.attachmentsLoop List.filter].
  change (strings_HasPrefix (ContentType a) "text/plain") with (isPlain a).
  destruct (isPlain a) eqn:Hplain; cbn [negb]; [|apply IH].
  destruct (http_Get (URL a) w) as [g w1] eqn:Hget.
  assert (forall h0 w2,
            omap madeBy h0 = [EvGet (URL a) g]
            \/ (exists req b, omap madeBy h0 = [EvGet (URL a) g; EvDo req b]
                  /\ acceptedPaste (EvDo req b) = None) ->
            omap saidBy h0 = [] ->
            let r := MainFirst.attachmentsLoop send m rest w2 (tr ++ h0) in
            exists h,
              r.2 = tr ++ h
              /\ Forall getOrDo (omap madeBy h)
              /\ downloadsOf (omap madeBy h)
                 `prefix_of` URL <$> (a :: List.filter isPlain rest)
              /\ (r.1.1 = Returned tt ->
                  downloadsOf (omap madeBy h)
                  = URL <$> (a :: List.filter isPlain rest))
              /\ omap saidBy h
                 = (fun pr => (ChannelID m, firstText pr))
                   <$> omap acceptedPaste (omap madeBy h)
              /\ (r.1.1 = Returned tt
                  \/ exists e, r.1.1 = Exited ("Failed to paste log: " +:+ e)))
    as Hnext.
  { intros h0 w2 Hmade Hsaid.
    destruct (IH w2 (tr ++ h0)) as (h & Htr & Hshape & Hpre & Hall & Hs & Hx).
    exists (h0 ++ h). rewrite !omap_app, Hsaid.
    split; [by rewrite Htr, <- app_assoc|].
    rewrite downloadsOf_app.
    destruct Hmade as [->|(req & b & -> & Hno)].
    - split; [constructor; [left; eauto|done]|].
      split; [by apply prefix_cons|].
      split; [intros Hr; by rewrite (Hall Hr)|]. done.
    - split; [constructor; [left; eauto|constructor; [right; eauto|done]]|].
      split; [by apply prefix_cons|].
      split; [intros Hr; by rewrite (Hall Hr)|].
      split; [|done]. cbn [app omap list_omap]. by rewrite Hno. }
  destruct g as [resp|e].
  2:{ apply (Hnext [MainFirst.Made (EvGet (URL a) (Err e))]); [by left|done]. }
  destruct (io_ReadAll (RespBody resp)) as [body|e] eqn:Hread.
  2:{ apply (Hnext [MainFirst.Made (EvGet (URL a) (Ok resp))]); [by left|done]. }
  destruct (Z.ltb_spec maxBody (len body)) as [Hbig|Hsize].
  { apply (Hnext [MainFirst.Made (EvGet (URL a) (Ok resp))]); [by left|done]. }
  rewrite exec_PasteLog.
  destruct (NewRequest_error "POST" (Mclogs.BaseURL mclc +:+ "/1/log"))
    as [e|] eqn:Hnew.
  { cbn. exists [MainFirst.Made (EvGet (URL a) (Ok resp))].
    rewrite app_nil_r. cbn.
    split; [done|]. split; [constructor; [left; eauto|done]|].
    split; [apply prefix_cons, prefix_nil|]. split; [done|]. split; [done|].
    right. by exists e. }
  destruct (HTTPClient_Do (pasteRequest mclc body) w1) as [b w2].
  cbn [exit world events fmap list_fmap app].
  set (h0 := [MainFirst.Made (EvGet (URL a) (Ok resp));
              MainFirst.Made (EvDo (pasteRequest mclc body) b)]).
  assert (forall e, acceptedPaste (EvDo (pasteRequest mclc body) b) = None ->
            exists h,
              (tr ++ [MainFirst.Made (EvGet (URL a) (Ok resp))])
                ++ [MainFirst.Made (EvDo (pasteRequest mclc body) b)] = tr ++ h
              /\ Forall getOrDo (omap madeBy h)
              /\ downloadsOf (omap madeBy h)
                 `prefix_of` URL <$> (a :: List.filter isPlain rest)
              /\ (@Exited unit ("Failed to paste log: " +:+ e) = Returned tt ->
                  downloadsOf (omap madeBy h)
                  = URL <$> (a :: List.filter isPlain rest))
              /\ omap saidBy h
                 = (fun pr => (ChannelID m, firstText pr))
                   <$> omap acceptedPaste (omap madeBy h)
              /\ (@Exited unit ("Failed to paste log: " +:+ e) = Returned tt
                  \/ exists e0, @Exited unit ("Failed to paste log: " +:+ e)
                                = Exited ("Failed to paste log: " +:+ e0)))
    as Hstop.
  { intros e Hno. exists h0. split; [by rewrite <- app_assoc|].
    split; [constructor; [left; eauto|constructor; [right; eauto|done]]|].
    split; [apply prefix_cons, prefix_nil|]. split; [done|].
    split; [unfold h0; cbn [omap list_omap madeBy saidBy]; by rewrite Hno|].
    right. by exists e. }
  destruct b as [presp|e]; [|by apply Hstop].
  destruct (json_PasteResponse (RespBody presp)) as [pr|e] eqn:Hd.
  2:{ apply Hstop. cbn. by rewrite Hd. }
  destruct (Mclogs.Success pr) eqn:Hs.
  2:{ apply Hstop. cbn. by rewrite Hd, Hs. }
  cbn [fst snd].
  destruct (send (ChannelID m) _ w2) as [s w3].
  destruct (IH w3 (((tr ++ [MainFirst.Made (EvGet (URL a) (Ok resp))])
                    ++ [MainFirst.Made (EvDo (pasteRequest mclc body) (Ok presp))])
                   ++ [MainFirst.Said (ChannelID m) (firstText pr) s]))
    as (h & Htr & Hshape & Hpre & Hall & Hsd & Hx).
  change ("Your logs were uploaded for easier reading: " +:+ Mclogs.URL pr)
    with (firstText pr).
  exists (h0 ++ [MainFirst.Said (ChannelID m) (firstText pr) s] ++ h).
  rewrite Htr. split; [by rewrite <- !app_assoc|].
  rewrite !omap_app.
  assert (acceptedPaste (EvDo (pasteRequest mclc body) (Ok presp)) = Some pr)
    as Hacc by (cbn; by rewrite Hd, Hs).
  change (omap madeBy h0)
    with [EvGet (URL a) (Ok resp); EvDo (pasteRequest mclc body) (Ok presp)].
  change (omap madeBy [MainFirst.Said (ChannelID m) (firstText pr) s]) with (@nil Event).
  change (omap saidBy h0) with (@nil (string * string)).
  change (omap saidBy [MainFirst.Said (ChannelID m) (firstText pr) s])
    with [(ChannelID m, firstText pr)].
  rewrite app_nil_l, downloadsOf_app.
  split; [constructor; [left; eauto|constructor; [right; eauto|done]]|].
  split; [by apply prefix_cons|].
  split; [intros Hr; by rewrite (Hall Hr)|].
  split; [|done]. cbn [app omap list_omap]. rewrite Hacc. cbn. by rewrite Hsd.
Qed.

(** X12: the first version of the handler has no cap and no typing signal.
    Whatever the number of attachments, it downloads the plain-text ones in
    the order of the message, up to a failed paste, and all of them when it
    returns; it makes no other call than downloads, requests to the paste
    service and messages; it answers each accepted paste with one plain
    message that ends in the link of that paste; and it returns or exits
    the process with the error of a paste.  For a message with more than
    five attachments [main.go] does nothing at all. *)
Theorem first_handler_has_no_cap (m : MessageCreate) (w : World) :
  let r := MainFirst.handleMessageCreate send m w in
  let evs := omap madeBy r.2 in
  Forall getOrDo evs
  /\ downloadsOf evs `prefix_of` URL <$> List.filter isPlain (Attachments m)
  /\ (r.1.1 = Returned tt ->
      downloadsOf evs = URL <$> List.filter isPlain (Attachments m))
  /\ omap saidBy r.2
     = (fun pr => (ChannelID m, firstText pr)) <$> omap acceptedPaste evs
  /\ (r.1.1 = Returned tt
      \/ exists e, r.1.1 = Exited ("Failed to paste log: " +:+ e))
  /\ ((5 < length (Attachments m))%nat ->
      events (exec (MainGo.handleMessageCreate m) w [] []) = []).
Proof.
  intros r evs. subst evs r. unfold MainFirst.handleMessageCreate.
  assert ((5 < length (Attachments m))%nat ->
          events (exec (MainGo.handleMessageCreate m) w [] []) = []) as Hcap.
  { intros Hlen. unfold MainGo.handleMessageCreate.
    destruct (Z.ltb_spec 5 (Z.of_nat (length (Attachments m)))) as [_|?]; [|lia].
    by rewrite orb_true_r. }
  destruct (Z.ltb_spec (Z.of_nat (length (Attachments m))) 1) as [Hnone|_].
  { destruct (Attachments m) as [|a l] eqn:Hl; [|cbn in Hnone; lia].
    cbn. repeat split; try done. by left. }
  destruct (first_loop m (Attachments m) w []) as (h & Htr & Hrest).
  cbn in Htr. rewrite Htr. by destruct Hrest as (? & ? & ? & ? & ?).
Qed.

End FirstFacts.

(** *** More on the fan-out handler *)

Section FanOutFacts.
Context `{Outside}.
Import Bot.

(** X13: whatever has happened so far in a call of the fan-out handler,
    some continuation of the schedule brings it to its end; the goroutines
    cannot block one another. *)
Theorem handler_can_always_end (sched : list Thread) (m : MessageCreate)
    (w : World) :
  exists more, status (handleMessageCreate (sched ++ more) m w) <> None.
Proof.
  unfold handleMessageCreate.
  destruct (status (run sched (enter m w))) as [x|] eqn:Hs.
  { exists []. rewrite app_nil_r. congruence. }
  destruct (producer_finishes _ _ Hs eq_refl) as (s1 & Hr1 & Hp1).
  destruct (workers_finish _ Hr1) as (s2 & Hs2).
  destruct Hs2 as [Hs2|(Hr2 & Hp2 & Hfin)].
  { exists (s1 ++ s2). by rewrite !run_app. }
  exists (s1 ++ s2 ++ [Main]). rewrite !run_app. cbn [run fold_left].
  unfold step. rewrite Hr2. unfold stepMain. rewrite Hp2, Hp1.
  rewrite (proj2 (forallb_forall _ _)); [done|].
  intros [a0 q] Hin. rewrite Forall_forall in Hfin.
  apply list_elem_of_In in Hin. apply Hfin in Hin. cbn in Hin. by subst q.
Qed.



(** X15: a field gets into the reply only at the end of a goroutine that
    went all the way, and it pairs what belongs together: the goroutine
    downloaded its own attachment, submitted the body it read, asked for the
    insights of the paste it got, and appended the title of those insights
    with the link of that paste; these four events are all it did. *)
Theorem field_pairs_title_and_link (sched : list Thread) (m : MessageCreate)
    (w : World) (i : nat) (f : MessageEmbedField) :
  let st := handleMessageCreate sched m w in
  (Worker i, EvAppend f) ∈ trace st ->
  exists at' a body b pr c an,
    workers st !! i = Some (at', Ret tt)
    /\ List.filter isPlain (Attachments m) !! i = Some at'
    /\ history i (trace st)
       = [EvGet (URL at') a; EvDo (pasteRequest mclc body) b;
          EvDo (insightsRequest mclc (Mclogs.ID pr)) c; EvAppend f]
    /\ downloaded a body /\ len body <= maxBody
    /\ pasted b pr /\ analysed c an
    /\ f = {| Name := Mclogs.Title an; Value := Mclogs.URL pr; Inline := true |}.
Proof.
  intros st Hin.
  destruct (handle_cases sched m w) as [[Hm Hst]|[Hm HI]].
  { fold st in Hst. rewrite Hst in Hin. by apply elem_of_nil in Hin. }
  fold st in HI.
  destruct (Inv_stage _ _ _ _ HI Hin) as (at' & p & Hi & Hs & Hev).
  assert (List.filter isPlain (Attachments m) !! i = Some at') as Hat.
  { rewrite <- (inv_filter _ _ HI). apply lookup_app_l_Some.
    by rewrite list_lookup_fmap, Hi. }
  remember (history i (trace st)) as h eqn:Hh. clear Hh.
  destruct Hs; try (not_in_list Hev).
  repeat (apply elem_of_cons in Hev as [Hev|Hev]; [try discriminate|]);
    [|by apply elem_of_nil in Hev].
  injection Hev as ->.
  by exists at', a, body, b, pr, c, an.
Qed.









(** *** Counting the calls *)

Lemma concat_length_le {A B} (F : nat -> list A) (G : nat -> list B) (js : list nat) :
  (forall j, j ∈ js -> (length (F j) <= length (G j))%nat) ->
  (length (concat (F <$> js)) <= length (concat (G <$> js)))%nat.
Proof.
  induction js as [|j js IH]; intros Hle; [done|]. cbn.
  rewrite !length_app.
  pose proof (Hle j (list_elem_of_here _ _)).
  assert (length (concat (F <$> js)) <= length (concat (G <$> js)))%nat.
  { apply IH. intros k Hk. apply Hle. by right. }
  lia.
Qed.

Lemma concat_length_one {A} (F : nat -> list A) (js : list nat) :
  (forall j, j ∈ js -> (length (F j) <= 1)%nat) ->
  (length (concat (F <$> js)) <= length js)%nat.
Proof.
  induction js as [|j js IH]; intros Hle; [done|]. cbn.
  rewrite length_app. pose proof (Hle j (list_elem_of_here _ _)).
  assert (length (concat (F <$> js)) <= length js)%nat.
  { apply IH. intros k Hk. apply Hle. by right. }
  lia.
Qed.

Lemma omap_length_le {A B C} (g1 : A -> option B) (g2 : A -> option C) l :
  (forall x, is_Some (g1 x) -> is_Some (g2 x)) ->
  (length (omap g1 l) <= length (omap g2 l))%nat.
Proof.
  intros Hg. induction l as [|x l IH]; [done|]. cbn.
  destruct (g1 x) as [y|] eqn:H1.
  - destruct (Hg x) as [z ->]; [by rewrite H1|]. cbn. lia.
  - destruct (g2 x); cbn; lia.
Qed.

Lemma acceptedPaste_submitted ev :
  is_Some (acceptedPaste ev) -> is_Some (submitted ev).
Proof.
  destruct ev as [| req [resp|]| | | | |]; cbn; try by intros [? [=]].
  destruct (String.eqb _ _); [eauto|by intros [? [=]]].
Qed.

Lemma refused_not_accepted body b :
  (forall pr, ~ pasted b pr) ->
  acceptedPaste (EvDo (pasteRequest mclc body) b) = None.
Proof.
  intros Hno. destruct b as [resp|]; [|done]. cbn.
  destruct (json_PasteResponse _) as [pr|] eqn:Hd; [|done].
  destruct (Mclogs.Success pr) eqn:Hs; [|done].
  destruct (Hno pr). by exists resp.
Qed.

Lemma pasted_accepted body b pr :
  pasted b pr -> acceptedPaste (EvDo (pasteRequest mclc body) b) = Some pr.
Proof. intros (resp & -> & Hd & Hs). cbn. by rewrite Hd, Hs. Qed.

(** What one goroutine contributes to the counts, wherever it stands. *)
Lemma Stage_funnel at' h p :
  Stage at' h p ->
  (length (omap downloadOf h) <= 1)%nat
  /\ (length (omap submitted h) <= length (omap downloadOf h))%nat
  /\ (length (omap appendedField h) <= length (omap acceptedPaste h))%nat.
Proof.
  destruct 1; cbn [omap list_omap downloadOf submitted appendedField];
    repeat match goal with
    | Hp : pasted ?b _ |- context [acceptedPaste (EvDo (pasteRequest mclc ?body) ?b)] =>
        rewrite (pasted_accepted body b _ Hp)
    end;
    cbn; try lia.
Qed.


Lemma count_by_worker {A} (g : Event -> option A) m st :
  Inv m st ->
  (forall ev, is_Some (g ev) ->
     (exists url a, ev = EvGet url a) \/ (exists req b, ev = EvDo req b)
     \/ (exists f, ev = EvAppend f)) ->
  omap (fun te => g te.2) (trace st)
  ≡ₚ concat ((fun i => omap g (history i (trace st)))
               <$> seq 0 (length (workers st))).
Proof.
  intros HI Hg. apply omap_by_worker; [apply (inv_bound _ _ HI)|].
  intros t ev Hin Ht. pose proof (Inv_event _ _ _ _ HI Hin) as Hev.
  destruct (g ev) as [y|] eqn:Hy; [|done]. exfalso.
  destruct (Hg ev) as [(?&?&->)|[(?&?&->)|(?&->)]]; [by rewrite Hy|..];
    (destruct t as [|i|]; [|by destruct (Ht i)|]);
    try (by destruct Hev as [? [=]]);
    by destruct Hev as [_ [(?&[=])|[(?&[=])|(?&?&[=]&_)]]].
Qed.

(** X17: the fan-out handler starts at most five goroutines, one for each
    plain-text attachment at most, and the calls of a message narrow down
    from stage to stage: no more downloads than goroutines, no more
    submissions than downloads, no more accepted pastes than submissions,
    and no more fields than accepted pastes. *)
Theorem fanout_funnel (sched : list Thread) (m : MessageCreate) (w : World) :
  let st := handleMessageCreate sched m w in
  let tr := trace st in
  (length (workers st) <= 5)%nat
  /\ (length (workers st) <= length (List.filter isPlain (Attachments m)))%nat
  /\ (length (downloads tr) <= length (workers st))%nat
  /\ (length (submissions tr) <= length (downloads tr))%nat
  /\ (length (acceptedPastes tr) <= length (submissions tr))%nat
  /\ (length (appendedFields tr) <= length (acceptedPastes tr))%nat.
Proof.
  intros st tr. subst tr.
  destruct (handle_cases sched m w) as [[Hm Hst]|[Hm HI]].
  { fold st in Hst. rewrite Hst. cbn. repeat split; lia. }
  fold st in HI.
  assert (length (workers st) <= length (List.filter isPlain (Attachments m)))%nat
    as Hws.
  { rewrite <- (inv_filter _ _ HI), length_app, length_fmap. lia. }
  assert (forall j, j ∈ seq 0 (length (workers st)) ->
            exists at' p, Stage at' (history j (trace st)) p) as Hstage.
  { intros j Hj. apply elem_of_seq in Hj as [_ Hj]. cbn in Hj.
    apply lookup_lt_is_Some in Hj as [[at' p] Hwj]. exists at', p.
    by apply worker_stage, (inv_hist _ _ HI). }
  pose proof (count_by_worker downloadOf m st HI) as Hd.
  pose proof (count_by_worker submitted m st HI) as Hsu.
  pose proof (count_by_worker acceptedPaste m st HI) as Hac.
  pose proof (count_by_worker appendedField m st HI) as Hap.
  split; [|split; [done|split; [|split; [|split]]]].
  - pose proof (List.filter_length_le isPlain (Attachments m)).
    unfold accepted in Hm. lia.
  - unfold downloads. rewrite Hd.
    2:{ intros [] [? [=]]; eauto. }
    etrans; [apply concat_length_one|by rewrite length_seq].
    intros j Hj. destruct (Hstage j Hj) as (at' & p & Hs).
    by destruct (Stage_funnel _ _ _ Hs) as (? & _).
  - change (submissions (trace st))
      with (omap (fun te => submitted te.2) (trace st)).
    unfold downloads. rewrite Hsu, Hd.
    2:{ intros [] [? [=]]; eauto. }
    2:{ intros [] [? [=]]; eauto. }
    apply concat_length_le. intros j Hj.
    destruct (Hstage j Hj) as (at' & p & Hs).
    by destruct (Stage_funnel _ _ _ Hs) as (_ & ? & _).
  - change (submissions (trace st))
      with (omap (fun te => submitted te.2) (trace st)).
    unfold acceptedPastes. apply omap_length_le.
    intros [t ev]. apply acceptedPaste_submitted.
  - unfold appendedFields, acceptedPastes. rewrite Hap, Hac.
    2:{ intros [] [? [=]]; eauto. }
    2:{ intros [] [? [=]]; eauto. }
    apply concat_length_le. intros j Hj.
    destruct (Hstage j Hj) as (at' & p & Hs).
    by destruct (Stage_funnel _ _ _ Hs) as (_ & _ & ?).
Qed.


(** *** Independence of the schedule *)










Lemma returned_workers m st :
  Inv m st -> status st = Some (Returned tt) ->
  (workers st).*1 = List.filter isPlain (Attachments m)
  /\ forall i at' p, workers st !! i = Some (at', p) -> p = Ret tt.
Proof.
  intros HI Hret. pose proof (inv_status _ _ HI) as Hstat.
  rewrite Hret in Hstat. destruct Hstat as (Hp & Hfin & _). split.
  - pose proof (inv_filter _ _ HI) as Hf. rewrite Hp in Hf. cbn in Hf.
    by rewrite app_nil_r in Hf.
  - intros i at' p Hi. rewrite Forall_forall in Hfin.
    by apply (Hfin _ (list_elem_of_lookup_2 _ _ _ Hi)).
Qed.


(** *** Every attachment once *)

Lemma concat_singletons {X B} (g : X -> B) (F : nat -> list B) (l : list X) :
  forall k,
    (forall i x, l !! i = Some x -> F (k + i)%nat = [g x]) ->
    concat (F <$> seq k (length l)) = g <$> l.
Proof.
  induction l as [|x l IH]; intros k HF; [done|]. cbn.
  rewrite <- (Nat.add_0_r k) at 1. rewrite (HF 0%nat x eq_refl). cbn. f_equal.
  apply IH. intros i y Hi. replace (S k + i)%nat with (k + S i)%nat by lia.
  by apply HF.
Qed.


Lemma finished_downloads at' h :
  Stage at' h (Ret tt) -> omap downloadOf h = [URL at'].
Proof.
  intros Hs. destruct (Stage_finished _ _ Hs) as (a & rest & ->).
  destruct (Stage_first _ _ _ (EvGet (URL at') a) Hs) as (a' & rest' & Heq & Hno);
    [by left|].
  injection Heq as <- <-. cbn. f_equal. apply omap_none.
  intros [url b| | | | | |] Hin; try done. by destruct (Hno url b).
Qed.

(** X21: once the fan-out handler has returned from a message that passed
    the guard, every plain-text attachment has been downloaded exactly
    once, and nothing else has: the downloads are, in some order, the URLs
    of the attachments whose content type starts with [text/plain]. *)
Theorem each_attachment_downloaded_once (sched : list Thread)
    (m : MessageCreate) (w : World) :
  let st := handleMessageCreate sched m w in
  (1 <= length (Attachments m) <= 5)%nat ->
  status st = Some (Returned tt) ->
  downloads (trace st) ≡ₚ URL <$> List.filter isPlain (Attachments m).
Proof.
  intros st Hm Hret.
  pose proof (Inv_handle sched m w Hm) as HI. fold st in HI.
  destruct (returned_workers _ _ HI Hret) as [Hws Hfin].
  unfold downloads. rewrite (count_by_worker downloadOf m st HI).
  2:{ intros [] [? [=]]; eauto. }
  rewrite <- Hws, <- list_fmap_compose.
  rewrite (concat_singletons (URL ∘ fst)); [done|].
  intros i [at' p] Hi. cbn. pose proof (Hfin _ _ _ Hi) as ->.
  apply finished_downloads. by apply worker_stage, (inv_hist _ _ HI).
Qed.

End FanOutFacts.

(** *** The handlers at work *)

Section AtWork.
Import Stub Demo Bot.
#[local] Existing Instance stubRuntime.

Lemma filler_length n : String.length (filler n) = n.
Proof. induction n as [|n IH]; [done|]. cbn. by rewrite IH. Qed.

(** A log of 11 MiB, kept opaque: only its length matters. *)
Lemma elevenMiB : { s : string | len s = 11 * 1024 * 1024 }.
Proof.
  exists (filler (Z.to_nat (11 * 1024 * 1024))). unfold len.
  rewrite filler_length. apply Z2Nat.id. lia.
Qed.

(** C1: in [main.go] a refused paste ends the process.  The message has
    two plain-text attachments; the paste service refuses the first, which
    is empty; [log.Fatalf] exits, the second attachment is never
    downloaded and nothing is sent. *)
Theorem C1_main_go_fatal_on_refused_paste :
  let o := sequential true "" [empty; hello] in
  exit o
  = Exited "Failed to paste log: Required POST argument 'content' is empty."
  /\ downloadsOf (events o) = [emptyURL]
  /\ embedsOf (events o) = [].
Proof. repeat split; reflexivity. Qed.

(** The same message in the fan-out handler: the refused paste drops its
    own attachment only, and the other one is in the reply. *)
Lemma fanout_replies_for_the_sibling :
  let st := fanOut true "" twoWorkers [empty; hello] in
  status st = Some (Returned tt)
  /\ submissions (trace st) = ["content=hello+world"; "content="]
  /\ ((fun ce => Fields ce.2) <$> sends (trace st))
     = [[fieldOf thePaste theInsights]].
Proof. repeat split; reflexivity. Qed.

(** C2: a paste that succeeded and insights that could not be had.  The
    request for the insights times out; [GetInsights] returns a nil
    pointer with the error; the error is logged and the code reads
    [an.Title]: the goroutine panics, the process dies, no field is
    appended and no reply is sent. *)
Theorem C2_insights_failure_panics :
  let st := fanOut false "" oneWorker [hello] in
  status st = Some (Panicked nilDereference)
  /\ acceptedPastes (trace st) = [thePaste]
  /\ appendedFields (trace st) = []
  /\ sends (trace st) = [].
Proof. repeat split; reflexivity. Qed.

(** C5, as stated, fails: an attachment declared at 11 MiB whose download
    is short is submitted and gets its field in the reply. *)
Lemma C5_declared_size_is_not_looked_at :
  let st := fanOut true "" oneWorker [overdeclared] in
  Size overdeclared = 11 * 1024 * 1024
  /\ 10 * 1024 * 1024 < Size overdeclared
  /\ status st = Some (Returned tt)
  /\ submissions (trace st) = ["content=hello+world"]
  /\ ((fun ce => Fields ce.2) <$> sends (trace st))
     = [[fieldOf thePaste theInsights]].
Proof. repeat split; reflexivity. Qed.

(** C4 at work: the 11 MiB download is not submitted; [hello.txt] is. *)
Lemma C4_size_ceiling_witness :
  let large := proj1_sig elevenMiB in
  let st := fanOut true large [Producer; Producer; Worker 0] [big] in
  let st' := fanOut true "" oneWorker [hello] in
  ((Worker 0, EvGet bigURL (plainText large)) ∈ trace st
   /\ (forall req b, (Worker 0, EvDo req b) ∉ trace st)
   /\ (forall f, (Worker 0, EvAppend f) ∉ trace st))
  /\ ((Worker 0, EvGet helloURL (plainText "hello world")) ∈ trace st'
      /\ exists b, (Worker 0, EvDo (pasteRequest mclc "hello world") b)
                   ∈ trace st').
Proof.
  intros large st st'.
  assert ((Worker 0, EvGet bigURL (plainText large)) ∈ trace st) as Hin.
  { apply (list_elem_of_lookup_2 _ 1%nat). reflexivity. }
  assert ((Worker 0, EvGet helloURL (plainText "hello world")) ∈ trace st')
    as Hin'.
  { apply (list_elem_of_lookup_2 _ 1%nat). reflexivity. }
  split; (split; [done|]).
  - destruct (@C4_size_ceiling stubRuntime _ _ _ _ _ _ _ large Hin eq_refl)
      as (_ & Hbig & _).
    apply Hbig. unfold large. rewrite (proj2_sig elevenMiB). reflexivity.
  - destruct (@C4_size_ceiling stubRuntime _ _ _ _ _ _ _ "hello world" Hin'
                eq_refl) as (_ & _ & Hsmall).
    destruct Hsmall as [_ Hret]; [by cbv|reflexivity|].
    apply Hret. reflexivity.
Defined.

(** C5 at work: the attachment whose download is the 11 MiB log. *)
Lemma C5_eleven_MiB_body_witness :
  let large := proj1_sig elevenMiB in
  let st := fanOut true large [Producer; Producer; Worker 0] [big] in
  (workers st).*1 !! 0%nat = Some big
  /\ (Worker 0, EvGet (URL big) (plainText large)) ∈ trace st
  /\ len large = 11 * 1024 * 1024
  /\ workers st !! 0%nat = Some (big, Ret tt)
  /\ (forall req b, (Worker 0, EvDo req b) ∉ trace st)
  /\ (forall f, (Worker 0, EvAppend f) ∉ trace st).
Proof.
  intros large st.
  assert ((workers st).*1 !! 0%nat = Some big) as Hw by reflexivity.
  assert ((Worker 0, EvGet (URL big) (plainText large)) ∈ trace st) as Hin.
  { apply (list_elem_of_lookup_2 _ 1%nat). reflexivity. }
  split; [done|]. split; [done|]. split; [apply (proj2_sig elevenMiB)|].
  apply (@C5_eleven_MiB_body stubRuntime _ _ _ _ 0%nat big _ large Hw Hin
           eq_refl (proj2_sig elevenMiB)).
Defined.


(** C8 at work: the paste of ["hello world"]. *)
Lemma C8_PasteLog_contract_witness :
  let o := @exec stubRuntime (scripted (script true "")) _
             (Client.PasteLog mclc "hello world") tt [] [] in
  @NewRequest_error stubRuntime "POST" (Mclogs.BaseURL mclc +:+ "/1/log") = None
  /\ events o
     = [EvDo (pasteRequest mclc "hello world")
             (Ok (jsonResponse 200 (JSONPaste thePaste)))]
  /\ ReqBody (pasteRequest mclc "hello world") = "content=hello+world".
Proof.
  intros o.
  destruct (@C8_PasteLog_contract stubRuntime (scripted (script true ""))
              mclc "hello world" tt eq_refl) as (Hev & _ & Hbody & _).
  split; [reflexivity|]. split; [exact Hev|reflexivity].
Defined.

(** C9 at work: ["hello world"] through an empty service. *)
Lemma C9_round_trip_witness :
  stringContainsCTLByte (Mclogs.BaseURL mclc) = false
  /\ exit (@exec stubRuntime (service (Mclogs.BaseURL mclc)) _
             (pasteThenFetch mclc "hello world") (mkService ∅ 0) [] [])
     = Returned ("hello world", None).
Proof.
  split; [reflexivity|].
  apply (C9_round_trip mclc "hello world" (mkService ∅ 0)). reflexivity.
Defined.

End AtWork.

(** *** More runs *)

Section MoreAtWork.
Import Stub Demo Bot.
#[local] Existing Instance stubRuntime.

Lemma failed_paste_is_the_last_event_witness :
  let o := sequential true "" [hello; empty] in
  let o' := sequentialSlog true "" [hello; empty] in
  let e := "Required POST argument 'content' is empty." in
  (EvDo (pasteRequest mclc "") refusal ∈ events o
   /\ pasteFailure refusal = Some e)
  /\ last (events o) = Some (EvDo (pasteRequest mclc "") refusal)
  /\ exit o = Exited ("Failed to paste log: " +:+ e)
  /\ last (events o') = Some (EvDo (pasteRequest mclc "") refusal)
  /\ exit o' = Returned tt.
Proof.
  intros o o' e.
  assert (EvDo (pasteRequest mclc "") refusal ∈ events o) as Hin.
  { apply (list_elem_of_lookup_2 _ 7%nat). reflexivity. }
  assert (pasteFailure refusal = Some e) as Hfail by reflexivity.
  split; [by split|].
  exact (@failed_paste_is_the_last_event stubRuntime
           (scripted (script true "")) (message [hello; empty]) tt
           (pasteRequest mclc "") refusal e Hin Hfail).
Defined.


Lemma sequential_submissions_witness :
  let o := sequential true "" [hello; empty] in
  let o' := sequentialSlog true "" [hello; empty] in
  @NewRequest_error stubRuntime "POST" (Mclogs.BaseURL mclc +:+ "/1/log") = None
  /\ omap bodyOf (events o) = ["hello world"; ""]
  /\ events o' = events o
  /\ omap submitted (events o)
     = (fun body => "content=" +:+ url_QueryEscape body)
       <$> List.filter (fun body => len body <=? 10 * 1024 * 1024)
                       (omap bodyOf (events o)).
Proof.
  intros o o'.
  assert (@NewRequest_error stubRuntime "POST"
            (Mclogs.BaseURL mclc +:+ "/1/log") = None) as Hnew by reflexivity.
  split; [done|]. split; [reflexivity|].
  exact (@sequential_submissions stubRuntime (scripted (script true ""))
           (message [hello; empty]) tt Hnew).
Defined.


Lemma field_pairs_title_and_link_witness :
  let st := fanOut true "" oneWorker [hello] in
  let f := {| Name := "Vanilla 1.21 Server Log"; Value := "https://mclo.gs/abc";
              Inline := true |} in
  (Worker 0, EvAppend f) ∈ trace st
  /\ exists at' a body b pr c an,
       workers st !! 0%nat = Some (at', Ret tt)
       /\ List.filter isPlain [hello] !! 0%nat = Some at'
       /\ history 0 (trace st)
          = [EvGet (URL at') a; EvDo (pasteRequest mclc body) b;
             EvDo (insightsRequest mclc (Mclogs.ID pr)) c; EvAppend f]
       /\ downloaded a body /\ len body <= maxBody
       /\ pasted b pr /\ analysed c an
       /\ f = {| Name := Mclogs.Title an; Value := Mclogs.URL pr; Inline := true |}.
Proof.
  intros st f.
  assert ((Worker 0, EvAppend f) ∈ trace st) as Hin.
  { apply (list_elem_of_lookup_2 _ 4%nat). reflexivity. }
  split; [exact Hin|].
  exact (@field_pairs_title_and_link stubRuntime (scripted (script true ""))
           oneWorker (message [hello]) tt 0%nat f Hin).
Defined.






Lemma each_attachment_downloaded_once_witness :
  let st := fanOut true "" twoWorkers [empty; hello] in
  ((1 <= length [empty; hello] <= 5)%nat /\ status st = Some (Returned tt))
  /\ downloads (trace st) = [helloURL; emptyURL]
  /\ downloads (trace st) ≡ₚ URL <$> List.filter isPlain [empty; hello].
Proof.
  intros st.
  assert (1 <= length [empty; hello] <= 5)%nat as Hm by (cbn; lia).
  assert (status st = Some (Returned tt)) as Hret by reflexivity.
  split; [by split|]. split; [reflexivity|].
  exact (@each_attachment_downloaded_once stubRuntime (scripted (script true ""))
           twoWorkers (message [empty; hello]) tt Hm Hret).
Defined.

Lemma first_handler_has_no_cap_witness :
  let m := message (replicate 6 hello) in
  let r := @MainFirst.handleMessageCreate stubRuntime (scripted (script true ""))
             delivered m tt in
  (r.1.1 = Returned tt
   /\ downloadsOf (omap madeBy r.2) = replicate 6 helloURL
   /\ omap saidBy r.2
      = replicate 6 ("general",
          "Your logs were uploaded for easier reading: https://mclo.gs/abc")
   /\ events (sequential true "" (replicate 6 hello)) = [])
  /\ Forall getOrDo (omap madeBy r.2).
Proof.
  intros m r. split; [repeat split; reflexivity|].
  exact (proj1 (@first_handler_has_no_cap stubRuntime (scripted (script true ""))
                  delivered m tt)).
Defined.

End MoreAtWork.
